(** * np_eyetracking.lims_dlc: a shallow embedding and its properties

    The module [src/np_eyetracking/lims_dlc.py] stages the raw video files of
    a session for DLC processing in lims and later looks up the results.
    This file embeds its functions in Rocq, one definition per Python
    function and with the Python names, and proves properties of them.

    Conventions of the embedding:
    - a Python [str] is a [string] whose characters are read as the code
      points 0..255; file names outside that range are not covered;
    - a [pathlib.Path] is a parent directory and a final component;
    - a directory is the list of its entry names in the order in which
      [os.scandir] yields them (that order is not specified by the OS, so
      statements quantify over it);
    - [session.state] is a finite map from keys to Python values;
    - every call into [np_session], [np_tools], the file system or the
      logger is recorded in a trace; calls that can fail consult an oracle
      of the collaborator and raise what it answers;
    - assertions are enabled (the interpreter runs without [-O]). *)

From Stdlib Require Import ZArith Ascii String DecimalString.
From stdpp Require Import base option list gmap strings fin_maps.

(** ** Python strings *)

Module Py.

(** [c.lower()] on one code point below 256: A-Z and the Latin-1 capitals
    (0xC0-0xDE without the multiplication sign 0xD7) move up by 32. *)
Definition lower_char (c : ascii) : ascii :=
  let n := N_of_ascii c in
  if ((65 <=? n) && (n <=? 90))%N
     || ((192 <=? n) && (n <=? 222) && negb (n =? 215))%N
  then ascii_of_N (n + 32) else c.

(** [s.lower()] *)
Fixpoint lower (s : string) : string :=
  match s with
  | EmptyString => EmptyString
  | String c s' => String (lower_char c) (lower s')
  end.

(** [sub in s] *)
Fixpoint contains (sub s : string) : bool :=
  String.prefix sub s
  || match s with
     | EmptyString => false
     | String _ s' => contains sub s'
     end.

(** [s.rfind('.')], with [None] for Python's [-1]; [i] is the index of the
    first character of [s] in the whole string. *)
Fixpoint rfind_dot (i : nat) (s : string) : option nat :=
  match s with
  | EmptyString => None
  | String c s' =>
      match rfind_dot (S i) s' with
      | Some j => Some j
      | None => if Ascii.eqb c "." then Some i else None
      end
  end.

(** [s[i:]] *)
Fixpoint slice_from (i : nat) (s : string) : string :=
  match i, s with
  | O, _ => s
  | S i', String _ s' => slice_from i' s'
  | S _, EmptyString => EmptyString
  end.

(** [bool(s)]: the empty string is falsy. *)
Definition truthy_str (s : string) : bool :=
  match s with EmptyString => false | String _ _ => true end.

(** [sep.join(parts)] *)
Fixpoint join (sep : string) (parts : list string) : string :=
  match parts with
  | [] => ""
  | [p] => p
  | p :: rest => p +:+ sep +:+ join sep rest
  end.

End Py.

(** ** fnmatch patterns as pathlib compiles them *)

Module Fnmatch.

Inductive token :=
| TStar                       (* [*]: any run of characters *)
| TAny                        (* [?]: one character *)
| TClass (cls : list ascii)   (* [[...]]: one character of the set *)
| TLit (c : ascii).

(** The text between an opening bracket and the next closing one. The
    patterns of this module have no [!], [-] or [\]] inside brackets, so
    negation and ranges do not arise and a class is a plain set. *)
Fixpoint close_bracket (s : string) : option (list ascii * string) :=
  match s with
  | EmptyString => None
  | String c s' =>
      if Ascii.eqb c "]" then Some ([], s')
      else '(cls, rest) ← close_bracket s'; Some (c :: cls, rest)
  end.

(** [fnmatch.translate]; the fuel is the length of the pattern. *)
Fixpoint translate_aux (fuel : nat) (pat : string) : list token :=
  match fuel, pat with
  | O, _ | _, EmptyString => []
  | S fuel', String c pat' =>
      if Ascii.eqb c "*" then TStar :: translate_aux fuel' pat'
      else if Ascii.eqb c "?" then TAny :: translate_aux fuel' pat'
      else if Ascii.eqb c "[" then
        match close_bracket pat' with
        | Some (cls, rest) => TClass cls :: translate_aux fuel' rest
        | None => TLit c :: translate_aux fuel' pat'
        end
      else TLit c :: translate_aux fuel' pat'
  end.

Definition translate (pat : string) : list token :=
  translate_aux (String.length pat) pat.

(** Two characters are the same to the matcher: exactly, or up to case
    when the pattern is compiled with [re.IGNORECASE]. *)
Definition same_char (ignorecase : bool) (a b : ascii) : bool :=
  if ignorecase then Ascii.eqb (Py.lower_char a) (Py.lower_char b)
  else Ascii.eqb a b.

(** [re.fullmatch] of the translated pattern. *)
Fixpoint matches (ignorecase : bool) (toks : list token) (s : string) : bool :=
  match toks with
  | [] => match s with EmptyString => true | _ => false end
  | TStar :: toks' =>
      (fix star (s : string) : bool :=
         matches ignorecase toks' s
         || match s with
            | EmptyString => false
            | String _ s' => star s'
            end) s
  | TAny :: toks' =>
      match s with
      | EmptyString => false
      | String _ s' => matches ignorecase toks' s'
      end
  | TClass cls :: toks' =>
      match s with
      | EmptyString => false
      | String c s' =>
          existsb (same_char ignorecase c) cls && matches ignorecase toks' s'
      end
  | TLit a :: toks' =>
      match s with
      | EmptyString => false
      | String c s' => same_char ignorecase c a && matches ignorecase toks' s'
      end
  end.

Definition fnmatch (ignorecase : bool) (pat name : string) : bool :=
  matches ignorecase (translate pat) name.

End Fnmatch.

(** ** pathlib paths *)

Record Path := mkPath { parent : string; name : string }.

(** The path flavour: [PureWindowsPath] matches glob patterns without regard
    to case and joins with a backslash, [PurePosixPath] is case sensitive and
    joins with a slash. *)
Inductive Flavour := Windows | Posix.

Definition ignorecase (fl : Flavour) : bool :=
  match fl with Windows => true | Posix => false end.

Definition sep (fl : Flavour) : string :=
  match fl with Windows => "\" | Posix => "/" end.

(** [str(path)] *)
Definition path_str (fl : Flavour) (p : Path) : string :=
  parent p +:+ sep fl +:+ name p.

(** [path.suffix]: from the last dot of the name, unless that dot is the
    first or the last character of the name (or there is none). *)
Definition suffix (p : Path) : string :=
  match Py.rfind_dot 0 (name p) with
  | Some i =>
      if (0 <? i)%nat && (i <? String.length (name p) - 1)%nat
      then Py.slice_from i (name p) else ""
  | None => ""
  end.

(** [dir.glob(pat)] for a pattern of one component: the entries of [dir]
    whose name matches, in scandir order. *)
Definition glob1 (fl : Flavour) (dir : string) (entries : list string)
    (pat : string) : list Path :=
  mkPath dir <$> filter (λ n, Fnmatch.fnmatch (ignorecase fl) pat n = true) entries.


(** ** Python values, exceptions, results *)

(** What [session.state] holds: this module stores a string under ['spoof']
    and [True] under ['dlc_started']; [PyNone] is what [.get] answers for an
    absent key. *)
Inductive PyVal :=
| PyNone
| PyBool (b : bool)
| PyStr (s : string).

(** [bool(v)] *)
Definition truthy (v : PyVal) : bool :=
  match v with
  | PyNone => false
  | PyBool b => b
  | PyStr s => Py.truthy_str s
  end.

Inductive Exn :=
| AssertionError (msg : string)
| FileNotFoundError (msg : string)
| KeyError (key : string)
| TypeError (msg : string)
| OSError (msg : string).

Inductive Result (A : Type) :=
| Ok (a : A)
| Raise (e : Exn).
Arguments Ok {A} a.
Arguments Raise {A} e.

(** ** The world the module runs in *)

Inductive Level := DEBUG | INFO.

(** Calls that leave the module, in program order, each with what it
    answered: [None] when a call that returns nothing came back, [Some exn]
    when it raised. *)
Inductive Event :=
| EvLog (lvl : Level) (msg : string)
    (* logger.debug / logger.info *)
| EvGenerate (mouse : Z) (user : string) (answer : Result string)
    (* np_session.PipelineSession(np_session.generate_ephys_session(mouse, user)) *)
| EvCopy (src : Path) (dest : string) (answer : option Exn)
    (* np_tools.copy(src, dest) *)
| EvWriteText (file : Path) (text : string) (answer : option Exn)
    (* file.write_text(text) *)
| EvTrigger (job : string) (answer : option Exn).
    (* np_session.write_trigger_file(job) *)

(** A [np_session.PipelineSession] is known by its string: [str(spoof)] is
    what the module stores and [PipelineSession(existing)] is built from it
    again, so the embedding takes [str(PipelineSession(s)) = s]. *)
Record PipelineSession := mkPipelineSession { ps_str : string }.

(** The directory behind [spoof_session.lims_path]: its own path and its
    entries in scandir order, a file as [(name, None)] and a directory as
    [(name, Some children)] with the names of its entries. *)
Record LimsDir := mkLimsDir {
  lims_root : string;
  lims_entries : list (string * option (list string));
}.

Record World := mkWorld {
  session : string;                       (* str(session) *)
  npexp_path : string;                    (* str(session.npexp_path) *)
  npexp_entries : list string;            (* entries of session.npexp_path *)
  lims_path : string → option LimsDir;    (* PipelineSession(id).lims_path *)
  state : gmap string PyVal;              (* session.state *)
  trace : list Event;
}.

Definition with_state (f : gmap string PyVal → gmap string PyVal) (w : World) : World :=
  mkWorld (session w) (npexp_path w) (npexp_entries w) (lims_path w)
          (f (state w)) (trace w).

Definition with_event (e : Event) (w : World) : World :=
  mkWorld (session w) (npexp_path w) (npexp_entries w) (lims_path w)
          (state w) (trace w ++ [e]).

(** The collaborators the module does not define: [np_session], [np_tools]
    and the file system. An oracle sees the trace so far, so that a call may
    fail once and succeed on a retry. [generate_ephys_session] answers the
    string of the pipeline session built from the new lims session. *)
Class Collaborators := {
  flavour : Flavour;
  DEFAULT_INCOMING_ROOT : string;
  generate_ephys_session : Z → string → list Event → Result string;
  np_tools_copy : Path → string → list Event → option Exn;
  write_text : Path → string → list Event → option Exn;
  write_trigger_file : string → list Event → option Exn;
}.

(** ** Computations: state passing with exceptions *)

Definition M (A : Type) : Type := World → Result A * World.

Global Instance M_ret : MRet M := λ A a w, (Ok a, w).
Global Instance M_bind : MBind M := λ A B f m w,
  match m w with
  | (Ok a, w') => f a w'
  | (Raise e, w') => (Raise e, w')
  end.

Definition raise {A} (e : Exn) : M A := λ w, (Raise e, w).

(** [assert cond, msg] *)
Definition assert (cond : bool) (msg : string) : M unit :=
  if cond then mret tt else raise (AssertionError msg).

Definition world : M World := λ w, (Ok w, w).

Definition emit (e : Event) : M unit := λ w, (Ok tt, with_event e w).

Definition logger_info (msg : string) : M unit := emit (EvLog INFO msg).
Definition logger_debug (msg : string) : M unit := emit (EvLog DEBUG msg).

(** [session.state.get(key)] *)
Definition state_get (key : string) : M PyVal :=
  λ w, (Ok (default PyNone (state w !! key)), w).

(** [session.state[key] = v] *)
Definition state_set (key : string) (v : PyVal) : M unit :=
  λ w, (Ok tt, with_state <[key := v]> w).

(** A call to a collaborator that returns nothing: the oracle decides
    whether it raises, and the call is recorded with that answer. *)
Definition call (e : option Exn → Event) (oracle : list Event → option Exn) : M unit :=
  λ w, match oracle (trace w) with
       | None => (Ok tt, with_event (e None) w)
       | Some exn => (Raise exn, with_event (e (Some exn)) w)
       end.

(** ** Insertion-ordered dictionaries *)

(** A Python [dict] keeps its keys in insertion order, and [json.dumps] and
    [.values()] follow that order, so the dictionaries the module builds are
    lists of items. *)
Module Dict.

Definition t (V : Type) : Type := list (string * V).

(** [d.get(k)] *)
Fixpoint get {V} (k : string) (d : t V) : option V :=
  match d with
  | [] => None
  | (k', v) :: d' => if String.eqb k k' then Some v else get k d'
  end.

(** [d[k] = v]: a present key keeps its place, a new one goes last. *)
Fixpoint set {V} (k : string) (v : V) (d : t V) : t V :=
  match d with
  | [] => [(k, v)]
  | (k', v') :: d' =>
      if String.eqb k k' then (k', v) :: d' else (k', v') :: set k v d'
  end.

Definition keys {V} (d : t V) : list string := fst <$> d.
Definition values {V} (d : t V) : list V := snd <$> d.

End Dict.

(** ** json.dumps *)

Module Json.

Definition dquote : string := String "034"%char "".

Definition hex_digit (n : N) : ascii :=
  if (n <? 10)%N then ascii_of_N (48 + n) else ascii_of_N (87 + n).

(** One character under [ensure_ascii=True]: the short escapes of
    [ESCAPE_DCT], [\u00xx] for the other characters outside space..~. *)
Definition escape_char (c : ascii) : string :=
  let n := N_of_ascii c in
  if (n =? 34)%N then "\" +:+ dquote
  else if (n =? 92)%N then "\\"
  else if (n =? 8)%N then "\b"
  else if (n =? 12)%N then "\f"
  else if (n =? 10)%N then "\n"
  else if (n =? 13)%N then "\r"
  else if (n =? 9)%N then "\t"
  else if ((n <? 32) || (126 <? n))%N then
    "\u00" +:+ String (hex_digit (n / 16)) (String (hex_digit (n mod 16)) "")
  else String c "".

Fixpoint escape (s : string) : string :=
  match s with
  | EmptyString => ""
  | String c s' => escape_char c +:+ escape s'
  end.

Definition encode_string (s : string) : string :=
  dquote +:+ escape s +:+ dquote.

(** The values this module serialises: strings and dicts with string keys. *)
Local Unset Elimination Schemes.
Inductive value :=
| JString (s : string)
| JObject (items : list (string * value)).
Local Set Elimination Schemes.

(** [json.dumps(v)] with the default separators. *)
Fixpoint dumps (v : value) : string :=
  match v with
  | JString s => encode_string s
  | JObject items =>
      "{" +:+ Py.join ", "
                (List.map (λ kv, encode_string (fst kv) +:+ ": " +:+ dumps (snd kv))
                          items)
          +:+ "}"
  end.

End Json.

(** [str(n)] for an [int]. *)
Definition str_int (n : Z) : string := NilZero.string_of_int (Z.to_int n).

(** [str(v)] as an f-string formats a value of the state store. *)
Definition str_val (v : PyVal) : string :=
  match v with
  | PyNone => "None"
  | PyBool true => "True"
  | PyBool false => "False"
  | PyStr s => s
  end.

(** ** The functions of lims_dlc.py *)

Section lims_dlc.
Context `{C : Collaborators}.

(** [np_session.PipelineSession(np_session.generate_ephys_session(mouse, user))] *)
Definition new_pipeline_session (mouse : Z) (user : string) : M PipelineSession :=
  λ w, let answer := generate_ephys_session mouse user (trace w) in
       match answer with
       | Ok s => (Ok (mkPipelineSession s), with_event (EvGenerate mouse user answer) w)
       | Raise e => (Raise e, with_event (EvGenerate mouse user answer) w)
       end.

Definition generate_spoof_ecephys_session (labtracks_mouse_id : Z)
    : M PipelineSession :=
  logger_info ("Creating spoof lims ecephys session with mouse "
               +:+ str_int labtracks_mouse_id +:+ ".");;
  new_pipeline_session labtracks_mouse_id "ben.hardcastle".

Definition get_spoof_ecephys_session : M PipelineSession :=
  w ← world;
  existing ← state_get "spoof";
  if truthy existing then
    logger_debug ("Spoof lims ephys session already exists for " +:+ session w
                  +:+ ": " +:+ str_val existing);;
    match existing with
    | PyStr s => mret (mkPipelineSession s)
    | _ => raise (TypeError "PipelineSession")
    end
  else
    spoof ← generate_spoof_ecephys_session 366122;
    logger_info ("Writing spoof ephys session ID to `session.state["
                 +:+ Json.dquote +:+ "spoof" +:+ Json.dquote +:+ "]`");;
    state_set "spoof" (PyStr (ps_str spoof));;
    mret spoof.

(** Lines 47-61: the key one globbed path gets; every [if] is tried in
    turn, so a later cue overwrites an earlier one. *)
Definition lims_name (path : Path) : string :=
  let key := "" in
  let key :=
    if String.eqb (Py.lower (suffix path)) ".mp4" then
      let key := if Py.contains "eye" (Py.lower (name path))
                 then "eye_tracking" else key in
      let key := if Py.contains "face" (Py.lower (name path))
                 then "face_tracking" else key in
      let key := if Py.contains "side" (Py.lower (name path))
                    || Py.contains "behavior" (Py.lower (name path))
                 then "behavior_tracking" else key in
      key
    else key in
  let key :=
    if String.eqb (Py.lower (suffix path)) ".json" then
      let key := if Py.contains "eye" (Py.lower (name path))
                 then "eye_cam_json" else key in
      let key := if Py.contains "face" (Py.lower (name path))
                 then "face_cam_json" else key in
      let key := if Py.contains "side" (Py.lower (name path))
                    || Py.contains "behavior" (Py.lower (name path))
                 then "beh_cam_json" else key in
      key
    else key in
  key.

(** The body of the [for] loop of [get_video_files], over the paths the
    glob has left to yield. *)
Fixpoint get_video_files_loop (paths : list Path)
    (lims_name_to_path : Dict.t Path) : M (Dict.t Path) :=
  match paths with
  | [] => mret lims_name_to_path
  | path :: paths' =>
      let key := lims_name path in
      assert (Py.truthy_str key)
             ("Not an expected raw video data mp4 or json: "
              +:+ path_str flavour path);;
      w ← world;
      match Dict.get key lims_name_to_path with
      | Some first =>
          raise (AssertionError ("Duplicate files found for " +:+ session w
                                 +:+ ": " +:+ name first +:+ ", " +:+ name path))
      | None => get_video_files_loop paths' (Dict.set key path lims_name_to_path)
      end
  end.

Definition get_video_files : M (Dict.t Path) :=
  w ← world;
  lims_name_to_path ←
    get_video_files_loop
      (glob1 flavour (npexp_path w) (npexp_entries w)
             "[eye|face|side|behavior]*[.mp4|.json]")
      [];
  assert (match lims_name_to_path with [] => false | _ => true end)
         ("No raw video data found: " +:+ session w);;
  mret lims_name_to_path.

Definition write_platform_json (spoof_session : PipelineSession) : M Path :=
  let filename := ps_str spoof_session +:+ "_platform.json" in
  let file := mkPath DEFAULT_INCOMING_ROOT filename in
  video_files ← get_video_files;
  let text :=
    Json.dumps
      (Json.JObject
         [("files",
           Json.JObject
             (List.map (λ kv, (fst kv,
                               Json.JObject [("filename", Json.JString (name (snd kv)))]))
                       video_files))]) in
  call (EvWriteText file text) (write_text file text);;
  mret file.

Fixpoint copy_each (files : list Path) : M unit :=
  match files with
  | [] => mret tt
  | f :: files' =>
      call (EvCopy f DEFAULT_INCOMING_ROOT) (np_tools_copy f DEFAULT_INCOMING_ROOT);;
      copy_each files'
  end.

Definition copy_video_files_to_lims_incoming_dir : M unit :=
  video_files ← get_video_files;
  copy_each (Dict.values video_files).

Definition upload_video_data_to_lims : M unit :=
  spoof_session ← get_spoof_ecephys_session;
  state_set "spoof" (PyStr (ps_str spoof_session));;
  logger_info "Copying video files to incoming dir.";;
  copy_video_files_to_lims_incoming_dir;;
  logger_info ("Writing platform json for spoof session in lims incoming dir."
               +:+ "Copied video files will be specified in manifest for upload.");;
  write_platform_json spoof_session;;
  logger_info "Writing trigger file to init upload.";;
  call (EvTrigger (ps_str spoof_session)) (write_trigger_file (ps_str spoof_session));;
  state_set "dlc_started" (PyBool true).

(** [lims_path.glob('*_tracking/*')]: every entry of every directory of
    the root whose name matches the first component. *)
Definition glob_tracking (d : LimsDir) : list Path :=
  '(sub, children) ← lims_entries d;
  match children with
  | Some entries =>
      if Fnmatch.fnmatch (ignorecase flavour) "*_tracking" sub
      then glob1 flavour (lims_root d +:+ sep flavour +:+ sub) entries "*"
      else []
  | None => []
  end.

Definition get_dlc_paths : M (list Path) :=
  spoof ← state_get "spoof";
  dlc_started ← state_get "dlc_started";
  (if negb (truthy spoof) || negb (truthy dlc_started) then
     logger_info "DLC hasn't been run yet: launching now";;
     upload_video_data_to_lims
   else mret tt);;
  spoof_session ← get_spoof_ecephys_session;
  w ← world;
  match lims_path w (ps_str spoof_session) with
  | None =>
      raise (AssertionError ("No lims path found for spoofed session "
                             +:+ ps_str spoof_session))
  | Some d => mret (glob_tracking d)
  end.

(** Lines 109-118, once [get_dlc_paths] has returned [paths]. [None] is
    Python's [None], the answer for results that are not there yet. *)
Definition eye_tracking_paths_of (paths : list Path) : M (option (Dict.t Path)) :=
  match List.find (λ f, Py.contains "ellipse" (name f)) paths with
  | None =>
      dlc_started ← state_get "dlc_started";
      w ← world;
      if truthy dlc_started then
        logger_info ("Files not ready, but DLC has been started for "
                     +:+ session w +:+ " - check back later!");;
        mret None
      else raise (FileNotFoundError ("No ellipse .h5 file found for " +:+ session w))
  | Some dlc_path =>
      let label_to_path := [] in
      video_files ← get_video_files;
      match Dict.get "eye_cam_json" video_files with
      | None => raise (KeyError "eye_cam_json")
      | Some meta =>
          let label_to_path :=
            Dict.set "raw_eye_tracking_video_meta_data" meta label_to_path in
          let label_to_path :=
            Dict.set "raw_eye_tracking_filepath" dlc_path label_to_path in
          mret (Some label_to_path)
      end
  end.

Definition get_eye_tracking_paths : M (option (Dict.t Path)) :=
  paths ← get_dlc_paths;
  eye_tracking_paths_of paths.

End lims_dlc.

(** ** Observations on worlds and traces *)

(** The dictionary the loop of [get_video_files] has built once it went
    through [paths] without an error. *)
Definition items (paths : list Path) : Dict.t Path :=
  (λ p, (lims_name p, p)) <$> paths.

(** The paths the glob of [get_video_files] yields, in order. *)
Definition enumerated `{C : Collaborators} (w : World) : list Path :=
  glob1 flavour (npexp_path w) (npexp_entries w)
        "[eye|face|side|behavior]*[.mp4|.json]".

(** The characters between the brackets of that pattern, and the test
    that a character is one of them. *)
Definition first_chars : list ascii := list_ascii_of_string "eye|face|side|behavior".
Definition last_chars : list ascii := list_ascii_of_string ".mp4|.json".
Definition in_class (fl : Flavour) (cls : list ascii) (c : ascii) : bool :=
  existsb (Fnmatch.same_char (ignorecase fl) c) cls.

(** The messages of the last two assertions of [get_video_files]. *)
Definition duplicate_msg (w : World) (first path : Path) : string :=
  "Duplicate files found for " +:+ session w +:+ ": "
  +:+ name first +:+ ", " +:+ name path.

Definition no_data_msg (w : World) : string :=
  "No raw video data found: " +:+ session w.

(** The role the prose gives a file that carries several cues: the cue that
    is checked last wins, [side]/[behavior] over [face] over [eye]. [video]
    tells the [.mp4] branch from the [.json] branch and [n] is the lowered
    name. *)
Definition last_cue_role (video : bool) (n : string) : string :=
  if Py.contains "side" n || Py.contains "behavior" n
  then (if video then "behavior_tracking" else "beh_cam_json")
  else if Py.contains "face" n
  then (if video then "face_tracking" else "face_cam_json")
  else if Py.contains "eye" n
  then (if video then "eye_tracking" else "eye_cam_json")
  else "".

Global Instance Path_eq_dec : EqDecision Path.
Proof. solve_decision. Defined.

(** ** What a run leaves behind *)

(** [session.state.get('spoof')] and [session.state.get('dlc_started')] *)
Definition spoof (w : World) : PyVal := default PyNone (state w !! "spoof").
Definition dlc_started (w : World) : PyVal := default PyNone (state w !! "dlc_started").



(** A trigger file that was written. *)
Definition is_trigger (e : Event) : bool :=
  match e with EvTrigger _ None => true | _ => false end.

Definition count (f : Event → bool) (t : list Event) : nat :=
  length (List.filter f t).

(** The log lines of the module. *)
Definition log_exists (w : World) (existing : PyVal) : Event :=
  EvLog DEBUG ("Spoof lims ephys session already exists for " +:+ session w
               +:+ ": " +:+ str_val existing).
Definition log_creating : Event :=
  EvLog INFO "Creating spoof lims ecephys session with mouse 366122.".
Definition log_writing_id : Event :=
  EvLog INFO ("Writing spoof ephys session ID to `session.state["
              +:+ Json.dquote +:+ "spoof" +:+ Json.dquote +:+ "]`").
Definition log_launching : Event :=
  EvLog INFO "DLC hasn't been run yet: launching now".
Definition log_not_ready (w : World) : Event :=
  EvLog INFO ("Files not ready, but DLC has been started for "
              +:+ session w +:+ " - check back later!").

(** ** Sequences of calls on one session *)

(** What a caller can do with a session, over and over: call a function of
    the module, or let time pass, after which the raw directory and the
    lims tree may look different. An exception ends the call it came from
    and the caller goes on with the next one. *)
Inductive Op :=
| OpResolve       (* get_spoof_ecephys_session(session) *)
| OpClassify      (* get_video_files(session) *)
| OpCopy          (* copy_video_files_to_lims_incoming_dir(session) *)
| OpManifest      (* write_platform_json(session, get_spoof_ecephys_session(session)) *)
| OpUpload        (* upload_video_data_to_lims(session) *)
| OpDlcPaths      (* get_dlc_paths(session) *)
| OpRetrieve      (* get_eye_tracking_paths(session) *)
| OpElapse (entries : list string) (lims : string → option LimsDir).

Definition run_op `{C : Collaborators} (op : Op) (w : World) : World :=
  match op with
  | OpResolve => (get_spoof_ecephys_session w).2
  | OpClassify => (get_video_files w).2
  | OpCopy => (copy_video_files_to_lims_incoming_dir w).2
  | OpManifest =>
      ((spoof_session ← get_spoof_ecephys_session;
        write_platform_json spoof_session) w).2
  | OpUpload => (upload_video_data_to_lims w).2
  | OpDlcPaths => (get_dlc_paths w).2
  | OpRetrieve => (get_eye_tracking_paths w).2
  | OpElapse entries lims =>
      mkWorld (session w) (npexp_path w) entries lims (state w) (trace w)
  end.

Definition run `{C : Collaborators} (ops : list Op) (w : World) : World :=
  foldl (λ w op, run_op op w) w ops.

(** A computation keeps a relation between the world before and after. *)
Definition preserves (R : World → World → Prop) {A} (m : M A) : Prop :=
  ∀ w, R w (m w).2.


(** A call of the create operation names mouse 366122 and the user
    ben.hardcastle; other events are not constrained. *)
Definition fixed_identity (e : Event) : Prop :=
  match e with
  | EvGenerate mouse user _ => mouse = 366122%Z ∧ user = "ben.hardcastle"
  | _ => True
  end.

(** The trace has grown by events that all satisfy [P]. *)
Definition grows_by (P : Event → Prop) (w w' : World) : Prop :=
  ∃ evs, trace w' = trace w ++ evs ∧ Forall P evs.

(** ** The manifest as the prose has it *)

(** A text with every apostrophe read as a double quote, to write JSON
    down legibly. *)
Fixpoint dq (s : string) : string :=
  match s with
  | EmptyString => EmptyString
  | String c s' => String (if Ascii.eqb c "'" then "034"%char else c) (dq s')
  end.

(** [role: {"filename": basename}] *)
Definition manifest_entry (kv : string * Path) : string :=
  Json.encode_string kv.1 +:+ dq ": {'filename': "
  +:+ Json.encode_string (name kv.2) +:+ "}".

(** [{"files": {role: {"filename": basename}, ...}}], the entries in the
    order of the dictionary. *)
Definition manifest_text (files : Dict.t Path) : string :=
  dq "{'files': {" +:+ Py.join ", " (manifest_entry <$> files) +:+ "}}".

(** [<intake-dir>/<job-identifier>_platform.json] *)
Definition manifest_file `{C : Collaborators} (job : PipelineSession) : Path :=
  mkPath DEFAULT_INCOMING_ROOT (ps_str job +:+ "_platform.json").

(** ** What an upload changes *)

(** The session and the file systems are the same in both worlds. *)
Definition same_files (w w' : World) : Prop :=
  session w' = session w ∧ npexp_path w' = npexp_path w
  ∧ npexp_entries w' = npexp_entries w ∧ lims_path w' = lims_path w.

(** The store is untouched and no trigger file was written. *)
Definition quiet (w w' : World) : Prop :=
  same_files w w' ∧ state w' = state w
  ∧ count is_trigger (trace w') = count is_trigger (trace w).

(** One trigger file was written and the session is marked as started. *)
Definition launched (w w' : World) : Prop :=
  same_files w w' ∧ state w' = <["dlc_started" := PyBool true]> (state w)
  ∧ count is_trigger (trace w') = S (count is_trigger (trace w)).

(** A computation that relates the worlds by [Rok] when it returns and by
    [R] when it raises. *)
Definition ensures (R Rok : World → World → Prop) {A} (m : M A) : Prop :=
  ∀ w, match m w with
       | (Ok _, w') => Rok w w'
       | (Raise _, w') => R w w'
       end.

(** Lines 104-106 and 109-118: what [get_eye_tracking_paths] does once it
    has decided about the upload. *)
Definition inspect_outputs `{C : Collaborators} : M (option (Dict.t Path)) :=
  paths ← (spoof_session ← get_spoof_ecephys_session;
           w ← world;
           match lims_path w (ps_str spoof_session) with
           | None =>
               raise (AssertionError ("No lims path found for spoofed session "
                                      +:+ ps_str spoof_session))
           | Some d => mret (glob_tracking d)
           end);
  eye_tracking_paths_of paths.

(** The test of line 101. *)
Definition not_started (w : World) : bool :=
  negb (truthy (spoof w)) || negb (truthy (dlc_started w)).

(** ** What the retriever looks for and answers *)

(** The test of line 109 on one path of the lims tree. *)
Definition is_ellipse (f : Path) : bool := Py.contains "ellipse" (name f).

(** The dictionary of lines 115-118. *)
Definition bundle (meta dlc_path : Path) : Dict.t Path :=
  [("raw_eye_tracking_video_meta_data", meta);
   ("raw_eye_tracking_filepath", dlc_path)].

Definition no_lims_path_msg (job : string) : string :=
  "No lims path found for spoofed session " +:+ job.

Definition no_ellipse_msg (w : World) : string :=
  "No ellipse .h5 file found for " +:+ session w.

(** The world a retrieval hands to the upload: the launch is logged. *)
Definition launching (w : World) : World := with_event log_launching w.

(** No trigger file was written between the two worlds. *)
Definition no_trigger (w w' : World) : Prop :=
  count is_trigger (trace w') = count is_trigger (trace w).

(** ** Concrete collaborators and sessions

    Used to run the embedding on explicit inputs. *)
Module Examples.

(** [np_session.DEFAULT_INCOMING_ROOT] as each flavour prints it. *)
Definition incoming (fl : Flavour) : string :=
  match fl with
  | Windows => "\\allen\programs\braintv\production\incoming"
  | Posix => "/allen/programs/braintv/production/incoming"
  end.

(** Collaborators that never fail; lims answers with one fixed session. *)
Definition reliable (fl : Flavour) : Collaborators := {|
  flavour := fl;
  DEFAULT_INCOMING_ROOT := incoming fl;
  generate_ephys_session := λ _ _ _, Ok "1250000000_366122_20230201";
  np_tools_copy := λ _ _ _, None;
  write_text := λ _ _ _, None;
  write_trigger_file := λ _ _, None;
|}.

(** A session on a Windows host, with the given raw directory, lims tree
    and store. *)
Definition session_with (entries : list string)
    (lims : string → option LimsDir) (st : gmap string PyVal) : World :=
  mkWorld "DRpilot_644864_20230201"
          "\\allen\programs\mindscope\workgroups\np-exp\DRpilot_644864_20230201"
          entries lims st [].

(** The same session on a Posix host. *)
Definition posix_session_with (entries : list string)
    (lims : string → option LimsDir) (st : gmap string PyVal) : World :=
  mkWorld "DRpilot_644864_20230201"
          "/allen/programs/mindscope/workgroups/np-exp/DRpilot_644864_20230201"
          entries lims st [].

Definition no_lims : string → option LimsDir := λ _, None.

End Examples.

Module Directories.

(** A raw directory as the rig writes it: three cameras, a video and a
    json file each. *)
Definition rig : list string :=
  ["Behavior_20230201T122604.json"; "Behavior_20230201T122604.mp4";
   "Eye_20230201T122604.json"; "Eye_20230201T122604.mp4";
   "Face_20230201T122604.json"; "Face_20230201T122604.mp4"].

(** The same six files under names that start with the mouse. *)
Definition prefixed : list string :=
  ["mouse_eye.mp4"; "mouse_face.mp4"; "mouse_side.mp4";
   "mouse_eye.json"; "mouse_face.json"; "mouse_behavior.json"].

End Directories.

Module Scenes.

Definition job : string := "1250000000_366122_20230201".

(** The store of a session whose upload went through. *)
Definition started : gmap string PyVal :=
  <["dlc_started" := PyBool true]> (<["spoof" := PyStr job]> ∅).

(** The lims directory of the job before DLC has written its results. *)
Definition running_dir : LimsDir :=
  mkLimsDir "\\allen\programs\braintv\production\prod0\ecephys_session_1250000000"
    [("eye_tracking", Some ["Eye_20230201T122604DLC_resnet50.h5"]);
     ("upload.log", None)].

Definition lims_running : string → option LimsDir := λ _, Some running_dir.

(** The lims directory of the job with the results of DLC. *)
Definition done_dir : LimsDir :=
  mkLimsDir "\\allen\programs\braintv\production\prod0\ecephys_session_1250000000"
    [("upload.log", None);
     ("eye_tracking",
      Some ["Eye_20230201T122604DLC_resnet50.h5";
            "Eye_20230201T122604_ellipse.h5";
            "Eye_20230201T122604_ellipse_debug.h5"]);
     ("face_tracking", Some ["Face_20230201T122604_ellipse.h5"])].

Definition lims_done : string → option LimsDir := λ _, Some done_dir.

(** Collaborators whose first write of a manifest fails: the disk is full
    once, later writes go through. *)
Definition disk_full_once (fl : Flavour) : Collaborators := {|
  flavour := fl;
  DEFAULT_INCOMING_ROOT := Examples.incoming fl;
  generate_ephys_session := λ _ _ _, Ok job;
  np_tools_copy := λ _ _ _, None;
  write_text := λ _ _ t,
    if existsb (λ e, match e with EvWriteText _ _ _ => true | _ => false end) t
    then None else Some (OSError "No space left on device");
  write_trigger_file := λ _ _, None;
|}.

End Scenes.

(** ** Further observations *)

(** The six keys of lines 50-61. *)
Definition roles : list string :=
  ["eye_tracking"; "face_tracking"; "behavior_tracking";
   "eye_cam_json"; "face_cam_json"; "beh_cam_json"].

(** The message of the assertion of line 62. *)
Definition unexpected_msg `{C : Collaborators} (path : Path) : string :=
  "Not an expected raw video data mp4 or json: " +:+ path_str flavour path.

(** The world after the calls [evs], the store as it was. *)
Definition with_events (evs : list Event) (w : World) : World :=
  mkWorld (session w) (npexp_path w) (npexp_entries w) (lims_path w)
          (state w) (trace w ++ evs).

(** Copies that went through, one per file, into the incoming directory. *)
Definition copied `{C : Collaborators} (files : list Path) : list Event :=
  (λ f, EvCopy f DEFAULT_INCOMING_ROOT None) <$> files.

(** The remaining log lines of [upload_video_data_to_lims]. *)
Definition log_copying : Event :=
  EvLog INFO "Copying video files to incoming dir.".
Definition log_manifest : Event :=
  EvLog INFO ("Writing platform json for spoof session in lims incoming dir."
              +:+ "Copied video files will be specified in manifest for upload.").
Definition log_trigger : Event :=
  EvLog INFO "Writing trigger file to init upload.".

(** A name as a glob pattern of the flavour sees it: lowered when the
    flavour ignores case. *)
Definition fold_case (fl : Flavour) (s : string) : string :=
  if ignorecase fl then Py.lower s else s.

(** Lines 91-98: the upload after the job is resolved and stored. *)
Definition upload_steps `{C : Collaborators} (spoof_session : PipelineSession) : M unit :=
  logger_info "Copying video files to incoming dir.";;
  copy_video_files_to_lims_incoming_dir;;
  logger_info ("Writing platform json for spoof session in lims incoming dir."
               +:+ "Copied video files will be specified in manifest for upload.");;
  write_platform_json spoof_session;;
  logger_info "Writing trigger file to init upload.";;
  call (EvTrigger (ps_str spoof_session)) (write_trigger_file (ps_str spoof_session));;
  state_set "dlc_started" (PyBool true).

(** Lines 104-106: what [get_dlc_paths] does once it has decided about the
    upload. *)
Definition list_outputs `{C : Collaborators} : M (list Path) :=
  spoof_session ← get_spoof_ecephys_session;
  w ← world;
  match lims_path w (ps_str spoof_session) with
  | None =>
      raise (AssertionError ("No lims path found for spoofed session "
                             +:+ ps_str spoof_session))
  | Some d => mret (glob_tracking d)
  end.

(** Every call but a direct call of the upload. *)
Definition is_poll (op : Op) : bool :=
  match op with OpUpload => false | _ => true end.

(** Between two worlds of one session no trigger file was written and a
    started session is still started, or the session was not started, one
    trigger file was written and it is started now. *)
Definition one_launch (w w' : World) : Prop :=
  (count is_trigger (trace w') = count is_trigger (trace w)
   ∧ (not_started w = false → not_started w' = false))
  ∨ (not_started w = true
     ∧ count is_trigger (trace w') = S (count is_trigger (trace w))
     ∧ not_started w' = false).

(** ** The prose of the module, for comparison *)

(** The roles the prose gives a file: one for each pair of an extension,
    [.mp4] or [.json], and a cue, [eye], [face] or [side]/[behavior], that
    its name has; extension and cues are compared without case. A file is
    valid for a role when this list is that role alone. *)
Definition valid_roles (p : Path) : list string :=
  let n := Py.lower (name p) in
  let ext := Py.lower (suffix p) in
  (if String.eqb ext ".mp4" then
     (if Py.contains "eye" n then ["eye_tracking"] else [])
     ++ (if Py.contains "face" n then ["face_tracking"] else [])
     ++ (if Py.contains "side" n || Py.contains "behavior" n
         then ["behavior_tracking"] else [])
   else [])
  ++ (if String.eqb ext ".json" then
        (if Py.contains "eye" n then ["eye_cam_json"] else [])
        ++ (if Py.contains "face" n then ["face_cam_json"] else [])
        ++ (if Py.contains "side" n || Py.contains "behavior" n
            then ["beh_cam_json"] else [])
      else []).


Module Outages.


End Outages.

(** ** Dictionaries *)

Section dict_facts.
Context {V : Type}.
Implicit Types (d : Dict.t V) (k : string) (v : V).

Lemma dict_get_None k d : Dict.get k d = None ↔ k ∉ Dict.keys d.
Proof.
  induction d as [|[k' v'] d IH]; simpl.
  - split; [intros _; apply not_elem_of_nil | done].
  - destruct (String.eqb_spec k k') as [->|Hne].
    + split; [done | intros Hk; destruct Hk; left].
    + rewrite IH, not_elem_of_cons. split; [by intros ? | by intros [_ ?]].
Qed.

Lemma dict_get_Some_elem k v d : Dict.get k d = Some v → (k, v) ∈ d.
Proof.
  induction d as [|[k' v'] d IH]; simpl; [done|].
  destruct (String.eqb_spec k k') as [->|Hne].
  - intros [= ->]. left.
  - intros ?. right. auto.
Qed.

Lemma dict_elem_get k v d :
  NoDup (Dict.keys d) → (k, v) ∈ d → Dict.get k d = Some v.
Proof.
  induction d as [|[k' v'] d IH]; simpl.
  - intros _ ?%elem_of_nil. done.
  - intros [Hk Hd]%NoDup_cons [Heq|Hin]%elem_of_cons.
    + simplify_eq. by rewrite String.eqb_refl.
    + destruct (String.eqb_spec k k') as [->|Hne]; [|by auto].
      destruct Hk. apply list_elem_of_fmap. by exists (k', v).
Qed.

Lemma dict_set_fresh k v d :
  Dict.get k d = None → Dict.set k v d = d ++ [(k, v)].
Proof.
  induction d as [|[k' v'] d IH]; simpl; [done|].
  destruct (String.eqb k k'); [done|]. intros ?. f_equal. auto.
Qed.

End dict_facts.

(** ** The classifier *)

Section classifier_facts.
Context `{C : Collaborators}.
Implicit Types (paths : list Path) (d : Dict.t Path) (w : World).

Lemma keys_items paths : Dict.keys (items paths) = lims_name <$> paths.
Proof. unfold Dict.keys, items. rewrite <-list_fmap_compose. done. Qed.

Lemma get_video_files_loop_world paths d w :
  (get_video_files_loop paths d w).2 = w.
Proof.
  revert d. induction paths as [|p paths IH]; intros d; [done|].
  cbn. destruct (Py.truthy_str (lims_name p)); [|done].
  cbn. destruct (Dict.get (lims_name p) d); [done|]. apply IH.
Qed.
End classifier_facts.
(** Unfolding of the computation primitives. *)
Ltac msimpl :=
  repeat (progress (cbn;
    unfold mbind, M_bind, mret, M_ret, world, raise, assert, emit, call,
      logger_info, logger_debug, state_get, state_set; cbn)).

Section classifier_facts2.
Context `{C : Collaborators}.
Implicit Types (paths processed : list Path) (d : Dict.t Path) (w : World).

Lemma items_snoc processed p :
  items (processed ++ [p]) = items processed ++ [(lims_name p, p)].
Proof. unfold items. by rewrite fmap_app. Qed.

Lemma truthy_str_ne s : s ≠ "" → Py.truthy_str s = true.
Proof. by destruct s. Qed.

Lemma get_items_fresh processed p paths :
  NoDup (lims_name <$> (processed ++ p :: paths)) →
  Dict.get (lims_name p) (items processed) = None.
Proof.
  rewrite fmap_app, fmap_cons. intros Hnd.
  apply dict_get_None. rewrite keys_items.
  apply NoDup_app in Hnd as (_ & Hdisj & _).
  intros Hin. apply (Hdisj _ Hin). left.
Qed.

Lemma get_video_files_loop_ok paths processed w :
  Forall (λ p, lims_name p ≠ "") paths →
  NoDup (lims_name <$> (processed ++ paths)) →
  get_video_files_loop paths (items processed) w
  = (Ok (items (processed ++ paths)), w).
Proof.
  revert processed. induction paths as [|p paths IH]; intros processed Hrec Hnd.
  - by rewrite app_nil_r.
  - apply Forall_cons in Hrec as [Hp Hrec].
    cbn. rewrite (truthy_str_ne _ Hp). msimpl.
    rewrite (get_items_fresh _ _ _ Hnd).
    rewrite dict_set_fresh by (by eapply get_items_fresh).
    rewrite <-items_snoc. msimpl. rewrite IH; [|done|by rewrite <-app_assoc].
    by rewrite <-app_assoc.
Qed.

Lemma get_video_files_unfold w :
  get_video_files w
  = match get_video_files_loop (enumerated w) [] w with
    | (Ok [], w') => (Raise (AssertionError (no_data_msg w)), w')
    | (Ok files, w') => (Ok files, w')
    | (Raise e, w') => (Raise e, w')
    end.
Proof.
  unfold get_video_files, enumerated. msimpl.
  destruct (get_video_files_loop _ _ _) as [[[|kv files]|e] w']; done.
Qed.

Lemma get_video_files_world w : (get_video_files w).2 = w.
Proof.
  rewrite get_video_files_unfold.
  pose proof (get_video_files_loop_world (enumerated w) [] w) as Hw.
  destruct (get_video_files_loop _ _ _) as [[[|kv files]|e] w']; done.
Qed.

Lemma get_video_files_ok w :
  enumerated w ≠ [] →
  Forall (λ p, lims_name p ≠ "") (enumerated w) →
  NoDup (lims_name <$> enumerated w) →
  get_video_files w = (Ok (items (enumerated w)), w).
Proof.
  intros Hne Hrec Hnd. rewrite get_video_files_unfold.
  change (@nil (string * Path)) with (items []).
  rewrite get_video_files_loop_ok by done. simpl.
  destruct (enumerated w); done.
Qed.
End classifier_facts2.

(** ** Case of file names *)

Lemma lower_char_idemp c : Py.lower_char (Py.lower_char c) = Py.lower_char c.
Proof. by destruct c as [[] [] [] [] [] [] [] []]. Qed.

Lemma lower_char_dot c : Ascii.eqb (Py.lower_char c) "." = Ascii.eqb c ".".
Proof. by destruct c as [[] [] [] [] [] [] [] []]. Qed.

Lemma lower_idemp s : Py.lower (Py.lower s) = Py.lower s.
Proof. induction s as [|c s IH]; simpl; [done|]. by rewrite lower_char_idemp, IH. Qed.

Lemma lower_length s : String.length (Py.lower s) = String.length s.
Proof. induction s as [|c s IH]; simpl; [done|]. by rewrite IH. Qed.

Lemma rfind_dot_lower i s : Py.rfind_dot i (Py.lower s) = Py.rfind_dot i s.
Proof.
revert i. induction s as [|c s IH]; intros i; simpl; [done|].
by rewrite IH, lower_char_dot.
Qed.

Lemma slice_from_lower i s :
  Py.slice_from i (Py.lower s) = Py.lower (Py.slice_from i s).
Proof.
revert s. induction i as [|i IH]; intros [|c s]; simpl; auto.
Qed.

Lemma suffix_lower d n :
  suffix (mkPath d (Py.lower n)) = Py.lower (suffix (mkPath d n)).
Proof.
unfold suffix; simpl. rewrite rfind_dot_lower, lower_length.
destruct (Py.rfind_dot 0 n) as [i|]; [|done].
destruct (_ && _); [|done]. apply slice_from_lower.
Qed.

(** The role of a file does not depend on the case of its name. *)
Lemma lims_name_lower d n : lims_name (mkPath d (Py.lower n)) = lims_name (mkPath d n).
Proof.
unfold lims_name. rewrite suffix_lower. simpl. by rewrite !lower_idemp.
Qed.

Lemma same_char_lower c a :
  Fnmatch.same_char true (Py.lower_char c) a = Fnmatch.same_char true c a.
Proof. unfold Fnmatch.same_char. by rewrite lower_char_idemp. Qed.

(** A pattern compiled with [re.IGNORECASE] does not see the case either. *)
Lemma matches_lower toks s :
  Fnmatch.matches true toks (Py.lower s) = Fnmatch.matches true toks s.
Proof.
revert s. induction toks as [|tok toks IH]; intros s.
- by destruct s.
- destruct tok as [| |cls|a].
  + induction s as [|c s IHs]; simpl in *.
    * done.
    * rewrite IHs. f_equal. apply (IH (String c s)).
  + destruct s as [|c s]; simpl; [done|]. apply IH.
  + destruct s as [|c s]; simpl; [done|]. rewrite IH. f_equal.
    clear. induction cls as [|a cls IHc]; cbn [existsb]; [done|].
    by rewrite IHc, same_char_lower.
  + destruct s as [|c s]; cbn [Fnmatch.matches Py.lower]; [done|].
    by rewrite IH, same_char_lower.
Qed.

(** ** What the glob of [get_video_files] lets through *)

Lemma matches_star_class ci (cls : list ascii) (s : string) :
  Fnmatch.matches ci [Fnmatch.TStar; Fnmatch.TClass cls] s = true
  ↔ ∃ mid c, s = mid +:+ String c "" ∧ existsb (Fnmatch.same_char ci c) cls = true.
Proof.
induction s as [|a s IH].
- simpl. split; [done|]. intros (mid & c & Hs & _). by destruct mid.
- change (Fnmatch.matches ci [Fnmatch.TStar; Fnmatch.TClass cls] (String a s))
    with (existsb (Fnmatch.same_char ci a) cls
          && match s with EmptyString => true | _ => false end
          || Fnmatch.matches ci [Fnmatch.TStar; Fnmatch.TClass cls] s).
  rewrite orb_true_iff, andb_true_iff, IH. split.
  + intros [[Ha Hs]|(mid & c & -> & Hc)].
    * destruct s; [|done]. by exists "", a.
    * by exists (String a mid), c.
  + intros ([|a' mid] & c & Hs & Hc).
    * injection Hs as -> ->. by left.
    * injection Hs as -> ->. right. by exists mid, c.
Qed.

(** The glob keeps the names of two characters or more whose first
    character is one of the first class and whose last character is one of
    the second class; nothing else of the name matters. *)
Lemma enumerated_first_last (fl : Flavour) (n : string) :
  Fnmatch.fnmatch (ignorecase fl) "[eye|face|side|behavior]*[.mp4|.json]" n = true
  ↔ ∃ c mid c', n = String c (mid +:+ String c' "")
                ∧ in_class fl first_chars c = true
                ∧ in_class fl last_chars c' = true.
Proof.
unfold Fnmatch.fnmatch.
change (Fnmatch.translate "[eye|face|side|behavior]*[.mp4|.json]")
  with [Fnmatch.TClass first_chars; Fnmatch.TStar; Fnmatch.TClass last_chars].
destruct n as [|c s].
- split; [done|]. by intros (c & mid & c' & Hn & _).
- change (Fnmatch.matches (ignorecase fl)
            [Fnmatch.TClass first_chars; Fnmatch.TStar; Fnmatch.TClass last_chars]
            (String c s))
    with (in_class fl first_chars c
          && Fnmatch.matches (ignorecase fl)
               [Fnmatch.TStar; Fnmatch.TClass last_chars] s).
  rewrite andb_true_iff, matches_star_class. split.
  + intros (Hc & mid & c' & -> & Hc'). by exists c, mid, c'.
  + intros (c0 & mid & c' & Hn & Hc & Hc'). injection Hn as -> ->.
    split; [done|]. by exists mid, c'.
Qed.

(** ** Computations *)

Lemma bind_run {A B} (m : M A) (f : A → M B) (w : World) :
  (m ≫= f) w
  = match m w with
    | (Ok a, w') => f a w'
    | (Raise e, w') => (Raise e, w')
    end.
Proof. done. Qed.

Lemma with_state_id (w : World) k v :
  state w !! k = Some v → with_state <[k := v]> w = w.
Proof. intros Hk. destruct w. unfold with_state; simpl in *. by rewrite insert_id. Qed.

Lemma count_app f (t1 t2 : list Event) : count f (t1 ++ t2) = count f t1 + count f t2.
Proof. unfold count. by rewrite List.filter_app, length_app. Qed.

Lemma count_snoc f (t : list Event) e :
  count f (t ++ [e]) = count f t + (if f e then 1 else 0).
Proof. rewrite count_app. unfold count. simpl. by destruct (f e). Qed.

(** ** The resolver *)

Section resolver_facts.
Context `{C : Collaborators}.

(** With an identifier in the store the resolver writes one debug line and
    answers the stored identifier. *)
Lemma get_spoof_ecephys_session_cached (w : World) (s : string) :
  state w !! "spoof" = Some (PyStr s) → s ≠ "" →
  get_spoof_ecephys_session w
  = (Ok (mkPipelineSession s), with_event (log_exists w (PyStr s)) w).
Proof.
intros Hs Hne. unfold get_spoof_ecephys_session. msimpl. rewrite Hs. simpl.
by rewrite (truthy_str_ne _ Hne).
Qed.

(** Without one it asks lims for a session for mouse 366122. *)
Lemma get_spoof_ecephys_session_fresh (w : World) :
  truthy (spoof w) = false →
  get_spoof_ecephys_session w
  = let w1 := with_event log_creating w in
    let answer := generate_ephys_session 366122 "ben.hardcastle" (trace w1) in
    let w2 := with_event (EvGenerate 366122 "ben.hardcastle" answer) w1 in
    match answer with
    | Ok s => (Ok (mkPipelineSession s),
               with_state <["spoof" := PyStr s]> (with_event log_writing_id w2))
    | Raise e => (Raise e, w2)
    end.
Proof.
intros Hs. unfold get_spoof_ecephys_session, spoof in *. msimpl. rewrite Hs.
unfold generate_spoof_ecephys_session, new_pipeline_session. msimpl.
by destruct (generate_ephys_session _ _ _).
Qed.

(** A stored value that is truthy but not a string cannot be turned into a
    session. *)
Lemma get_spoof_ecephys_session_junk (w : World) :
  spoof w = PyBool true →
  get_spoof_ecephys_session w
  = (Raise (TypeError "PipelineSession"), with_event (log_exists w (PyBool true)) w).
Proof.
intros Hs. unfold get_spoof_ecephys_session, spoof in *. msimpl. by rewrite Hs.
Qed.

(** The three ways a value of the store can look to the resolver. *)
Lemma spoof_cases (w : World) :
  (∃ s, state w !! "spoof" = Some (PyStr s) ∧ s ≠ "")
  ∨ spoof w = PyBool true
  ∨ truthy (spoof w) = false.
Proof.
unfold spoof. destruct (state w !! "spoof") as [[|[]|[|c s]]|] eqn:Hs; simpl; eauto.
Qed.

(** What the resolver answers is what the store holds afterwards. *)
Lemma get_spoof_ecephys_session_stores (w w' : World) (ps : PipelineSession) :
  get_spoof_ecephys_session w = (Ok ps, w') →
  state w' !! "spoof" = Some (PyStr (ps_str ps)).
Proof.
destruct (spoof_cases w) as [(s & Hs & Hne)|[Hjunk|Hfresh]].
- rewrite (get_spoof_ecephys_session_cached _ _ Hs Hne). by intros [= <- <-].
- by rewrite (get_spoof_ecephys_session_junk _ Hjunk).
- rewrite (get_spoof_ecephys_session_fresh _ Hfresh). simpl.
  destruct (generate_ephys_session _ _ _); [|done].
  intros [= <- <-]. simpl. apply lookup_insert_eq.
Qed.

End resolver_facts.

(** ** Relations that every call of the module keeps

    A reflexive and transitive relation on worlds that the steps of the
    module keep one by one is kept by every function of the module, and so
    by every sequence of calls. *)

Section preservation.
Context `{C : Collaborators}.
Variable R : World → World → Prop.
Hypothesis R_refl : ∀ w, R w w.
Hypothesis R_trans : ∀ w1 w2 w3, R w1 w2 → R w2 w3 → R w1 w3.

Lemma preserves_bind {A B} (m : M A) (f : A → M B) :
  preserves R m → (∀ a, preserves R (f a)) → preserves R (m ≫= f).
Proof.
intros Hm Hf w. rewrite bind_run. specialize (Hm w).
destruct (m w) as [[a|e] w1]; simpl in *; [|done].
eapply R_trans; [done|apply Hf].
Qed.

Lemma preserves_ret {A} (a : A) : preserves R (mret a).
Proof. intros w. apply R_refl. Qed.

Lemma preserves_raise {A} e : preserves R (raise (A := A) e).
Proof. intros w. apply R_refl. Qed.

Lemma preserves_assert cond msg : preserves R (assert cond msg).
Proof. destruct cond; [apply preserves_ret|apply preserves_raise]. Qed.

Lemma preserves_world : preserves R world.
Proof. intros w. apply R_refl. Qed.

Lemma preserves_state_get key : preserves R (state_get key).
Proof. intros w. apply R_refl. Qed.

Lemma preserves_get_video_files : preserves R get_video_files.
Proof. intros w. rewrite get_video_files_world. apply R_refl. Qed.

Hypothesis R_log : ∀ lvl msg w, R w (with_event (EvLog lvl msg) w).

Lemma preserves_logger_info msg : preserves R (logger_info msg).
Proof. intros w. apply R_log. Qed.

Hypothesis R_copy : ∀ src dest answer w, R w (with_event (EvCopy src dest answer) w).

Lemma preserves_copy_each files : preserves R (copy_each files).
Proof.
induction files as [|f files IH]; [apply preserves_ret|].
apply preserves_bind; [|done].
intros w. unfold call. destruct (np_tools_copy _ _ _); apply R_copy.
Qed.

Lemma preserves_copy_video_files_to_lims_incoming_dir :
  preserves R copy_video_files_to_lims_incoming_dir.
Proof.
apply preserves_bind; [apply preserves_get_video_files|].
intros files. apply preserves_copy_each.
Qed.

Hypothesis R_write : ∀ file text answer w, R w (with_event (EvWriteText file text answer) w).

Lemma preserves_write_platform_json spoof_session :
  preserves R (write_platform_json spoof_session).
Proof.
apply preserves_bind; [apply preserves_get_video_files|]. intros files.
apply preserves_bind; [|intros; apply preserves_ret].
intros w. unfold call. destruct (write_text _ _ _); apply R_write.
Qed.

Hypothesis R_resolve : preserves R get_spoof_ecephys_session.
Hypothesis R_trigger : ∀ job answer w, R w (with_event (EvTrigger job answer) w).
Hypothesis R_started : ∀ w, R w (with_state <["dlc_started" := PyBool true]> w).

Lemma preserves_upload_video_data_to_lims : preserves R upload_video_data_to_lims.
Proof.
intros w. unfold upload_video_data_to_lims. rewrite bind_run.
pose proof (R_resolve w) as Hres.
destruct (get_spoof_ecephys_session w) as [[ps|e] w1] eqn:Hrun; simpl in *; [|done].
eapply R_trans; [done|]. rewrite bind_run. unfold state_set at 1.
rewrite (with_state_id w1) by by eapply get_spoof_ecephys_session_stores.
clear Hrun Hres w. revert w1.
change (preserves R
  (logger_info "Copying video files to incoming dir.";;
   copy_video_files_to_lims_incoming_dir;;
   logger_info ("Writing platform json for spoof session in lims incoming dir."
                +:+ "Copied video files will be specified in manifest for upload.");;
   write_platform_json ps;;
   logger_info "Writing trigger file to init upload.";;
   call (EvTrigger (ps_str ps)) (write_trigger_file (ps_str ps));;
   state_set "dlc_started" (PyBool true))).
repeat first
  [ apply preserves_logger_info
  | apply preserves_copy_video_files_to_lims_incoming_dir
  | apply preserves_write_platform_json
  | apply preserves_bind; [|intros ?] ].
- intros w. unfold call. destruct (write_trigger_file _ _); apply R_trigger.
- intros w. apply R_started.
Qed.

Lemma preserves_get_dlc_paths : preserves R get_dlc_paths.
Proof.
unfold get_dlc_paths.
apply preserves_bind; [apply preserves_state_get|intros spoof].
apply preserves_bind; [apply preserves_state_get|intros started].
apply preserves_bind.
{ destruct (_ || _); [|apply preserves_ret].
  apply preserves_bind; [apply preserves_logger_info|intros _].
  apply preserves_upload_video_data_to_lims. }
intros _. apply preserves_bind; [done|intros ps].
apply preserves_bind; [apply preserves_world|intros w].
destruct (lims_path _ _); [apply preserves_ret|apply preserves_raise].
Qed.

Lemma preserves_eye_tracking_paths_of paths : preserves R (eye_tracking_paths_of paths).
Proof.
unfold eye_tracking_paths_of. destruct (List.find _ _) as [dlc_path|].
- apply preserves_bind; [apply preserves_get_video_files|intros files].
  destruct (Dict.get _ _); [apply preserves_ret|apply preserves_raise].
- apply preserves_bind; [apply preserves_state_get|intros started].
  apply preserves_bind; [apply preserves_world|intros w].
  destruct (truthy started); [|apply preserves_raise].
  apply preserves_bind; [apply preserves_logger_info|intros _; apply preserves_ret].
Qed.

Lemma preserves_get_eye_tracking_paths : preserves R get_eye_tracking_paths.
Proof.
apply preserves_bind; [apply preserves_get_dlc_paths|].
apply preserves_eye_tracking_paths_of.
Qed.

Hypothesis R_elapse : ∀ w entries lims,
  R w (mkWorld (session w) (npexp_path w) entries lims (state w) (trace w)).

Lemma preserves_run_op (op : Op) (w : World) : R w (run_op op w).
Proof.
destruct op; simpl.
- apply R_resolve.
- apply preserves_get_video_files.
- apply preserves_copy_video_files_to_lims_incoming_dir.
- apply preserves_bind; [done|]. apply preserves_write_platform_json.
- apply preserves_upload_video_data_to_lims.
- apply preserves_get_dlc_paths.
- apply preserves_get_eye_tracking_paths.
- apply R_elapse.
Qed.

Lemma preserves_run (ops : list Op) (w : World) : R w (run ops w).
Proof.
revert w. induction ops as [|op ops IH]; intros w; simpl; [apply R_refl|].
eapply R_trans; [apply preserves_run_op|apply IH].
Qed.

End preservation.

(** ** At most one job per session *)









Section one_job.
Context `{C : Collaborators}.

(** A pipeline session is known by the name of its folder, which is not
    empty: lims never answers the empty string. *)
Hypothesis lims_answers_a_name :
  ∀ mouse user t s, generate_ephys_session mouse user t = Ok s → s ≠ "".






End one_job.



(** ** Who a job is created for *)

Lemma grows_by_refl P (w : World) : grows_by P w w.
Proof. exists []. by rewrite app_nil_r. Qed.

Lemma grows_by_trans P (w1 w2 w3 : World) :
  grows_by P w1 w2 → grows_by P w2 w3 → grows_by P w1 w3.
Proof.
intros (evs & Ht & Hall) (evs' & Ht' & Hall'). exists (evs ++ evs').
split; [by rewrite Ht', Ht, app_assoc|by apply Forall_app].
Qed.

Lemma grows_by_event (P : Event → Prop) e (w : World) :
  P e → grows_by P w (with_event e w).
Proof. intros He. exists [e]. split; [done|]. by apply Forall_singleton. Qed.

Lemma grows_by_state P f (w : World) : grows_by P w (with_state f w).
Proof. exists []. simpl. by rewrite app_nil_r. Qed.

Section fixed_identity.
Context `{C : Collaborators}.

Lemma fixed_identity_resolve :
  preserves (grows_by fixed_identity) get_spoof_ecephys_session.
Proof.
intros w. destruct (spoof_cases w) as [(s & Hs & Hne)|[Hjunk|Hfresh]].
- rewrite (get_spoof_ecephys_session_cached _ _ Hs Hne). by apply grows_by_event.
- rewrite (get_spoof_ecephys_session_junk _ Hjunk). by apply grows_by_event.
- rewrite (get_spoof_ecephys_session_fresh _ Hfresh). simpl.
  destruct (generate_ephys_session _ _ _) as [s|e]; simpl.
  + eexists [_; _; _]. simpl. rewrite <-!app_assoc. split; [done|].
    by repeat constructor.
  + eexists [_; _]. simpl. rewrite <-!app_assoc. split; [done|].
    by repeat constructor.
Qed.

(** C10. When no identifier is stored, the resolver asks lims for a job
    once, for mouse 366122 and on behalf of ben.hardcastle, whatever the
    session is; nothing of the session goes into the call. Every job that
    any sequence of calls of the module creates is created that way. *)
Theorem get_spoof_ecephys_session_fixed_identity :
  (∀ w,
     truthy (spoof w) = false →
     let answer :=
       generate_ephys_session 366122 "ben.hardcastle" (trace w ++ [log_creating]) in
     trace (get_spoof_ecephys_session w).2
     = trace w ++ log_creating :: EvGenerate 366122 "ben.hardcastle" answer
               :: match answer with Ok _ => [log_writing_id] | Raise _ => [] end)
  ∧ (∀ ops w, grows_by fixed_identity w (run ops w)).
Proof.
split.
- intros w Hfresh answer. rewrite (get_spoof_ecephys_session_fresh _ Hfresh). simpl.
  fold answer. destruct answer; simpl; by rewrite <-!app_assoc.
- intros ops w. apply preserves_run; intros.
  + apply grows_by_refl.
  + by eapply grows_by_trans.
  + by apply grows_by_event.
  + by apply grows_by_event.
  + by apply grows_by_event.
  + apply fixed_identity_resolve.
  + by apply grows_by_event.
  + apply grows_by_state.
  + exists []. simpl. by rewrite app_nil_r.
Qed.

End fixed_identity.

Lemma get_spoof_ecephys_session_fixed_identity_witness :
  let w := Examples.session_with Directories.rig Examples.no_lims ∅ in
  trace (get_spoof_ecephys_session (C := Examples.reliable Windows) w).2
  = [log_creating;
     EvGenerate 366122 "ben.hardcastle" (Ok "1250000000_366122_20230201");
     log_writing_id].
Proof.
intros w.
exact (proj1 (get_spoof_ecephys_session_fixed_identity (C := Examples.reliable Windows))
         w eq_refl).
Defined.

(** ** The manifest *)

Lemma string_app_assoc (s1 s2 s3 : string) : (s1 +:+ s2) +:+ s3 = s1 +:+ s2 +:+ s3.
Proof.
induction s1 as [|c s1 IH]; [done|].
change (String c ((s1 +:+ s2) +:+ s3) = String c (s1 +:+ s2 +:+ s3)). by rewrite IH.
Qed.

Lemma string_app_cons c (s1 s2 : string) : String c s1 +:+ s2 = String c (s1 +:+ s2).
Proof. done. Qed.

(** What [json.dumps] makes of the dictionary of [write_platform_json] is
    the manifest of the prose. *)
Lemma dumps_manifest (files : Dict.t Path) :
  Json.dumps
    (Json.JObject
       [("files",
         Json.JObject
           (List.map (λ kv, (fst kv,
                             Json.JObject [("filename", Json.JString (name (snd kv)))]))
                     files))])
  = manifest_text files.
Proof.
unfold manifest_text. cbn [Json.dumps List.map Py.join fst snd].
rewrite List.map_map. cbn [fst snd Json.dumps List.map Py.join].
replace (List.map _ files) with (manifest_entry <$> files).
- generalize (Py.join ", " (manifest_entry <$> files)). intros entries.
  rewrite !string_app_assoc. by vm_compute.
- apply list_eq. intros i. rewrite list_lookup_fmap.
  change (List.map ?f ?l) with (f <$> l). rewrite list_lookup_fmap.
  destruct (files !! i) as [[k p]|]; [|done]. simpl. by f_equal.
Qed.

(** ** The upload *)

Lemma same_files_trans (w1 w2 w3 : World) :
  same_files w1 w2 → same_files w2 w3 → same_files w1 w3.
Proof. unfold same_files. intros (?&?&?&?) (?&?&?&?). split_and!; congruence. Qed.

Lemma quiet_refl (w : World) : quiet w w.
Proof. done. Qed.

Lemma quiet_trans (w1 w2 w3 : World) : quiet w1 w2 → quiet w2 w3 → quiet w1 w3.
Proof.
intros (Hf & Hs & Hn) (Hf' & Hs' & Hn').
split_and!; [by eapply same_files_trans|congruence..].
Qed.

Lemma quiet_event (e : Event) (w : World) :
  is_trigger e = false → quiet w (with_event e w).
Proof.
intros He. split_and!; [done..|]. simpl. rewrite count_snoc, He. lia.
Qed.

Lemma quiet_launched (w1 w2 w3 : World) : quiet w1 w2 → launched w2 w3 → launched w1 w3.
Proof.
intros (Hf & Hs & Hn) (Hf' & Hs' & Hn').
split_and!; [by eapply same_files_trans|congruence..].
Qed.

Section ensures.
Context `{C : Collaborators}.
Variables R Rok : World → World → Prop.
Hypothesis R_trans : ∀ w1 w2 w3, R w1 w2 → R w2 w3 → R w1 w3.
Hypothesis R_Rok : ∀ w1 w2 w3, R w1 w2 → Rok w2 w3 → Rok w1 w3.

Lemma ensures_bind {A B} (m : M A) (f : A → M B) :
  preserves R m → (∀ a, ensures R Rok (f a)) → ensures R Rok (m ≫= f).
Proof.
intros Hm Hf w. rewrite bind_run. specialize (Hm w).
destruct (m w) as [[a|e] w1]; simpl in *; [|done].
specialize (Hf a w1). destruct (f a w1) as [[b|e] w2]; eauto.
Qed.

End ensures.

Section upload_facts.
Context `{C : Collaborators}.

Lemma upload_video_data_to_lims_unfold (w : World) :
  upload_video_data_to_lims w
  = match get_spoof_ecephys_session w with
    | (Ok spoof_session, w1) =>
        (logger_info "Copying video files to incoming dir.";;
         copy_video_files_to_lims_incoming_dir;;
         logger_info ("Writing platform json for spoof session in lims incoming dir."
                      +:+ "Copied video files will be specified in manifest for upload.");;
         write_platform_json spoof_session;;
         logger_info "Writing trigger file to init upload.";;
         call (EvTrigger (ps_str spoof_session))
              (write_trigger_file (ps_str spoof_session));;
         state_set "dlc_started" (PyBool true)) w1
    | (Raise e, w1) => (Raise e, w1)
    end.
Proof.
unfold upload_video_data_to_lims. rewrite bind_run.
destruct (get_spoof_ecephys_session w) as [[ps|e] w1] eqn:Hrun; [|done].
rewrite bind_run. unfold state_set at 1.
by rewrite (with_state_id w1) by by eapply get_spoof_ecephys_session_stores.
Qed.

(** After the resolver has answered: the steps up to the trigger file are
    quiet, and the upload returns only after the trigger file is written. *)
Lemma upload_after_resolve (spoof_session : PipelineSession) :
  ensures quiet launched
    (logger_info "Copying video files to incoming dir.";;
     copy_video_files_to_lims_incoming_dir;;
     logger_info ("Writing platform json for spoof session in lims incoming dir."
                  +:+ "Copied video files will be specified in manifest for upload.");;
     write_platform_json spoof_session;;
     logger_info "Writing trigger file to init upload.";;
     call (EvTrigger (ps_str spoof_session))
          (write_trigger_file (ps_str spoof_session));;
     state_set "dlc_started" (PyBool true)).
Proof.
repeat first
  [ apply (ensures_bind quiet launched quiet_trans quiet_launched);
    [ first [ apply (preserves_logger_info quiet); intros; by apply quiet_event
            | apply (preserves_copy_video_files_to_lims_incoming_dir quiet);
              [apply quiet_refl|apply quiet_trans|intros; by apply quiet_event]
            | apply (preserves_write_platform_json quiet);
              [apply quiet_refl|apply quiet_trans|intros; by apply quiet_event] ]
    | intros _ ] ].
intros w. rewrite bind_run. unfold call.
destruct (write_trigger_file _ _) as [exn|]; simpl.
- by apply quiet_event.
- split_and!; [done..|]. simpl. rewrite count_snoc. simpl. lia.
Qed.

(** The resolver writes no trigger file and touches only ['spoof']. *)
Lemma get_spoof_ecephys_session_effect (w : World) :
  let w' := (get_spoof_ecephys_session w).2 in
  same_files w w'
  ∧ state w' !! "dlc_started" = state w !! "dlc_started"
  ∧ count is_trigger (trace w') = count is_trigger (trace w).
Proof.
destruct (spoof_cases w) as [(s & Hs & Hne)|[Hjunk|Hfresh]].
- rewrite (get_spoof_ecephys_session_cached _ _ Hs Hne). simpl.
  rewrite count_snoc. simpl. split_and!; [done..|lia].
- rewrite (get_spoof_ecephys_session_junk _ Hjunk). simpl.
  rewrite count_snoc. simpl. split_and!; [done..|lia].
- rewrite (get_spoof_ecephys_session_fresh _ Hfresh). simpl.
  destruct (generate_ephys_session _ _ _) as [s|e]; simpl;
    rewrite !count_snoc; simpl; split_and!; try done; try lia.
  by rewrite lookup_insert_ne.
Qed.

(** An upload that raises leaves the session as started as it was and has
    written no trigger file. *)
Lemma upload_video_data_to_lims_raises (w w' : World) (e : Exn) :
  upload_video_data_to_lims w = (Raise e, w') →
  same_files w w'
  ∧ state w' !! "dlc_started" = state w !! "dlc_started"
  ∧ count is_trigger (trace w') = count is_trigger (trace w).
Proof.
rewrite upload_video_data_to_lims_unfold.
pose proof (get_spoof_ecephys_session_effect w) as (Hf & Hs & Hn).
destruct (get_spoof_ecephys_session w) as [[ps|e0] w1]; simpl in *.
- intros Hrun. pose proof (upload_after_resolve ps w1) as Hrest.
  rewrite Hrun in Hrest. destruct Hrest as (Hf' & Hs' & Hn').
  split_and!; [by eapply same_files_trans|congruence..].
- by intros [= <- <-].
Qed.

(** An upload that returns has resolved the job, written one trigger file
    and marked the session as started. *)
Lemma upload_video_data_to_lims_returns (w w' : World) (u : unit) :
  upload_video_data_to_lims w = (Ok u, w') →
  ∃ spoof_session w1,
    get_spoof_ecephys_session w = (Ok spoof_session, w1)
    ∧ same_files w w'
    ∧ state w' = <["dlc_started" := PyBool true]> (state w1)
    ∧ state w' !! "spoof" = Some (PyStr (ps_str spoof_session))
    ∧ count is_trigger (trace w') = S (count is_trigger (trace w)).
Proof.
rewrite upload_video_data_to_lims_unfold.
pose proof (get_spoof_ecephys_session_effect w) as (Hf & Hs & Hn).
destruct (get_spoof_ecephys_session w) as [[ps|e0] w1] eqn:Hres; simpl in *; [|done].
intros Hrun. pose proof (upload_after_resolve ps w1) as Hrest.
rewrite Hrun in Hrest. destruct Hrest as (Hf' & Hs' & Hn').
exists ps, w1. split_and!; [done|by eapply same_files_trans|done| |congruence].
rewrite Hs', lookup_insert_ne by done.
by eapply get_spoof_ecephys_session_stores.
Qed.

End upload_facts.

(** ** The retriever *)

Lemma bind_assoc {A B D} (m : M A) (f : A → M B) (g : B → M D) (w : World) :
  ((m ≫= f) ≫= g) w = (m ≫= (λ a, f a ≫= g)) w.
Proof. rewrite !bind_run. by destruct (m w) as [[a|e] w1]. Qed.

(** The first element that passes a test splits the list. *)
Lemma find_first {A} (f : A → bool) (l : list A) (x : A) :
  List.find f l = Some x →
  ∃ l1 l2, l = l1 ++ x :: l2 ∧ f x = true ∧ Forall (λ y, f y = false) l1.
Proof.
induction l as [|y l IH]; simpl; [done|].
destruct (f y) eqn:Hy.
- intros [= ->]. exists [], l. by split_and!.
- intros (l1 & l2 & -> & Hx & Hl1)%IH. exists (y :: l1), l2.
  split_and!; [done..|]. by apply Forall_cons.
Qed.

Lemma find_elem {A} (f : A → bool) (l : list A) (x : A) :
  x ∈ l → f x = true → ∃ y, List.find f l = Some y.
Proof.
induction 1 as [x l|x y l Hin IH]; simpl; intros Hx.
- rewrite Hx. eauto.
- destruct (f y); eauto.
Qed.

Lemma fnmatch_star ci (n : string) : Fnmatch.fnmatch ci "*" n = true.
Proof.
unfold Fnmatch.fnmatch. change (Fnmatch.translate "*") with [Fnmatch.TStar].
induction n as [|c n IH]; [done|]. by simpl in *.
Qed.

Lemma fnmatch_tracking ci (pre : string) :
  Fnmatch.fnmatch ci "*_tracking" (pre +:+ "_tracking") = true.
Proof.
unfold Fnmatch.fnmatch.
assert (Fnmatch.matches ci (Fnmatch.translate "*_tracking") "_tracking" = true)
  as Hbase by by destruct ci.
induction pre as [|c pre IH]; [done|].
rewrite string_app_cons.
change (Fnmatch.translate "*_tracking") with
  (Fnmatch.TStar :: Fnmatch.translate "_tracking") in *.
cbn [Fnmatch.matches] in *. by rewrite IH, orb_true_r.
Qed.

Section retriever_facts.
Context `{C : Collaborators}.

(** The retriever runs the upload first when line 101 says so, once, and
    inspects the outputs after it has returned. *)
Lemma get_eye_tracking_paths_unfold (w : World) :
  get_eye_tracking_paths w
  = if not_started w then
      match upload_video_data_to_lims (launching w) with
      | (Ok _, w1) => inspect_outputs w1
      | (Raise e, w1) => (Raise e, w1)
      end
    else inspect_outputs w.
Proof.
unfold get_eye_tracking_paths, get_dlc_paths, inspect_outputs.
unfold not_started, spoof, dlc_started, launching.
rewrite bind_run. rewrite (bind_run (state_get "spoof")). unfold state_get at 1.
rewrite (bind_run (state_get "dlc_started")). unfold state_get at 1.
destruct (_ || _).
- rewrite !bind_run. unfold logger_info, emit.
  destruct (upload_video_data_to_lims _) as [[u|e] w1]; [|done].
  rewrite !bind_run. by destruct (get_spoof_ecephys_session w1) as [[ps|e] w2].
- rewrite !bind_run. unfold mret at 1, M_ret at 1.
  rewrite !bind_run. by destruct (get_spoof_ecephys_session w) as [[ps|e] w2].
Qed.

(** With the job in the store, inspecting the outputs is one debug line,
    the look-up of the lims path and the search for the ellipse file. *)
Lemma inspect_outputs_cached (w : World) (job : string) :
  state w !! "spoof" = Some (PyStr job) → job ≠ "" →
  inspect_outputs w
  = let w1 := with_event (log_exists w (PyStr job)) w in
    match lims_path w job with
    | Some d => eye_tracking_paths_of (glob_tracking d) w1
    | None => (Raise (AssertionError (no_lims_path_msg job)), w1)
    end.
Proof.
intros Hs Hne. unfold inspect_outputs. rewrite bind_run, bind_run.
rewrite (get_spoof_ecephys_session_cached _ _ Hs Hne). simpl.
rewrite bind_run. simpl. by destruct (lims_path w job).
Qed.

Lemma eye_tracking_paths_of_none (paths : list Path) (w : World) :
  List.find is_ellipse paths = None →
  eye_tracking_paths_of paths w
  = if truthy (dlc_started w)
    then (Ok None, with_event (log_not_ready w) w)
    else (Raise (FileNotFoundError (no_ellipse_msg w)), w).
Proof.
intros Hfind. unfold eye_tracking_paths_of.
change (λ f, Py.contains "ellipse" (name f)) with is_ellipse. rewrite Hfind.
unfold dlc_started. msimpl. by destruct (truthy _).
Qed.

Lemma eye_tracking_paths_of_some (paths : list Path) (dlc_path : Path) (w : World) :
  List.find is_ellipse paths = Some dlc_path →
  eye_tracking_paths_of paths w
  = match get_video_files w with
    | (Ok files, _) =>
        match Dict.get "eye_cam_json" files with
        | Some meta => (Ok (Some (bundle meta dlc_path)), w)
        | None => (Raise (KeyError "eye_cam_json"), w)
        end
    | (Raise e, _) => (Raise e, w)
    end.
Proof.
intros Hfind. unfold eye_tracking_paths_of.
change (λ f, Py.contains "ellipse" (name f)) with is_ellipse. rewrite Hfind.
rewrite bind_run. pose proof (get_video_files_world w) as Hw.
destruct (get_video_files w) as [[files|e] w1]; simpl in Hw; subst w1; [|done].
by destruct (Dict.get "eye_cam_json" files).
Qed.

Lemma get_video_files_loop_raises paths d (w w' : World) (e : Exn) :
  get_video_files_loop paths d w = (Raise e, w') → ∃ msg, e = AssertionError msg.
Proof.
revert d. induction paths as [|p paths IH]; intros d; [done|].
cbn. destruct (Py.truthy_str (lims_name p)); msimpl; [|intros [= <- _]; eauto].
destruct (Dict.get (lims_name p) d); [intros [= <- _]; eauto|]. apply IH.
Qed.

Lemma get_video_files_raises (w w' : World) (e : Exn) :
  get_video_files w = (Raise e, w') → ∃ msg, e = AssertionError msg.
Proof.
rewrite get_video_files_unfold.
destruct (get_video_files_loop _ _ _) as [[[|kv files]|e0] w1] eqn:Hloop.
- intros [= <- _]. eauto.
- done.
- intros [= <- _]. by eapply get_video_files_loop_raises.
Qed.

(** A directory of the lims root whose name ends in [_tracking] is globbed
    with all its entries. *)
Lemma glob_tracking_elem (d : LimsDir) (pre : string) (entries : list string) (f : string) :
  (pre +:+ "_tracking", Some entries) ∈ lims_entries d →
  f ∈ entries →
  mkPath (lims_root d +:+ sep flavour +:+ pre +:+ "_tracking") f ∈ glob_tracking d.
Proof.
intros Hsub Hf. unfold glob_tracking. apply list_elem_of_bind.
exists (pre +:+ "_tracking", Some entries). split; [|done]. simpl.
rewrite fnmatch_tracking. unfold glob1. apply list_elem_of_fmap.
exists f. split; [done|]. apply list_elem_of_filter. split; [|done].
apply fnmatch_star.
Qed.

Lemma inspect_outputs_no_trigger : preserves no_trigger inspect_outputs.
Proof.
assert (∀ e w, is_trigger e = false → no_trigger w (with_event e w)) as Hev.
{ intros e w He. unfold no_trigger. simpl. rewrite count_snoc, He. lia. }
assert (∀ w1 w2 w3, no_trigger w1 w2 → no_trigger w2 w3 → no_trigger w1 w3) as Htrans.
{ unfold no_trigger. congruence. }
unfold inspect_outputs. apply preserves_bind; [done| |].
- apply preserves_bind; [done| |].
  + intros w. apply get_spoof_ecephys_session_effect.
  + intros ps. apply preserves_bind; [done|by intros w|]. intros w.
    destruct (lims_path _ _); by intros w0.
- intros paths. apply preserves_eye_tracking_paths_of; [done..|].
  intros. by apply Hev.
Qed.

(** A started job that has no lims path yet stops the retriever at the
    assertion of line 105. *)
Lemma get_eye_tracking_paths_no_lims_path (w : World) (job : string) :
  state w !! "spoof" = Some (PyStr job) → job ≠ "" →
  truthy (dlc_started w) = true →
  lims_path w job = None →
  get_eye_tracking_paths w
  = (Raise (AssertionError (no_lims_path_msg job)),
     with_event (log_exists w (PyStr job)) w).
Proof.
intros Hs Hne Hstarted Hlims. rewrite get_eye_tracking_paths_unfold.
assert (not_started w = false) as ->.
{ unfold not_started, spoof. rewrite Hs, Hstarted. simpl.
  by rewrite (truthy_str_ne _ Hne). }
rewrite (inspect_outputs_cached _ _ Hs Hne). simpl. by rewrite Hlims.
Qed.

(** C3, as amended. With the job in the store, the session marked as
    started and a lims path for the job under which no file with [ellipse]
    in its name is globbed, the retriever answers [None] (pending): it
    writes two log lines and neither touches the store nor calls a
    collaborator, so no upload is started again. After the search has come
    up empty, [FileNotFoundError] with the name of the session is raised
    exactly when ['dlc_started'] is falsy at that point, and that is the
    only place where the code of the retriever raises it. *)
Theorem get_eye_tracking_paths_pending :
  (∀ w job d,
     state w !! "spoof" = Some (PyStr job) → job ≠ "" →
     truthy (dlc_started w) = true →
     lims_path w job = Some d →
     List.find is_ellipse (glob_tracking d) = None →
     get_eye_tracking_paths w
     = (Ok None,
        with_event (log_not_ready w) (with_event (log_exists w (PyStr job)) w)))
  ∧ (∀ paths w,
       List.find is_ellipse paths = None →
       eye_tracking_paths_of paths w
       = if truthy (dlc_started w)
         then (Ok None, with_event (log_not_ready w) w)
         else (Raise (FileNotFoundError (no_ellipse_msg w)), w))
  ∧ (∀ paths w msg w',
       eye_tracking_paths_of paths w = (Raise (FileNotFoundError msg), w') →
       List.find is_ellipse paths = None
       ∧ truthy (dlc_started w) = false
       ∧ msg = no_ellipse_msg w ∧ w' = w).
Proof.
split_and!.
- intros w job d Hs Hne Hstarted Hlims Hfind.
  rewrite get_eye_tracking_paths_unfold.
  assert (not_started w = false) as ->.
  { unfold not_started, spoof. rewrite Hs, Hstarted. simpl.
    by rewrite (truthy_str_ne _ Hne). }
  rewrite (inspect_outputs_cached _ _ Hs Hne). simpl. rewrite Hlims.
  rewrite (eye_tracking_paths_of_none _ _ Hfind).
  change (dlc_started (with_event _ w)) with (dlc_started w). by rewrite Hstarted.
- intros paths w Hfind. by apply eye_tracking_paths_of_none.
- intros paths w msg w'.
  destruct (List.find is_ellipse paths) as [dlc_path|] eqn:Hfind.
  + rewrite (eye_tracking_paths_of_some _ _ _ Hfind).
    destruct (get_video_files w) as [[files|e] w1] eqn:Hfiles.
    * by destruct (Dict.get "eye_cam_json" files).
    * apply get_video_files_raises in Hfiles as [m ->]. done.
  + rewrite (eye_tracking_paths_of_none _ _ Hfind).
    destruct (truthy (dlc_started w)); [done|]. by intros [= <- <-].
Qed.

(** C2, as amended. When line 101 finds the session not started, the
    retriever runs the upload once, before it looks at any output. An
    upload that raises ends the retrieval with the same exception and no
    trigger file. After an upload that returns, the outputs are inspected
    without a second upload, so exactly one trigger file has been written
    when the retrieval ends; and when the job then has a lims path under
    which no file with [ellipse] in its name is globbed, the answer is
    [None] (pending). *)
Theorem get_eye_tracking_paths_launches (w : World) :
  not_started w = true →
  (∀ e w1,
     upload_video_data_to_lims (launching w) = (Raise e, w1) →
     get_eye_tracking_paths w = (Raise e, w1)
     ∧ count is_trigger (trace w1) = count is_trigger (trace w))
  ∧ (∀ u w1,
       upload_video_data_to_lims (launching w) = (Ok u, w1) →
       get_eye_tracking_paths w = inspect_outputs w1
       ∧ count is_trigger (trace (get_eye_tracking_paths w).2)
         = S (count is_trigger (trace w))
       ∧ ∀ job d,
           state w1 !! "spoof" = Some (PyStr job) → job ≠ "" →
           lims_path w job = Some d →
           List.find is_ellipse (glob_tracking d) = None →
           get_eye_tracking_paths w
           = (Ok None,
              with_event (log_not_ready w)
                (with_event (log_exists w (PyStr job)) w1))).
Proof.
intros Hns. rewrite get_eye_tracking_paths_unfold, Hns.
assert (count is_trigger (trace (launching w)) = count is_trigger (trace w)) as Hl.
{ unfold launching. simpl. rewrite count_snoc. simpl. lia. }
split.
- intros e w1 Hup. rewrite Hup. split; [done|].
  apply upload_video_data_to_lims_raises in Hup as (_ & _ & Hn). congruence.
- intros u w1 Hup. rewrite Hup. split; [done|].
  apply upload_video_data_to_lims_returns in Hup
    as (ps & w0 & _ & (Hses & _ & _ & Hlims) & Hst & _ & Hn).
  split.
  + rewrite (inspect_outputs_no_trigger w1). congruence.
  + intros job d Hs Hne Hd Hfind.
    rewrite (inspect_outputs_cached _ _ Hs Hne). simpl.
    rewrite Hlims. simpl. rewrite Hd.
    rewrite (eye_tracking_paths_of_none _ _ Hfind).
    unfold dlc_started, log_not_ready, log_exists. simpl.
    rewrite Hst, lookup_insert_eq, Hses. done.
Qed.

(** C4, as amended. Let the retrieval reach the inspection of the outputs
    in the world [w1]: the session is started and [w1] is the world of the
    call, or it is not and the upload has returned in [w1]. When the job
    of the store has a lims path with a directory whose name ends in
    [_tracking] that holds a file with [ellipse] in its name, and the raw
    directory classifies without error and has an [eye_cam_json] file, the
    retriever answers a dictionary of exactly two entries: that raw file,
    and the first globbed path of the lims tree with [ellipse] in its
    name. *)
Theorem get_eye_tracking_paths_ready (w w1 : World) (job : string) (d : LimsDir)
    (pre : string) (entries : list string) (f : string)
    (files : Dict.t Path) (meta : Path) :
  (not_started w = false ∧ w1 = w)
  ∨ (not_started w = true
     ∧ ∃ u, upload_video_data_to_lims (launching w) = (Ok u, w1)) →
  state w1 !! "spoof" = Some (PyStr job) → job ≠ "" →
  lims_path w1 job = Some d →
  (pre +:+ "_tracking", Some entries) ∈ lims_entries d →
  f ∈ entries →
  Py.contains "ellipse" f = true →
  get_video_files w1 = (Ok files, w1) →
  Dict.get "eye_cam_json" files = Some meta →
  ∃ dlc_path before after,
    glob_tracking d = before ++ dlc_path :: after
    ∧ is_ellipse dlc_path = true
    ∧ Forall (λ p, is_ellipse p = false) before
    ∧ get_eye_tracking_paths w
      = (Ok (Some [("raw_eye_tracking_video_meta_data", meta);
                   ("raw_eye_tracking_filepath", dlc_path)]),
         with_event (log_exists w1 (PyStr job)) w1).
Proof.
intros Hreach Hs Hne Hlims Hsub Hf Hell Hfiles Hmeta.
pose proof (glob_tracking_elem d pre entries f Hsub Hf) as Hin.
destruct (find_elem is_ellipse _ _ Hin Hell) as [dlc_path Hfind].
destruct (find_first _ _ _ Hfind) as (before & after & Hsplit & Hdlc & Hbefore).
exists dlc_path, before, after. split_and!; [done..|].
assert (get_eye_tracking_paths w = inspect_outputs w1) as ->.
{ rewrite get_eye_tracking_paths_unfold.
  destruct Hreach as [[-> ->]|[-> [u ->]]]; done. }
rewrite (inspect_outputs_cached _ _ Hs Hne). simpl. rewrite Hlims.
rewrite (eye_tracking_paths_of_some _ _ _ Hfind).
pose proof (get_video_files_unfold (with_event (log_exists w1 (PyStr job)) w1)) as Hun.
assert (get_video_files (with_event (log_exists w1 (PyStr job)) w1)
        = (Ok files, with_event (log_exists w1 (PyStr job)) w1)) as ->; [|by rewrite Hmeta].
clear -Hfiles. revert Hfiles. rewrite !get_video_files_unfold.
unfold enumerated, no_data_msg. simpl.
generalize (glob1 flavour (npexp_path w1) (npexp_entries w1)
              "[eye|face|side|behavior]*[.mp4|.json]").
intros paths.
assert (∀ d (wa wb : World), session wa = session wb →
          (get_video_files_loop paths d wa).1 = (get_video_files_loop paths d wb).1)
  as Hindep.
{ clear. induction paths as [|p paths IH]; intros d wa wb Hab; [done|].
  cbn. destruct (Py.truthy_str (lims_name p)); msimpl; [|done].
  destruct (Dict.get (lims_name p) d); [|by apply IH].
  unfold duplicate_msg. simpl. by rewrite Hab. }
pose proof (Hindep [] (with_event (log_exists w1 (PyStr job)) w1) w1 eq_refl) as Hres.
pose proof (get_video_files_loop_world paths [] w1) as Hw1.
pose proof (get_video_files_loop_world paths []
              (with_event (log_exists w1 (PyStr job)) w1)) as Hw2.
destruct (get_video_files_loop paths [] w1) as [r1 wa].
destruct (get_video_files_loop paths [] _) as [r2 wb].
simpl in *. subst. by destruct r1 as [[|kv l]|e]; intros [= <-].
Qed.

(** C6. An upload that raises, at whatever step, does not mark the session
    as started: ['dlc_started'] is as it was, and no trigger file was
    written. When the session was not started before, the next retrieval
    finds it not started and runs the whole upload again before it looks
    at any output; when that upload returns, the session is marked as
    started. *)
Theorem upload_video_data_to_lims_failure (w w' : World) (e : Exn) :
  upload_video_data_to_lims w = (Raise e, w') →
  state w' !! "dlc_started" = state w !! "dlc_started"
  ∧ count is_trigger (trace w') = count is_trigger (trace w)
  ∧ (truthy (dlc_started w) = false →
     not_started w' = true
     ∧ get_eye_tracking_paths w'
       = match upload_video_data_to_lims (launching w') with
         | (Ok _, w2) => inspect_outputs w2
         | (Raise e', w2) => (Raise e', w2)
         end
     ∧ ∀ u w2,
         upload_video_data_to_lims (launching w') = (Ok u, w2) →
         state w2 !! "dlc_started" = Some (PyBool true)
         ∧ count is_trigger (trace w2) = S (count is_trigger (trace w))).
Proof.
intros Hup. apply upload_video_data_to_lims_raises in Hup as (_ & Hst & Hn).
split_and!; [done..|]. intros Hnot.
assert (not_started w' = true) as Hns.
{ unfold not_started, dlc_started in *. rewrite Hst, Hnot. apply orb_true_r. }
split_and!; [done|by rewrite get_eye_tracking_paths_unfold, Hns|].
intros u w2 Hup2.
apply upload_video_data_to_lims_returns in Hup2 as (ps & w0 & _ & _ & Hst2 & _ & Hn2).
split; [by rewrite Hst2, lookup_insert_eq|].
rewrite Hn2. unfold launching. simpl. rewrite count_snoc. simpl. lia.
Qed.

(** C5, as amended. The manifest goes to the file
    [<job>_platform.json] of the incoming directory, and its text is
    [{"files": {role: {"filename": basename}, ...}}] with one entry per
    classified file, in the order of the classification, which is the order
    in which the glob yields the files. When the glob yields
    [Eye_20230201T122604.mp4] and then [Eye_20230201T122604.json] and
    nothing else, the text is the one of the claim. *)
Theorem write_platform_json_manifest (w : World) (spoof_session : PipelineSession)
    (files : Dict.t Path) :
  get_video_files w = (Ok files, w) →
  let file := manifest_file spoof_session in
  let text := manifest_text files in
  let answer := write_text file text (trace w) in
  write_platform_json spoof_session w
  = (match answer with None => Ok file | Some exn => Raise exn end,
     with_event (EvWriteText file text answer) w)
  ∧ (name <$> enumerated w
     = ["Eye_20230201T122604.mp4"; "Eye_20230201T122604.json"] →
     text = dq ("{'files': {'eye_tracking': {'filename': 'Eye_20230201T122604.mp4'}, "
                +:+ "'eye_cam_json': {'filename': 'Eye_20230201T122604.json'}}}")).
Proof.
intros Hfiles file text answer. split.
- unfold write_platform_json. rewrite bind_run, Hfiles, bind_run.
  rewrite dumps_manifest. fold text. unfold call.
  change (mkPath DEFAULT_INCOMING_ROOT (ps_str spoof_session +:+ "_platform.json"))
    with file.
  fold answer. by destruct answer.
- intros Hnames.
  assert (enumerated w = [mkPath (npexp_path w) "Eye_20230201T122604.mp4";
                          mkPath (npexp_path w) "Eye_20230201T122604.json"]) as Henum.
  { revert Hnames. unfold enumerated, glob1. rewrite <-list_fmap_compose.
    generalize (filter
      (λ n, Fnmatch.fnmatch (ignorecase flavour)
              "[eye|face|side|behavior]*[.mp4|.json]" n = true) (npexp_entries w)).
    intros l Hl.
    assert ((name ∘ mkPath (npexp_path w)) <$> l = l) as Hid.
    { clear. induction l as [|n l IH]; simpl; [done|]. by f_equal. }
    rewrite Hid in Hl. by rewrite Hl. }
  assert (files = items (enumerated w)) as ->.
  { rewrite get_video_files_ok in Hfiles; rewrite ?Henum; [congruence|done| |].
    + apply (bool_decide_unpack _). by vm_compute.
    + apply (bool_decide_unpack _). by vm_compute. }
  unfold text. rewrite Henum. by vm_compute.
Qed.

End retriever_facts.

(** ** The theorems on explicit sessions *)

Lemma get_eye_tracking_paths_pending_witness :
  let w := Examples.session_with Directories.rig Scenes.lims_running Scenes.started in
  let unmarked := Examples.session_with Directories.rig Scenes.lims_running
                    (<["spoof" := PyStr Scenes.job]> ∅) in
  let paths := glob_tracking (C := Examples.reliable Windows) Scenes.running_dir in
  get_eye_tracking_paths (C := Examples.reliable Windows) w
  = (Ok None,
     with_event (log_not_ready w) (with_event (log_exists w (PyStr Scenes.job)) w))
  ∧ eye_tracking_paths_of (C := Examples.reliable Windows) paths unmarked
    = (Raise (FileNotFoundError (no_ellipse_msg unmarked)), unmarked)
  ∧ List.find is_ellipse paths = None
  ∧ truthy (dlc_started unmarked) = false.
Proof.
intros w unmarked paths.
destruct (get_eye_tracking_paths_pending (C := Examples.reliable Windows))
  as (Hpending & Hsearch & Honly).
pose proof (Hsearch paths unmarked eq_refl) as Hraise.
change (truthy (dlc_started unmarked)) with false in Hraise.
destruct (Honly paths unmarked _ _ Hraise) as (Hnone & Hflag & _ & _).
split_and!; [|exact Hraise|exact Hnone|exact Hflag].
apply (Hpending w Scenes.job Scenes.running_dir); [reflexivity|discriminate|reflexivity..].
Defined.

(** The claim C3 as it is written fails for a job without a lims path:
    the job is in the store and marked as started, no output is found, and
    the retriever raises the assertion of line 105 instead of answering
    pending. *)
Lemma get_eye_tracking_paths_pending_counterexample :
  let w := Examples.session_with Directories.rig Examples.no_lims Scenes.started in
  state w !! "spoof" = Some (PyStr Scenes.job)
  ∧ truthy (dlc_started w) = true
  ∧ lims_path w Scenes.job = None
  ∧ get_eye_tracking_paths (C := Examples.reliable Windows) w
    = (Raise (AssertionError
         "No lims path found for spoofed session 1250000000_366122_20230201"),
       with_event (log_exists w (PyStr Scenes.job)) w).
Proof. by vm_compute. Qed.

Lemma get_eye_tracking_paths_launches_witness :
  let w := Examples.session_with Directories.rig Scenes.lims_running ∅ in
  let w1 := (upload_video_data_to_lims (C := Examples.reliable Windows) (launching w)).2 in
  get_eye_tracking_paths (C := Examples.reliable Windows) w
  = (Ok None,
     with_event (log_not_ready w) (with_event (log_exists w (PyStr Scenes.job)) w1))
  ∧ count is_trigger (trace (get_eye_tracking_paths (C := Examples.reliable Windows) w).2)
    = S (count is_trigger (trace w)).
Proof.
intros w w1.
destruct (get_eye_tracking_paths_launches (C := Examples.reliable Windows) w eq_refl)
  as [_ Hreturns].
destruct (Hreturns tt w1) as (_ & Hone & Hpending); [by vm_compute|].
split; [|exact Hone].
apply (Hpending Scenes.job Scenes.running_dir);
  [by vm_compute|discriminate|reflexivity|by vm_compute].
Defined.

(** The claim C2 as it is written fails when the upload raises, as it does
    for a raw directory without videos, and when the new job has no lims
    path yet: the retrieval of a fresh session then raises an
    [AssertionError] instead of answering pending. *)
Lemma get_eye_tracking_paths_launches_counterexample :
  let empty := Examples.session_with [] Scenes.lims_running ∅ in
  let unlisted := Examples.session_with Directories.rig Examples.no_lims ∅ in
  not_started empty = true
  ∧ (get_eye_tracking_paths (C := Examples.reliable Windows) empty).1
    = Raise (AssertionError "No raw video data found: DRpilot_644864_20230201")
  ∧ not_started unlisted = true
  ∧ (get_eye_tracking_paths (C := Examples.reliable Windows) unlisted).1
    = Raise (AssertionError
        "No lims path found for spoofed session 1250000000_366122_20230201").
Proof. by vm_compute. Qed.

Lemma get_eye_tracking_paths_ready_witness :
  let w := Examples.session_with Directories.rig Scenes.lims_done Scenes.started in
  ∃ dlc_path before after,
    glob_tracking (C := Examples.reliable Windows) Scenes.done_dir
    = before ++ dlc_path :: after
    ∧ is_ellipse dlc_path = true
    ∧ Forall (λ p, is_ellipse p = false) before
    ∧ get_eye_tracking_paths (C := Examples.reliable Windows) w
      = (Ok (Some [("raw_eye_tracking_video_meta_data",
                    mkPath (npexp_path w) "Eye_20230201T122604.json");
                   ("raw_eye_tracking_filepath", dlc_path)]),
         with_event (log_exists w (PyStr Scenes.job)) w).
Proof.
intros w.
apply (get_eye_tracking_paths_ready (C := Examples.reliable Windows) w w
         Scenes.job Scenes.done_dir "eye"
         ["Eye_20230201T122604DLC_resnet50.h5"; "Eye_20230201T122604_ellipse.h5";
          "Eye_20230201T122604_ellipse_debug.h5"]
         "Eye_20230201T122604_ellipse.h5"
         (items (enumerated (C := Examples.reliable Windows) w))).
- left. by vm_compute.
- reflexivity.
- discriminate.
- reflexivity.
- apply (bool_decide_unpack _). by vm_compute.
- apply (bool_decide_unpack _). by vm_compute.
- reflexivity.
- by vm_compute.
- reflexivity.
Defined.

(** The claim C4 as it is written fails when the raw directory does not
    classify or has no json file of the eye camera: the results are there,
    and the retriever raises the assertion of line 62 for a globbed file
    without a cue, and [KeyError] for a directory with the video only. *)
Lemma get_eye_tracking_paths_ready_counterexample :
  let noted := Examples.session_with ("session_notes.json" :: Directories.rig)
                 Scenes.lims_done Scenes.started in
  let video_only := Examples.session_with ["Eye_20230201T122604.mp4"]
                      Scenes.lims_done Scenes.started in
  List.find is_ellipse (glob_tracking (C := Examples.reliable Windows) Scenes.done_dir)
  = Some (mkPath (lims_root Scenes.done_dir +:+ "\eye_tracking")
                 "Eye_20230201T122604_ellipse.h5")
  ∧ (get_eye_tracking_paths (C := Examples.reliable Windows) noted).1
    = Raise (AssertionError
        ("Not an expected raw video data mp4 or json: "
         +:+ npexp_path noted +:+ "\session_notes.json"))
  ∧ get_video_files (C := Examples.reliable Windows) video_only
    = (Ok [("eye_tracking", mkPath (npexp_path video_only) "Eye_20230201T122604.mp4")],
       video_only)
  ∧ (get_eye_tracking_paths (C := Examples.reliable Windows) video_only).1
    = Raise (KeyError "eye_cam_json").
Proof. by vm_compute. Qed.

Lemma upload_video_data_to_lims_failure_witness :
  let w := Examples.session_with Directories.rig Scenes.lims_running ∅ in
  let w' := (upload_video_data_to_lims (C := Scenes.disk_full_once Windows) w).2 in
  let w2 := (upload_video_data_to_lims (C := Scenes.disk_full_once Windows)
               (launching w')).2 in
  (upload_video_data_to_lims (C := Scenes.disk_full_once Windows) w).1
  = Raise (OSError "No space left on device")
  ∧ state w' !! "dlc_started" = state w !! "dlc_started"
  ∧ count is_trigger (trace w') = count is_trigger (trace w)
  ∧ not_started w' = true
  ∧ state w2 !! "dlc_started" = Some (PyBool true)
  ∧ count is_trigger (trace w2) = S (count is_trigger (trace w)).
Proof.
intros w w' w2.
destruct (upload_video_data_to_lims_failure (C := Scenes.disk_full_once Windows)
            w w' (OSError "No space left on device"))
  as (Hflag & Hnone & Hretry); [by vm_compute|].
destruct (Hretry eq_refl) as (Hns & _ & Hagain).
destruct (Hagain tt w2) as (Hstarted & Hone); [by vm_compute|].
split_and!; [by vm_compute|exact Hflag|exact Hnone|exact Hns|exact Hstarted|exact Hone].
Defined.

Lemma write_platform_json_manifest_witness :
  let w := Examples.session_with
             ["Eye_20230201T122604.mp4"; "Eye_20230201T122604.json"; "notes.txt"]
             Examples.no_lims ∅ in
  let file := mkPath (Examples.incoming Windows)
                     "1250000000_366122_20230201_platform.json" in
  let text :=
    dq ("{'files': {'eye_tracking': {'filename': 'Eye_20230201T122604.mp4'}, "
        +:+ "'eye_cam_json': {'filename': 'Eye_20230201T122604.json'}}}") in
  write_platform_json (C := Examples.reliable Windows) (mkPipelineSession Scenes.job) w
  = (Ok file, with_event (EvWriteText file text None) w).
Proof.
intros w file text.
destruct (write_platform_json_manifest (C := Examples.reliable Windows) w
            (mkPipelineSession Scenes.job)
            (items (enumerated (C := Examples.reliable Windows) w)))
  as [Hwritten Htext]; [by vm_compute|].
rewrite Hwritten. unfold text. rewrite <-Htext by reflexivity. reflexivity.
Defined.

(** The claim C5 as it is written fails when the glob yields the json file
    before the video, as a listing in alphabetical order does: the two
    entries of the manifest then come in the other order, and the text is
    not the one of the claim. *)
Lemma write_platform_json_manifest_counterexample :
  let w := Examples.session_with
             ["Eye_20230201T122604.json"; "Eye_20230201T122604.mp4"]
             Examples.no_lims ∅ in
  let file := mkPath (Examples.incoming Windows)
                     "1250000000_366122_20230201_platform.json" in
  let written :=
    dq ("{'files': {'eye_cam_json': {'filename': 'Eye_20230201T122604.json'}, "
        +:+ "'eye_tracking': {'filename': 'Eye_20230201T122604.mp4'}}}") in
  let claimed :=
    dq ("{'files': {'eye_tracking': {'filename': 'Eye_20230201T122604.mp4'}, "
        +:+ "'eye_cam_json': {'filename': 'Eye_20230201T122604.json'}}}") in
  write_platform_json (C := Examples.reliable Windows) (mkPipelineSession Scenes.job) w
  = (Ok file, with_event (EvWriteText file written None) w)
  ∧ written ≠ claimed.
Proof. split; [by vm_compute|]. vm_compute. discriminate. Qed.

(** * Further properties of the module *)

(** ** The classifier, case by case *)

Section classifier_cases.
Context `{C : Collaborators}.
Implicit Types (paths processed : list Path) (w : World).

Lemma lims_name_role (p : Path) : lims_name p ≠ "" → lims_name p ∈ roles.
Proof.
unfold lims_name, roles. repeat case_match; intros Hne; try done; set_solver.
Qed.

(** The loop goes through a run of recognised files with distinct roles
    without an error. *)
Lemma get_video_files_loop_app pre rest processed w :
  Forall (λ p, lims_name p ≠ "") pre →
  NoDup (lims_name <$> (processed ++ pre)) →
  get_video_files_loop (pre ++ rest) (items processed) w
  = get_video_files_loop rest (items (processed ++ pre)) w.
Proof.
revert processed. induction pre as [|p pre IH]; intros processed Hrec Hnd.
- by rewrite app_nil_r.
- apply Forall_cons in Hrec as [Hp Hrec].
  cbn. rewrite (truthy_str_ne _ Hp). msimpl.
  rewrite (get_items_fresh _ _ _ Hnd).
  rewrite dict_set_fresh by (by eapply get_items_fresh).
  rewrite <-items_snoc. msimpl. rewrite IH; [|done|by rewrite <-app_assoc].
  by rewrite <-app_assoc.
Qed.

(** A loop that returns has recorded every file it went through. *)
Lemma get_video_files_loop_returns paths processed w w' (files : Dict.t Path) :
  NoDup (lims_name <$> processed) →
  get_video_files_loop paths (items processed) w = (Ok files, w') →
  files = items (processed ++ paths)
  ∧ Forall (λ p, lims_name p ≠ "") paths
  ∧ NoDup (lims_name <$> (processed ++ paths)).
Proof.
revert processed. induction paths as [|p paths IH]; intros processed Hnd.
- intros [= <- _]. by rewrite app_nil_r.
- cbn. destruct (Py.truthy_str (lims_name p)) eqn:Hp; msimpl; [|done].
  destruct (Dict.get (lims_name p) (items processed)) eqn:Hget; [done|].
  rewrite dict_set_fresh, <-items_snoc by done.
  apply dict_get_None in Hget. rewrite keys_items in Hget.
  assert (NoDup (lims_name <$> (processed ++ [p]))) as Hnd'.
  { rewrite fmap_app. apply NoDup_app. split_and!; [done| |apply NoDup_singleton].
    intros k Hk ->%list_elem_of_singleton. done. }
  intros (-> & Hrec & Hall)%(IH _ Hnd'). rewrite <-app_assoc in *.
  split_and!; [done| |done]. apply Forall_cons. split; [|done].
  by destruct (lims_name p).
Qed.

End classifier_cases.

Section classifier_results.
Context `{C : Collaborators}.
Implicit Types (paths processed : list Path) (w : World).

Lemma values_items paths : Dict.values (items paths) = paths.
Proof.
unfold Dict.values, items. rewrite <-list_fmap_compose.
induction paths as [|p paths IH]; simpl; [done|]. by f_equal.
Qed.

Lemma get_video_files_loop_raise_inv paths (d : Dict.t Path) w w' (e : Exn) :
  get_video_files_loop paths d w = (Raise e, w') →
  ∃ p, p ∈ paths
       ∧ (e = AssertionError (unexpected_msg p)
          ∨ ∃ first, e = AssertionError (duplicate_msg w first p)).
Proof.
revert d. induction paths as [|p paths IH]; intros d; [done|].
cbn. destruct (Py.truthy_str (lims_name p)); msimpl.
- destruct (Dict.get (lims_name p) d) as [first|].
  + intros [= <- _]. exists p. split; [left|]. right. by exists first.
  + intros (q & Hq & He)%IH. exists q. split; [by right|done].
- intros [= <- _]. exists p. split; [left|]. by left.
Qed.

(** What a returning classification has built. *)
Lemma get_video_files_Ok_inv w w' (files : Dict.t Path) :
  get_video_files w = (Ok files, w') →
  w' = w ∧ files = items (enumerated w) ∧ enumerated w ≠ []
  ∧ Forall (λ p, lims_name p ≠ "") (enumerated w)
  ∧ NoDup (lims_name <$> enumerated w).
Proof.
intros Hrun. pose proof (get_video_files_world w) as Hw. rewrite Hrun in Hw.
simpl in Hw. subst w'. revert Hrun. rewrite get_video_files_unfold.
destruct (get_video_files_loop (enumerated w) [] w) as [[files'|e] w1] eqn:Hloop;
  [|done].
change (@nil (string * Path)) with (items []) in Hloop.
apply get_video_files_loop_returns in Hloop as (-> & Hrec & Hnd); [|apply NoDup_nil_2].
simpl in *. destruct (enumerated w) as [|p paths] eqn:Henum; [done|].
simpl. by intros [= <-].
Qed.

Lemma roles_bound paths :
  Forall (λ p, lims_name p ≠ "") paths → NoDup (lims_name <$> paths) →
  length paths ≤ 6.
Proof.
intros Hrec Hnd. rewrite <-(length_fmap lims_name).
change 6 with (length roles). apply submseteq_length, NoDup_submseteq; [done|].
intros k (p & -> & Hp)%list_elem_of_fmap. apply lims_name_role.
by eapply (proj1 (Forall_forall _ _)) in Hrec.
Qed.

(** A classification that returns has left nothing out and changed
    nothing: the mapping has one entry for each file the glob yielded, in
    that order, which is the order of the directory, every file under the
    key its own name gives it; the keys are distinct and among the six
    roles, so there is at least one entry and there are at most six; and
    the world is as it was. *)
Theorem get_video_files_returns (w w' : World) (files : Dict.t Path) :
  get_video_files w = (Ok files, w') →
  w' = w
  ∧ files = items (enumerated w)
  ∧ Dict.values files = enumerated w
  ∧ sublist (name <$> Dict.values files) (npexp_entries w)
  ∧ Forall (λ kv, kv.1 = lims_name kv.2 ∧ kv.1 ∈ roles
                  ∧ parent kv.2 = npexp_path w) files
  ∧ NoDup (Dict.keys files)
  ∧ 1 ≤ length files ≤ 6.
Proof.
intros (-> & -> & Hne & Hrec & Hnd)%get_video_files_Ok_inv.
split_and!; [done|done|apply values_items| | |by rewrite keys_items| |].
- rewrite values_items. unfold enumerated, glob1. rewrite <-list_fmap_compose.
  assert (∀ l : list string, (name ∘ mkPath (npexp_path w)) <$> l = l) as ->.
  { induction l as [|n l IH]; simpl; [done|]. by f_equal. }
  apply sublist_filter.
- unfold items. apply Forall_fmap, Forall_forall. intros p Hp. simpl.
  split_and!; [done| |].
  + apply lims_name_role. by eapply (proj1 (Forall_forall _ _)) in Hrec.
  + unfold enumerated, glob1 in Hp. by apply list_elem_of_fmap in Hp as (n & -> & _).
- unfold items. rewrite length_fmap. destruct (enumerated w); simpl; [done|lia].
- unfold items. rewrite length_fmap. by apply roles_bound.
Qed.

(** The classification ends with the error of line 65 exactly when the
    glob yields nothing: for an empty raw directory, and for one in which
    no name passes the test of the pattern. *)
Theorem get_video_files_no_data (w : World) :
  get_video_files w = (Raise (AssertionError (no_data_msg w)), w)
  ↔ enumerated w = [].
Proof.
rewrite get_video_files_unfold. split.
- destruct (get_video_files_loop (enumerated w) [] w) as [[[|kv files]|e] w1] eqn:Hloop.
  + intros _. change (@nil (string * Path)) with (items []) in Hloop.
    apply get_video_files_loop_returns in Hloop as (Hitems & _); [|apply NoDup_nil_2].
    simpl in Hitems. by destruct (enumerated w).
  + done.
  + intros [= -> ->].
    apply get_video_files_loop_raise_inv in Hloop as (p & _ & [He|[first He]]);
      unfold no_data_msg, unexpected_msg, duplicate_msg in He; simplify_eq.
- by intros ->.
Qed.

(** More than six files from the glob never classify: with six roles, two
    of the files share one or one has none. *)
Theorem get_video_files_more_than_six (w : World) :
  6 < length (enumerated w) →
  ∃ msg, get_video_files w = (Raise (AssertionError msg), w).
Proof.
intros Hlen. pose proof (get_video_files_world w) as Hw.
destruct (get_video_files w) as [[files|e] w1] eqn:Hrun; simpl in Hw; subst w1.
- apply get_video_files_Ok_inv in Hrun as (_ & _ & _ & Hrec & Hnd).
  pose proof (roles_bound _ Hrec Hnd). lia.
- apply get_video_files_raises in Hrun as Hmsg. destruct Hmsg as [msg ->]. eauto.
Qed.

(** The first file without a key stops the classification with the error
    of line 62, which names its full path, when the files before it are
    recognised and have distinct roles. *)
Theorem get_video_files_first_unexpected (w : World) (pre post : list Path) (p : Path) :
  enumerated w = pre ++ p :: post →
  Forall (λ q, lims_name q ≠ "") pre →
  NoDup (lims_name <$> pre) →
  lims_name p = "" →
  get_video_files w = (Raise (AssertionError (unexpected_msg p)), w).
Proof.
intros Henum Hrec Hnd Hp. rewrite get_video_files_unfold, Henum.
change (@nil (string * Path)) with (items []).
rewrite get_video_files_loop_app by done. cbn. by rewrite Hp.
Qed.

(** The first file whose role is taken stops the classification with the
    error of line 63, which names the file that holds the role and then
    the file that repeats it, when the files before it are recognised and
    have distinct roles. *)
Theorem get_video_files_first_duplicate (w : World) (pre post : list Path)
    (first p : Path) :
  enumerated w = pre ++ p :: post →
  Forall (λ q, lims_name q ≠ "") pre →
  NoDup (lims_name <$> pre) →
  first ∈ pre →
  lims_name first = lims_name p →
  get_video_files w = (Raise (AssertionError (duplicate_msg w first p)), w).
Proof.
intros Henum Hrec Hnd Hfirst Hkey. rewrite get_video_files_unfold, Henum.
change (@nil (string * Path)) with (items []).
rewrite get_video_files_loop_app by done. cbn.
assert (lims_name p ≠ "") as Hp.
{ rewrite <-Hkey. by eapply (proj1 (Forall_forall _ _)) in Hrec. }
rewrite (truthy_str_ne _ Hp). msimpl.
rewrite (dict_elem_get (lims_name p) first); [done|by rewrite keys_items|].
unfold items. apply list_elem_of_fmap. exists first. by rewrite Hkey.
Qed.

End classifier_results.

(** ** The claims on the classifier *)

Section claims_classifier.
Context `{C : Collaborators}.
Implicit Types (paths pre post : list Path) (w : World).

Lemma elem_of_middle (x : Path) pre post : x ∈ pre ++ x :: post.
Proof. apply elem_of_app. right. apply list_elem_of_here. Qed.

(** A file that is valid for one role gets that role from the code. *)
Lemma lims_name_valid (p : Path) (role : string) :
  valid_roles p = [role] → lims_name p = role.
Proof.
unfold valid_roles, lims_name.
destruct (String.eqb (Py.lower (suffix p)) ".mp4"),
  (String.eqb (Py.lower (suffix p)) ".json"),
  (Py.contains "eye" (Py.lower (name p))),
  (Py.contains "face" (Py.lower (name p))),
  (Py.contains "side" (Py.lower (name p))),
  (Py.contains "behavior" (Py.lower (name p))); simpl; intros Hroles;
  by simplify_eq.
Qed.

Lemma valid_roles_lower d n :
  valid_roles (mkPath d (Py.lower n)) = valid_roles (mkPath d n).
Proof. unfold valid_roles. rewrite suffix_lower. simpl. by rewrite !lower_idemp. Qed.

(** The classifier up to a file before which nothing is wrong. *)
Lemma get_video_files_at w pre p post :
  enumerated w = pre ++ p :: post →
  Forall (λ q, lims_name q ≠ "") pre →
  NoDup (lims_name <$> pre) →
  get_video_files w
  = match get_video_files_loop (p :: post) (items pre) w with
    | (Ok [], w') => (Raise (AssertionError (no_data_msg w)), w')
    | (Ok files, w') => (Ok files, w')
    | (Raise e, w') => (Raise e, w')
    end.
Proof.
intros Henum Hrec Hnd. rewrite get_video_files_unfold, Henum.
change (@nil (string * Path)) with (items []).
by rewrite get_video_files_loop_app.
Qed.

Lemma get_video_files_at_unexpected w pre p post :
  enumerated w = pre ++ p :: post →
  Forall (λ q, lims_name q ≠ "") pre →
  NoDup (lims_name <$> pre) →
  lims_name p = "" →
  get_video_files w = (Raise (AssertionError (unexpected_msg p)), w).
Proof.
intros Henum Hrec Hnd Hp. rewrite (get_video_files_at _ _ _ _ Henum Hrec Hnd).
cbn. by rewrite Hp.
Qed.

Lemma get_video_files_at_duplicate w pre p post first :
  enumerated w = pre ++ p :: post →
  Forall (λ q, lims_name q ≠ "") pre →
  NoDup (lims_name <$> pre) →
  first ∈ pre → lims_name first = lims_name p →
  get_video_files w = (Raise (AssertionError (duplicate_msg w first p)), w).
Proof.
intros Henum Hrec Hnd Hfirst Hkey. rewrite (get_video_files_at _ _ _ _ Henum Hrec Hnd).
assert (lims_name p ≠ "") as Hp.
{ rewrite <-Hkey. by eapply (proj1 (Forall_forall _ _)) in Hrec. }
cbn. rewrite (truthy_str_ne _ Hp). msimpl.
rewrite (dict_elem_get (lims_name p) first); [done|by rewrite keys_items|].
unfold items. apply list_elem_of_fmap. exists first. by rewrite Hkey.
Qed.

(** In a list of files that do not all have a role of their own there is
    a first file that has none or repeats one. *)
Lemma first_failure paths :
  ¬ (Forall (λ q, lims_name q ≠ "") paths ∧ NoDup (lims_name <$> paths)) →
  ∃ pre p post,
    paths = pre ++ p :: post
    ∧ Forall (λ q, lims_name q ≠ "") pre
    ∧ NoDup (lims_name <$> pre)
    ∧ (lims_name p = ""
       ∨ lims_name p ≠ "" ∧ ∃ first, first ∈ pre ∧ lims_name first = lims_name p).
Proof.
induction paths as [|x l IH] using rev_ind.
- intros []. split; [apply Forall_nil_2|apply NoDup_nil_2].
- intros Hbad.
  destruct (decide (Forall (λ q, lims_name q ≠ "") l ∧ NoDup (lims_name <$> l)))
    as [[Hrec Hnd]|Hl].
  + exists l, x, []. split_and!; [done..|].
    destruct (decide (lims_name x = "")) as [|Hx]; [by left|right].
    split; [done|].
    destruct (decide (lims_name x ∈ lims_name <$> l)) as [Hin|Hout].
    * apply list_elem_of_fmap in Hin as (first & Hkey & Hin). by exists first.
    * destruct Hbad. split.
      -- apply Forall_app. split; [done|]. by apply Forall_singleton.
      -- rewrite fmap_app. apply NoDup_app. split_and!; [done| |apply NoDup_singleton].
         intros k Hk ->%list_elem_of_singleton. done.
  + destruct (IH Hl) as (pre & p & post & -> & Hrec & Hnd & Hp).
    exists pre, p, (post ++ [x]). by rewrite <-app_assoc.
Qed.

(** C9, as amended. A file the glob yields whose suffix is [.mp4] or
    [.json] (in any case) and whose name carries one or more cues gets the
    role of the cue checked last: [side]/[behavior] over [face] over
    [eye], in both branches. Whenever the classifier returns, that role is
    mapped to the file, and it does return when the other files have roles
    and no role repeats. The file is not free of errors, though: when a
    file before it holds its role, the classifier raises the duplicate
    error, which names that file and then this one. When no file before it
    does, an error of the classifier is about another file. *)
Theorem lims_name_last_cue_wins (w : World) (pre post : list Path) (path : Path)
    (video : bool) :
  enumerated w = pre ++ path :: post →
  Py.lower (suffix path) = (if video then ".mp4" else ".json") →
  Py.contains "eye" (Py.lower (name path))
  || Py.contains "face" (Py.lower (name path))
  || Py.contains "side" (Py.lower (name path))
  || Py.contains "behavior" (Py.lower (name path)) = true →
  let role := last_cue_role video (Py.lower (name path)) in
  lims_name path = role
  ∧ role ∈ roles
  ∧ (∀ files w', get_video_files w = (Ok files, w') → Dict.get role files = Some path)
  ∧ (Forall (λ q, lims_name q ≠ "") (pre ++ post) →
     NoDup (lims_name <$> enumerated w) →
     ∃ files, get_video_files w = (Ok files, w) ∧ Dict.get role files = Some path)
  ∧ (Forall (λ q, lims_name q ≠ "") pre →
     NoDup (lims_name <$> pre) →
     (∀ first, first ∈ pre → lims_name first = role →
        get_video_files w
        = (Raise (AssertionError (duplicate_msg w first path)), w))
     ∧ (role ∉ lims_name <$> pre →
        ∀ e w', get_video_files w = (Raise e, w') →
          ∃ q, q ∈ post
               ∧ (e = AssertionError (unexpected_msg q)
                  ∨ ∃ first, e = AssertionError (duplicate_msg w first q)))).
Proof.
intros Henum Hext Hcue role.
assert (lims_name path = role) as Hrole.
{ unfold lims_name, role, last_cue_role. rewrite Hext.
  destruct video; cbn;
    destruct (Py.contains "side" _), (Py.contains "behavior" _),
      (Py.contains "face" _), (Py.contains "eye" _); done. }
assert (role ≠ "") as Hne.
{ unfold role, last_cue_role.
  destruct video;
    destruct (Py.contains "side" _), (Py.contains "behavior" _),
      (Py.contains "face" _), (Py.contains "eye" _); done. }
assert (∀ files w', get_video_files w = (Ok files, w') →
          Dict.get role files = Some path) as Hmapped.
{ intros files w' (-> & -> & _ & _ & Hnd)%get_video_files_Ok_inv.
  apply dict_elem_get; [by rewrite keys_items|].
  unfold items. apply list_elem_of_fmap. exists path. split; [by rewrite Hrole|].
  rewrite Henum. apply elem_of_middle. }
split_and!; [done|rewrite <-Hrole; apply lims_name_role; congruence|done| |].
- intros Hrec Hnd. exists (items (enumerated w)).
  assert (get_video_files w = (Ok (items (enumerated w)), w)) as Hrun.
  { apply get_video_files_ok; [by rewrite Henum; destruct pre| |done].
    rewrite Henum. apply Forall_app in Hrec as [Hpre Hpost].
    apply Forall_app. split; [done|]. apply Forall_cons. split; [congruence|done]. }
  split; [done|by eapply Hmapped].
- intros Hrec Hnd. split.
  + intros first Hfirst Hkey.
    apply (get_video_files_at_duplicate _ _ _ _ _ Henum Hrec Hnd Hfirst). congruence.
  + intros Hfree e w'. rewrite (get_video_files_at _ _ _ _ Henum Hrec Hnd).
    cbn. rewrite Hrole, (truthy_str_ne _ Hne). msimpl.
    assert (Dict.get role (items pre) = None) as ->.
    { apply dict_get_None. by rewrite keys_items. }
    destruct (get_video_files_loop post _ w) as [[[|kv files]|e0] w0] eqn:Hloop.
    * intros [= <- <-].
      rewrite dict_set_fresh in Hloop by (apply dict_get_None; by rewrite keys_items).
      rewrite <-Hrole, <-items_snoc in Hloop.
      apply get_video_files_loop_returns in Hloop as (Hitems & _).
      -- by destruct pre.
      -- rewrite fmap_app. apply NoDup_app. split_and!; [done| |apply NoDup_singleton].
         intros k Hk ->%list_elem_of_singleton. simpl in Hfree. by rewrite Hrole in Hk.
    * done.
    * intros [= <- <-]. by apply get_video_files_loop_raise_inv in Hloop.
Qed.

(** C8, as amended. When two files the glob yields get the same key, the
    classifier returns no mapping: it raises an [AssertionError] and
    leaves the world as it was. The error is the one of the first file, at
    or before the second of the two, that has no key or repeats one: the
    files before it have keys, all distinct. So
    when every file before the second of the two has a key, the error is
    the duplicate one and names two of the yielded files that share a
    role, the earlier first; these are the two files themselves when no
    role repeats before the second. *)
Theorem get_video_files_duplicate_roles (w : World) (l1 l2 l3 : list Path)
    (a b : Path) :
  enumerated w = l1 ++ a :: l2 ++ b :: l3 →
  lims_name a = lims_name b →
  (∃ msg, get_video_files w = (Raise (AssertionError msg), w))
  ∧ (∃ pre p post,
       enumerated w = pre ++ p :: post
       ∧ length pre ≤ length (l1 ++ a :: l2)
       ∧ Forall (λ q, lims_name q ≠ "") pre
       ∧ NoDup (lims_name <$> pre)
       ∧ (lims_name p = ""
          ∧ get_video_files w = (Raise (AssertionError (unexpected_msg p)), w)
          ∨ ∃ first,
              first ∈ pre ∧ lims_name first = lims_name p
              ∧ get_video_files w
                = (Raise (AssertionError (duplicate_msg w first p)), w)))
  ∧ (Forall (λ q, lims_name q ≠ "") (l1 ++ a :: l2) →
     ∃ first second k1 k2 k3,
       enumerated w = k1 ++ first :: k2 ++ second :: k3
       ∧ lims_name first = lims_name second
       ∧ length (k1 ++ first :: k2) ≤ length (l1 ++ a :: l2)
       ∧ get_video_files w
         = (Raise (AssertionError (duplicate_msg w first second)), w))
  ∧ (Forall (λ q, lims_name q ≠ "") (l1 ++ a :: l2) →
     NoDup (lims_name <$> (l1 ++ a :: l2)) →
     get_video_files w = (Raise (AssertionError (duplicate_msg w a b)), w)).
Proof.
intros Henum Hkey.
assert (¬ (Forall (λ q, lims_name q ≠ "") ((l1 ++ a :: l2) ++ [b])
           ∧ NoDup (lims_name <$> ((l1 ++ a :: l2) ++ [b])))) as Hbad.
{ intros [_ Hnd]. rewrite fmap_app in Hnd. apply NoDup_app in Hnd as (_ & Hdisj & _).
  apply (Hdisj (lims_name a)); [|rewrite Hkey; apply list_elem_of_here].
  apply list_elem_of_fmap. exists a. split; [done|apply elem_of_middle]. }
destruct (first_failure _ Hbad) as (pre & p & post & Hsplit & Hrec & Hnd & Hp).
assert (enumerated w = pre ++ p :: post ++ l3) as Henum'.
{ rewrite Henum. transitivity (((l1 ++ a :: l2) ++ [b]) ++ l3).
  - by rewrite <-!app_assoc.
  - rewrite Hsplit. by rewrite <-app_assoc. }
assert (length pre ≤ length (l1 ++ a :: l2)) as Hlen.
{ apply (f_equal length) in Hsplit. rewrite !length_app in Hsplit. simpl in Hsplit.
  rewrite length_app. simpl. lia. }
assert (lims_name p = ""
        ∧ get_video_files w = (Raise (AssertionError (unexpected_msg p)), w)
        ∨ ∃ first,
            first ∈ pre ∧ lims_name first = lims_name p
            ∧ get_video_files w
              = (Raise (AssertionError (duplicate_msg w first p)), w)) as Hfirst.
{ destruct Hp as [Hp|(_ & first & Hin & Hsame)].
  - left. split; [done|]. by eapply get_video_files_at_unexpected.
  - right. exists first. split_and!; [done..|]. by eapply get_video_files_at_duplicate. }
split_and!.
- destruct Hfirst as [[_ Hrun]|(first & _ & _ & Hrun)]; eauto.
- exists pre, p, (post ++ l3). by split_and!.
- intros Hall. destruct Hfirst as [[Hnone _]|(first & Hin & Hsame & Hrun)].
  + assert (p ∈ (l1 ++ a :: l2) ++ [b]) as Hin
      by (rewrite Hsplit; apply elem_of_middle).
    apply elem_of_app in Hin as [Hin|Hb%list_elem_of_singleton].
    * by eapply (proj1 (Forall_forall _ _)) in Hall.
    * subst p. rewrite <-Hkey in Hnone.
      pose proof (elem_of_middle a l1 l2) as Ha.
      by eapply (proj1 (Forall_forall _ _)) in Hall.
  + apply list_elem_of_split in Hin as (k1 & k2 & ->).
    exists first, p, k1, k2, (post ++ l3).
    split_and!; [by rewrite Henum', <-app_assoc|done|done|done].
- intros Hall Hdistinct.
  eapply (get_video_files_at_duplicate w (l1 ++ a :: l2) b l3 a);
    [by rewrite Henum, <-app_assoc|done|done|apply elem_of_middle|done].
Qed.

(** C7, as amended. When the files the glob yields are six, in any order,
    each valid for one role in the words of the prose and the six roles
    all there, the classifier returns exactly these six entries: every
    role is mapped to its file, and the code gives every file the role the
    prose gives it. Neither depends on the case of a name, and under the
    Windows flavour no glob does. *)
Theorem get_video_files_six_roles (w : World)
    (eye face beh eye_json face_json beh_json : Path) :
  enumerated w ≡ₚ [eye; face; beh; eye_json; face_json; beh_json] →
  valid_roles eye = ["eye_tracking"] →
  valid_roles face = ["face_tracking"] →
  valid_roles beh = ["behavior_tracking"] →
  valid_roles eye_json = ["eye_cam_json"] →
  valid_roles face_json = ["face_cam_json"] →
  valid_roles beh_json = ["beh_cam_json"] →
  (∃ files,
     get_video_files w = (Ok files, w)
     ∧ files ≡ₚ [("eye_tracking", eye); ("face_tracking", face);
                 ("behavior_tracking", beh); ("eye_cam_json", eye_json);
                 ("face_cam_json", face_json); ("beh_cam_json", beh_json)]
     ∧ Dict.get "eye_tracking" files = Some eye
     ∧ Dict.get "face_tracking" files = Some face
     ∧ Dict.get "behavior_tracking" files = Some beh
     ∧ Dict.get "eye_cam_json" files = Some eye_json
     ∧ Dict.get "face_cam_json" files = Some face_json
     ∧ Dict.get "beh_cam_json" files = Some beh_json)
  ∧ (∀ p role, valid_roles p = [role] → lims_name p = role)
  ∧ (∀ d n, valid_roles (mkPath d (Py.lower n)) = valid_roles (mkPath d n)
            ∧ lims_name (mkPath d (Py.lower n)) = lims_name (mkPath d n))
  ∧ (∀ pat n, Fnmatch.fnmatch (ignorecase Windows) pat (Py.lower n)
              = Fnmatch.fnmatch (ignorecase Windows) pat n).
Proof.
intros Hperm He%lims_name_valid Hf%lims_name_valid Hb%lims_name_valid
  Hej%lims_name_valid Hfj%lims_name_valid Hbj%lims_name_valid.
split_and!; [|apply lims_name_valid
             |intros; split; [apply valid_roles_lower|apply lims_name_lower]
             |intros; apply matches_lower].
assert (lims_name <$> enumerated w
        ≡ₚ ["eye_tracking"; "face_tracking"; "behavior_tracking";
            "eye_cam_json"; "face_cam_json"; "beh_cam_json"]) as Hkeys.
{ rewrite Hperm. simpl. by rewrite He, Hf, Hb, Hej, Hfj, Hbj. }
assert (items (enumerated w)
        ≡ₚ [("eye_tracking", eye); ("face_tracking", face);
            ("behavior_tracking", beh); ("eye_cam_json", eye_json);
            ("face_cam_json", face_json); ("beh_cam_json", beh_json)]) as Hitems.
{ unfold items. rewrite Hperm. simpl. by rewrite He, Hf, Hb, Hej, Hfj, Hbj. }
assert (NoDup (lims_name <$> enumerated w)) as Hnd.
{ rewrite Hkeys. by apply (bool_decide_unpack _). }
exists (items (enumerated w)). split.
- apply get_video_files_ok; [|idtac|done].
  + intros Hnil. rewrite Hnil in Hperm. by apply Permutation_nil_cons in Hperm.
  + rewrite Hperm. repeat (apply Forall_cons; split); try apply Forall_nil;
      by rewrite ?He, ?Hf, ?Hb, ?Hej, ?Hfj, ?Hbj.
- split; [done|].
  split_and!; apply dict_elem_get; rewrite ?keys_items; try done;
    rewrite Hitems; set_solver.
Qed.

End claims_classifier.

Lemma lims_name_last_cue_wins_witness :
  let w := Examples.posix_session_with ["eye.json"; "eye_face_side.mp4"]
             Examples.no_lims ∅ in
  let taken := Examples.posix_session_with ["side.mp4"; "eye_face_side.mp4"]
                 Examples.no_lims ∅ in
  let path := mkPath (npexp_path w) "eye_face_side.mp4" in
  lims_name path = "behavior_tracking"
  ∧ (∃ files, get_video_files (C := Examples.reliable Posix) w = (Ok files, w)
              ∧ Dict.get "behavior_tracking" files = Some path)
  ∧ get_video_files (C := Examples.reliable Posix) taken
    = (Raise (AssertionError
         (duplicate_msg taken (mkPath (npexp_path w) "side.mp4") path)), taken).
Proof.
intros w taken path.
destruct (lims_name_last_cue_wins (C := Examples.reliable Posix) w
            [mkPath (npexp_path w) "eye.json"] [] path true
            eq_refl eq_refl eq_refl) as (Hrole & _ & _ & Hreturns & _).
destruct (lims_name_last_cue_wins (C := Examples.reliable Posix) taken
            [mkPath (npexp_path w) "side.mp4"] [] path true
            eq_refl eq_refl eq_refl) as (_ & _ & _ & _ & Hraises).
split_and!.
- exact Hrole.
- apply Hreturns.
  + apply Forall_cons; split; [by vm_compute|]. by apply Forall_nil.
  + apply (bool_decide_unpack _). vm_compute. exact I.
- destruct Hraises as [Hdup _].
  + apply Forall_cons; split; [by vm_compute|]. by apply Forall_nil.
  + apply (bool_decide_unpack _). vm_compute. exact I.
  + apply Hdup; [apply list_elem_of_here|reflexivity].
Defined.

(** The claim C9 as it is written fails for a file with two cues whose
    role a file before it holds: the classifier raises the duplicate error
    for it. It also fails for a file with two cues and no suffix, which the
    glob yields all the same: the classifier raises the error of line 62. *)
Lemma lims_name_last_cue_wins_counterexample :
  let w := Examples.posix_session_with ["face.mp4"; "eye_face.mp4"]
             Examples.no_lims ∅ in
  let bare := Examples.posix_session_with ["eye_face_session"] Examples.no_lims ∅ in
  enumerated (C := Examples.reliable Posix) w !! 1
    = Some (mkPath (npexp_path w) "eye_face.mp4")
  ∧ Py.contains "eye" "eye_face.mp4" = true
  ∧ Py.contains "face" "eye_face.mp4" = true
  ∧ get_video_files (C := Examples.reliable Posix) w
    = (Raise (AssertionError
         ("Duplicate files found for DRpilot_644864_20230201: "
          +:+ "face.mp4, eye_face.mp4")), w)
  ∧ enumerated (C := Examples.reliable Posix) bare
    = [mkPath (npexp_path bare) "eye_face_session"]
  ∧ get_video_files (C := Examples.reliable Posix) bare
    = (Raise (AssertionError
         ("Not an expected raw video data mp4 or json: "
          +:+ "/allen/programs/mindscope/workgroups/np-exp/DRpilot_644864_20230201"
          +:+ "/eye_face_session")), bare).
Proof. by vm_compute. Qed.

Lemma get_video_files_duplicate_roles_witness :
  let w := Examples.posix_session_with
             ["eye_left.mp4"; "face.mp4"; "eye_right.mp4"; "notes.json"]
             Examples.no_lims ∅ in
  let file := mkPath (npexp_path w) in
  get_video_files (C := Examples.reliable Posix) w
  = (Raise (AssertionError
       (duplicate_msg w (file "eye_left.mp4") (file "eye_right.mp4"))), w).
Proof.
intros w file.
destruct (get_video_files_duplicate_roles (C := Examples.reliable Posix) w
            [] [file "face.mp4"] []
            (file "eye_left.mp4") (file "eye_right.mp4") eq_refl eq_refl)
  as (_ & _ & _ & Hexact).
apply Hexact.
- repeat (apply Forall_cons; split; [by vm_compute|]). by apply Forall_nil.
- apply (bool_decide_unpack _). vm_compute. exact I.
Defined.

(** The claim C8 as it is written fails when the glob yields a file
    without a cue before the second file of the role: the error is then the
    one about that file, and it names neither of the two. *)
Lemma get_video_files_duplicate_roles_counterexample :
  let w := Examples.posix_session_with
             ["camera_settings.json"; "eye_left.mp4"; "eye_right.mp4"]
             Examples.no_lims ∅ in
  enumerated (C := Examples.reliable Posix) w !! 1
    = Some (mkPath (npexp_path w) "eye_left.mp4")
  ∧ enumerated (C := Examples.reliable Posix) w !! 2
    = Some (mkPath (npexp_path w) "eye_right.mp4")
  ∧ lims_name (mkPath (npexp_path w) "eye_left.mp4") = "eye_tracking"
  ∧ lims_name (mkPath (npexp_path w) "eye_right.mp4") = "eye_tracking"
  ∧ get_video_files (C := Examples.reliable Posix) w
    = (Raise (AssertionError
         ("Not an expected raw video data mp4 or json: "
          +:+ "/allen/programs/mindscope/workgroups/np-exp/DRpilot_644864_20230201"
          +:+ "/camera_settings.json")), w).
Proof. by vm_compute. Qed.

Lemma get_video_files_six_roles_witness :
  let w := Examples.session_with Directories.rig Examples.no_lims ∅ in
  let file := mkPath (npexp_path w) in
  ∃ files,
    get_video_files (C := Examples.reliable Windows) w = (Ok files, w)
    ∧ Dict.get "eye_tracking" files = Some (file "Eye_20230201T122604.mp4")
    ∧ Dict.get "face_tracking" files = Some (file "Face_20230201T122604.mp4")
    ∧ Dict.get "behavior_tracking" files = Some (file "Behavior_20230201T122604.mp4")
    ∧ Dict.get "eye_cam_json" files = Some (file "Eye_20230201T122604.json")
    ∧ Dict.get "face_cam_json" files = Some (file "Face_20230201T122604.json")
    ∧ Dict.get "beh_cam_json" files = Some (file "Behavior_20230201T122604.json").
Proof.
intros w file.
destruct (get_video_files_six_roles (C := Examples.reliable Windows) w
            (file "Eye_20230201T122604.mp4") (file "Face_20230201T122604.mp4")
            (file "Behavior_20230201T122604.mp4") (file "Eye_20230201T122604.json")
            (file "Face_20230201T122604.json") (file "Behavior_20230201T122604.json"))
  as [(files & Hrun & _ & Hroles) _]; try reflexivity.
- apply (bool_decide_unpack _). vm_compute. exact I.
- by exists files.
Defined.

(** The claim C7 as it is written fails on files that the glob does not
    yield: a raw directory with one file for each role, each valid for
    that role alone, of which the glob yields none, ends with the error of
    line 65. This happens to names that start with the mouse, and to the
    capitalised names of the rig under the Posix flavour. *)
Lemma get_video_files_six_roles_counterexample :
  let prefixed := Examples.session_with Directories.prefixed Examples.no_lims ∅ in
  let rig := Examples.posix_session_with Directories.rig Examples.no_lims ∅ in
  valid_roles <$> (mkPath (npexp_path prefixed) <$> Directories.prefixed)
  = [["eye_tracking"]; ["face_tracking"]; ["behavior_tracking"];
     ["eye_cam_json"]; ["face_cam_json"]; ["beh_cam_json"]]
  ∧ lims_name <$> (mkPath (npexp_path prefixed) <$> Directories.prefixed)
    = ["eye_tracking"; "face_tracking"; "behavior_tracking";
       "eye_cam_json"; "face_cam_json"; "beh_cam_json"]
  ∧ get_video_files (C := Examples.reliable Windows) prefixed
    = (Raise (AssertionError "No raw video data found: DRpilot_644864_20230201"),
       prefixed)
  ∧ valid_roles <$> (mkPath (npexp_path rig) <$> Directories.rig)
    = [["beh_cam_json"]; ["behavior_tracking"]; ["eye_cam_json"];
       ["eye_tracking"]; ["face_cam_json"]; ["face_tracking"]]
  ∧ lims_name <$> (mkPath (npexp_path rig) <$> Directories.rig)
    = ["beh_cam_json"; "behavior_tracking"; "eye_cam_json"; "eye_tracking";
       "face_cam_json"; "face_tracking"]
  ∧ get_video_files (C := Examples.reliable Posix) rig
    = (Raise (AssertionError "No raw video data found: DRpilot_644864_20230201"),
       rig).
Proof. by vm_compute. Qed.


(** ** Suffixes *)

Lemma rfind_dot_shift i s : Py.rfind_dot (S i) s = S <$> Py.rfind_dot i s.
Proof.
revert i. induction s as [|c s IH]; intros i; simpl; [done|].
rewrite (IH (S i)). destruct (Py.rfind_dot (S i) s); simpl; [done|].
by destruct (Ascii.eqb c ".").
Qed.

Lemma rfind_dot_None i j s : Py.rfind_dot i s = None → Py.rfind_dot j s = None.
Proof.
revert i j. induction s as [|c s IH]; intros i j; simpl; [done|].
destruct (Py.rfind_dot (S i) s) eqn:Hi; [done|]. rewrite (IH _ (S j) Hi).
by destruct (Ascii.eqb c ".").
Qed.

Lemma rfind_dot_app i (stem rest : string) :
  Py.rfind_dot 0 rest = None →
  Py.rfind_dot i (stem +:+ String "." rest) = Some (i + String.length stem).
Proof.
intros Hrest. revert i. induction stem as [|c stem IH]; intros i.
- simpl. rewrite (rfind_dot_None 0 (S i) _ Hrest). f_equal. lia.
- rewrite string_app_cons. simpl. rewrite IH. f_equal. lia.
Qed.

Lemma slice_from_app (stem s : string) :
  Py.slice_from (String.length stem) (stem +:+ s) = s.
Proof. induction stem as [|c stem IH]; simpl; [by destruct s|done]. Qed.

Lemma slice_from_split i (s : string) :
  i ≤ String.length s →
  ∃ stem, s = stem +:+ Py.slice_from i s ∧ String.length stem = i.
Proof.
revert s. induction i as [|i IH]; intros s Hi.
- exists "". by destruct s.
- destruct s as [|c s]; simpl in *; [lia|].
  destruct (IH s) as (stem & Hs & Hlen); [lia|].
  exists (String c stem). split; [|by rewrite <-Hlen].
  by rewrite string_app_cons, <-Hs.
Qed.

Lemma length_app_string (s1 s2 : string) :
  String.length (s1 +:+ s2) = String.length s1 + String.length s2.
Proof. induction s1 as [|c s1 IH]; simpl; [done|]. by rewrite IH. Qed.

(** [path.suffix], lowered, is a given extension exactly for the names that
    end in that extension, in any case, after a stem that is not empty. *)
Lemma suffix_lower_iff (p : Path) (t : string) :
  t ≠ "" → Py.rfind_dot 0 t = None →
  Py.lower (suffix p) = String "." t
  ↔ ∃ stem ext, name p = stem +:+ ext ∧ stem ≠ "" ∧ Py.lower ext = String "." t.
Proof.
intros Ht Hdot. unfold suffix. split.
- destruct (Py.rfind_dot 0 (name p)) as [i|] eqn:Hfind; [|done].
  destruct (0 <? i) eqn:Hpos; [|done].
  destruct (i <? String.length (name p) - 1) eqn:Hlt; [|done]. simpl.
  apply Nat.ltb_lt in Hpos, Hlt. intros Hext.
  destruct (slice_from_split i (name p)) as (stem & Hname & Hlen); [lia|].
  exists stem, (Py.slice_from i (name p)). split_and!; [done| |done].
  intros ->. simpl in Hlen. lia.
- intros (stem & ext & Hname & Hstem & Hext).
  destruct ext as [|c t']; [done|]. simpl in Hext. injection Hext as Hc Ht'.
  assert (c = "."%char) as ->.
  { apply Ascii.eqb_eq. rewrite <-lower_char_dot, Hc. apply Ascii.eqb_refl. }
  assert (Py.rfind_dot 0 t' = None) as Hdot'.
  { by rewrite <-(rfind_dot_lower 0 t'), Ht'. }
  rewrite Hname, (rfind_dot_app 0 stem t' Hdot'), length_app_string. simpl.
  assert (0 < String.length stem) as Hpos by (destruct stem; [done|simpl; lia]).
  assert (0 < String.length t') as Hpos'.
  { destruct t'; [|simpl; lia]. by destruct Ht. }
  assert ((0 <? String.length stem) = true) as -> by (apply Nat.ltb_lt; lia).
  assert ((String.length stem <? String.length stem + S (String.length t') - 1) = true)
    as -> by (apply Nat.ltb_lt; lia).
  simpl. rewrite slice_from_app. cbn [Py.lower]. rewrite Ht'. by f_equal.
Qed.

(** The tests of lines 48 and 55 hold for the names that end in [.mp4],
    or in [.json], in any case, after a stem that is not empty: a file
    named [.mp4] alone has no suffix, and neither has [eye.mp4.] with its
    trailing dot. Every file that gets a role has such a name. *)
Theorem suffix_tests (p : Path) :
  (Py.lower (suffix p) = ".mp4"
   ↔ ∃ stem ext, name p = stem +:+ ext ∧ stem ≠ "" ∧ Py.lower ext = ".mp4")
  ∧ (Py.lower (suffix p) = ".json"
     ↔ ∃ stem ext, name p = stem +:+ ext ∧ stem ≠ "" ∧ Py.lower ext = ".json")
  ∧ (lims_name p ≠ "" →
     ∃ stem ext, name p = stem +:+ ext ∧ stem ≠ ""
                 ∧ (Py.lower ext = ".mp4" ∨ Py.lower ext = ".json"))
  ∧ suffix (mkPath (parent p) ".mp4") = ""
  ∧ suffix (mkPath (parent p) "eye.mp4.") = "".
Proof.
assert (Py.lower (suffix p) = ".mp4"
        ↔ ∃ stem ext, name p = stem +:+ ext ∧ stem ≠ "" ∧ Py.lower ext = ".mp4") as Hmp4.
{ by apply (suffix_lower_iff p "mp4"). }
assert (Py.lower (suffix p) = ".json"
        ↔ ∃ stem ext, name p = stem +:+ ext ∧ stem ≠ "" ∧ Py.lower ext = ".json") as Hjson.
{ by apply (suffix_lower_iff p "json"). }
split_and!; [done|done| |done|done].
intros Hrole.
destruct (String.eqb_spec (Py.lower (suffix p)) ".mp4") as [Hv|Hnv].
- apply Hmp4 in Hv as (stem & ext & ? & ? & ?). exists stem, ext. auto.
- destruct (String.eqb_spec (Py.lower (suffix p)) ".json") as [Hj|Hnj].
  + apply Hjson in Hj as (stem & ext & ? & ? & ?). exists stem, ext. auto.
  + destruct Hrole. unfold lims_name.
    apply String.eqb_neq in Hnv, Hnj. by rewrite Hnv, Hnj.
Qed.

(** ** The glob of the lims tree *)

Lemma string_app_nil_l (s : string) : "" +:+ s = s.
Proof. done. Qed.

Lemma matches_star_iff ci (toks : list Fnmatch.token) (s : string) :
  Fnmatch.matches ci (Fnmatch.TStar :: toks) s = true
  ↔ ∃ pre suf, s = pre +:+ suf ∧ Fnmatch.matches ci toks suf = true.
Proof.
induction s as [|a s IH].
- simpl. rewrite orb_false_r. split.
  + intros Hm. by exists "", "".
  + intros ([|c pre] & suf & Hs & Hm); [|by rewrite string_app_cons in Hs].
    rewrite string_app_nil_l in Hs. by subst.
- change (Fnmatch.matches ci (Fnmatch.TStar :: toks) (String a s))
    with (Fnmatch.matches ci toks (String a s)
          || Fnmatch.matches ci (Fnmatch.TStar :: toks) s).
  rewrite orb_true_iff, IH. split.
  + intros [Hm|(pre & suf & -> & Hm)].
    * by exists "", (String a s).
    * by exists (String a pre), suf.
  + intros ([|c pre] & suf & Hs & Hm).
    * rewrite string_app_nil_l in Hs. subst. by left.
    * rewrite string_app_cons in Hs. injection Hs as -> ->. right. by exists pre, suf.
Qed.

Lemma matches_literal fl (l : list ascii) (s : string) :
  Forall (λ a, Py.lower_char a = a) l →
  Fnmatch.matches (ignorecase fl) (Fnmatch.TLit <$> l) s = true
  ↔ fold_case fl s = string_of_list_ascii l.
Proof.
intros Hl. revert s. induction Hl as [|a l Ha Hl IH]; intros s.
- destruct s; simpl; [by destruct fl|]. split; [done|by destruct fl].
- destruct s as [|c s]; [by destruct fl|].
  cbn [fmap list_fmap Fnmatch.matches string_of_list_ascii].
  rewrite andb_true_iff, IH. unfold fold_case, Fnmatch.same_char.
  destruct fl; simpl.
  + rewrite Ha, Ascii.eqb_eq. split; [by intros [-> ->]|by intros [= -> ->]].
  + rewrite Ascii.eqb_eq. split; [by intros [-> ->]|by intros [= -> ->]].
Qed.

Lemma fnmatch_tracking_iff fl (sub : string) :
  Fnmatch.fnmatch (ignorecase fl) "*_tracking" sub = true
  ↔ ∃ pre suf, sub = pre +:+ suf ∧ fold_case fl suf = "_tracking".
Proof.
unfold Fnmatch.fnmatch.
change (Fnmatch.translate "*_tracking")
  with (Fnmatch.TStar :: (Fnmatch.TLit <$> list_ascii_of_string "_tracking")).
rewrite matches_star_iff. unfold fold_case.
split; intros (pre & suf & Hs & Hm); exists pre, suf; (split; [done|]).
- apply matches_literal in Hm; [done|]. by apply (bool_decide_unpack _).
- apply matches_literal; [|done]. by apply (bool_decide_unpack _).
Qed.

Section lims_tree.
Context `{C : Collaborators}.

(** The glob of line 106 yields exactly the entries of those directories
    of the lims path whose name ends in [_tracking], in any case when the
    flavour ignores case: a file of the lims path itself is never yielded,
    nor is one of a directory of another name. *)
Theorem glob_tracking_iff (d : LimsDir) (p : Path) :
  p ∈ glob_tracking d
  ↔ ∃ pre suf entries f,
      (pre +:+ suf, Some entries) ∈ lims_entries d
      ∧ fold_case flavour suf = "_tracking"
      ∧ f ∈ entries
      ∧ p = mkPath (lims_root d +:+ sep flavour +:+ pre +:+ suf) f.
Proof.
unfold glob_tracking. rewrite list_elem_of_bind. split.
- intros ([sub [entries|]] & Hp & Hsub); simpl in Hp; [|by apply elem_of_nil in Hp].
  destruct (Fnmatch.fnmatch _ "*_tracking" sub) eqn:Hmatch;
    [|by apply elem_of_nil in Hp].
  apply fnmatch_tracking_iff in Hmatch as (pre & suf & -> & Hsuf).
  unfold glob1 in Hp. apply list_elem_of_fmap in Hp as (f & -> & Hf).
  apply list_elem_of_filter in Hf as [_ Hf]. by exists pre, suf, entries, f.
- intros (pre & suf & entries & f & Hsub & Hsuf & Hf & ->).
  exists (pre +:+ suf, Some entries). split; [|done]. simpl.
  assert (Fnmatch.fnmatch (ignorecase flavour) "*_tracking" (pre +:+ suf) = true) as ->.
  { apply fnmatch_tracking_iff. by exists pre, suf. }
  unfold glob1. apply list_elem_of_fmap. exists f. split; [done|].
  apply list_elem_of_filter. split; [apply fnmatch_star|done].
Qed.

End lims_tree.

(** ** Steps of the upload, one by one *)

Lemma with_events_nil (w : World) : with_events [] w = w.
Proof. destruct w. unfold with_events. simpl. by rewrite app_nil_r. Qed.

Lemma with_events_app (evs1 evs2 : list Event) (w : World) :
  with_events evs2 (with_events evs1 w) = with_events (evs1 ++ evs2) w.
Proof. unfold with_events. simpl. by rewrite app_assoc. Qed.

Lemma with_event_events (e : Event) (w : World) : with_event e w = with_events [e] w.
Proof. done. Qed.

Lemma bind_Ok_inv {A B} (m : M A) (f : A → M B) (w w' : World) (b : B) :
  (m ≫= f) w = (Ok b, w') → ∃ a w1, m w = (Ok a, w1) ∧ f a w1 = (Ok b, w').
Proof. rewrite bind_run. destruct (m w) as [[a|e] w1]; [eauto|done]. Qed.

Section upload_steps.
Context `{C : Collaborators}.

(** The classification looks at the session and its raw directory only. *)
Lemma get_video_files_indep (w1 w2 : World) :
  session w2 = session w1 → npexp_path w2 = npexp_path w1 →
  npexp_entries w2 = npexp_entries w1 →
  get_video_files w2 = ((get_video_files w1).1, w2).
Proof.
intros Hs Hp He.
assert ((get_video_files w2).1 = (get_video_files w1).1) as Hres.
{ rewrite !get_video_files_unfold. unfold enumerated, no_data_msg. rewrite Hs, Hp, He.
  generalize (glob1 flavour (npexp_path w1) (npexp_entries w1)
                "[eye|face|side|behavior]*[.mp4|.json]").
  intros paths.
  assert (∀ d, (get_video_files_loop paths d w2).1 = (get_video_files_loop paths d w1).1)
    as Hloop.
  { induction paths as [|p paths IH]; intros d; [done|].
    cbn. destruct (Py.truthy_str (lims_name p)); msimpl; [|done].
    destruct (Dict.get (lims_name p) d); [|by apply IH].
    unfold duplicate_msg. simpl. by rewrite Hs. }
  specialize (Hloop []).
  destruct (get_video_files_loop paths [] w2) as [r2 wa],
    (get_video_files_loop paths [] w1) as [r1 wb]. simpl in Hloop. subst r2.
  by destruct r1 as [[|kv l]|e]. }
pose proof (get_video_files_world w2) as Hw.
destruct (get_video_files w2) as [r w']. simpl in *. by subst.
Qed.

Lemma get_video_files_with_events (evs : list Event) (w : World) :
  get_video_files (with_events evs w) = ((get_video_files w).1, with_events evs w).
Proof. by apply get_video_files_indep. Qed.

(** Copies are made in order and end with the first one that raises. *)
Lemma copy_each_effect (files : list Path) (w : World) :
  match copy_each files w with
  | (Ok _, w') => w' = with_events (copied files) w
  | (Raise e, w') =>
      ∃ before f after,
        files = before ++ f :: after
        ∧ w' = with_events (copied before ++ [EvCopy f DEFAULT_INCOMING_ROOT (Some e)]) w
  end.
Proof.
revert w. induction files as [|f files IH]; intros w.
- simpl. by rewrite with_events_nil.
- cbn [copy_each]. rewrite bind_run. unfold call at 1.
  destruct (np_tools_copy f DEFAULT_INCOMING_ROOT (trace w)) as [exn|].
  + exists [], f, files. by rewrite with_event_events.
  + specialize (IH (with_event (EvCopy f DEFAULT_INCOMING_ROOT None) w)).
    destruct (copy_each files _) as [[u|e] w'].
    * by rewrite IH, with_event_events, with_events_app.
    * destruct IH as (before & g & after & -> & ->).
      exists (f :: before), g, after. split; [done|].
      by rewrite with_event_events, with_events_app.
Qed.

(** The copy step copies every classified file into the incoming
    directory, in the order of the classification, and nothing else; it
    stops at the first copy that raises, with the files before it copied
    and the ones after it not tried; and when the raw directory does not
    classify it copies nothing. *)
Theorem copy_video_files_to_lims_incoming_dir_effect (w : World) :
  match copy_video_files_to_lims_incoming_dir w with
  | (Ok _, w') =>
      ∃ files, get_video_files w = (Ok files, w)
               ∧ w' = with_events (copied (Dict.values files)) w
  | (Raise e, w') =>
      (get_video_files w = (Raise e, w) ∧ w' = w)
      ∨ ∃ files before f after,
          get_video_files w = (Ok files, w)
          ∧ Dict.values files = before ++ f :: after
          ∧ w' = with_events
                   (copied before ++ [EvCopy f DEFAULT_INCOMING_ROOT (Some e)]) w
  end.
Proof.
unfold copy_video_files_to_lims_incoming_dir. rewrite bind_run.
pose proof (get_video_files_world w) as Hw.
destruct (get_video_files w) as [[files|e] w1]; simpl in Hw; subst w1; [|by left].
pose proof (copy_each_effect (Dict.values files) w) as Hcopy.
destruct (copy_each (Dict.values files) w) as [[u|e] w'].
- by exists files.
- destruct Hcopy as (before & f & after & Hsplit & ->). right.
  by exists files, before, f, after.
Qed.

Lemma copy_video_files_Ok_inv (w w' : World) (u : unit) :
  copy_video_files_to_lims_incoming_dir w = (Ok u, w') →
  ∃ files, get_video_files w = (Ok files, w)
           ∧ w' = with_events (copied (Dict.values files)) w.
Proof.
unfold copy_video_files_to_lims_incoming_dir. rewrite bind_run.
pose proof (get_video_files_world w) as Hw.
destruct (get_video_files w) as [[files|e] w1]; simpl in Hw; subst w1; [|done].
pose proof (copy_each_effect (Dict.values files) w) as Hcopy.
destruct (copy_each (Dict.values files) w) as [[u'|e] w1]; [|done].
intros Heq. simplify_eq. by exists files.
Qed.

Lemma write_platform_json_Ok_inv (ps : PipelineSession) (w w' : World) (file : Path) :
  write_platform_json ps w = (Ok file, w') →
  ∃ files, get_video_files w = (Ok files, w)
           ∧ file = manifest_file ps
           ∧ w' = with_event (EvWriteText file (manifest_text files) None) w.
Proof.
unfold write_platform_json. rewrite bind_run.
pose proof (get_video_files_world w) as Hw.
destruct (get_video_files w) as [[files|e] w1]; simpl in Hw; subst w1; [|done].
rewrite bind_run, dumps_manifest. unfold call.
destruct (write_text _ _ _); [done|]. intros [= <- <-]. by exists files.
Qed.

End upload_steps.

(** ** The upload as a whole *)

Section upload_whole.
Context `{C : Collaborators}.

Lemma upload_video_data_to_lims_steps (w : World) :
  upload_video_data_to_lims w
  = match get_spoof_ecephys_session w with
    | (Ok spoof_session, w1) => upload_steps spoof_session w1
    | (Raise e, w1) => (Raise e, w1)
    end.
Proof. apply upload_video_data_to_lims_unfold. Qed.

Lemma upload_steps_Ok_inv (ps : PipelineSession) (w1 w' : World) (u : unit) :
  upload_steps ps w1 = (Ok u, w') →
  ∃ files,
    get_video_files w1 = (Ok files, w1)
    ∧ state w' = <["dlc_started" := PyBool true]> (state w1)
    ∧ trace w'
      = trace w1 ++ log_copying :: copied (Dict.values files)
          ++ [log_manifest;
              EvWriteText (manifest_file ps) (manifest_text files) None;
              log_trigger; EvTrigger (ps_str ps) None].
Proof.
unfold upload_steps. intros Hrun.
apply bind_Ok_inv in Hrun as (? & wa & Ha & Hrun).
unfold logger_info, emit in Ha. simplify_eq.
apply bind_Ok_inv in Hrun as (? & wb & Hb & Hrun).
apply copy_video_files_Ok_inv in Hb as (files & Hfiles & ->).
apply bind_Ok_inv in Hrun as (? & wc & Hc & Hrun).
unfold logger_info, emit in Hc. simplify_eq.
apply bind_Ok_inv in Hrun as (file & wd & Hd & Hrun).
apply write_platform_json_Ok_inv in Hd as (files' & Hfiles' & -> & ->).
apply bind_Ok_inv in Hrun as (? & we & He & Hrun).
unfold logger_info, emit in He. simplify_eq.
apply bind_Ok_inv in Hrun as (? & wf & Hf & Hrun).
unfold call in Hf. destruct (write_trigger_file _ _); [done|].
unfold state_set in Hrun. simplify_eq.
rewrite (get_video_files_indep w1) in Hfiles by done.
rewrite (get_video_files_indep w1) in Hfiles' by done.
destruct (get_video_files w1) as [r w0] eqn:Hw1.
pose proof (get_video_files_world w1) as Hw. rewrite Hw1 in Hw. simpl in *.
subst w0. injection Hfiles as ->. injection Hfiles' as <-.
exists files. split_and!; [done..|]. simpl. by rewrite <-!app_assoc.
Qed.

(** An upload that returns has done its steps in the order of the source,
    each exactly once: resolve the job (a debug line for a stored one, a
    create call for a new one), copy every classified file, write the
    manifest that lists these same files in the same order, write the
    trigger file of the job. Afterwards the store holds the job and the
    started mark, and nothing else is changed in it. *)
Theorem upload_video_data_to_lims_returns_trace (w w' : World) (u : unit) :
  upload_video_data_to_lims w = (Ok u, w') →
  ∃ job files resolved,
    get_video_files w = (Ok files, w)
    ∧ ((state w !! "spoof" = Some (PyStr job) ∧ job ≠ ""
        ∧ resolved = [log_exists w (PyStr job)])
       ∨ (truthy (spoof w) = false
          ∧ resolved = [log_creating;
                        EvGenerate 366122 "ben.hardcastle" (Ok job);
                        log_writing_id]))
    ∧ state w' = <["dlc_started" := PyBool true]> (<["spoof" := PyStr job]> (state w))
    ∧ trace w'
      = trace w ++ resolved ++ log_copying :: copied (Dict.values files)
          ++ [log_manifest;
              EvWriteText (manifest_file (mkPipelineSession job))
                          (manifest_text files) None;
              log_trigger; EvTrigger job None].
Proof.
rewrite upload_video_data_to_lims_steps.
destruct (spoof_cases w) as [(s & Hs & Hne)|[Hjunk|Hfresh]].
- rewrite (get_spoof_ecephys_session_cached _ _ Hs Hne).
  intros (files & Hfiles & Hst & Htr)%upload_steps_Ok_inv.
  rewrite (get_video_files_indep w) in Hfiles by done.
  pose proof (get_video_files_world w) as Hw.
  destruct (get_video_files w) as [r w0]. simpl in *. subst w0.
  injection Hfiles as ->.
  exists s, files, [log_exists w (PyStr s)]. split_and!; [done|by left| |].
  + by rewrite Hst, (insert_id (state w) "spoof").
  + by rewrite Htr, <-!app_assoc.
- by rewrite (get_spoof_ecephys_session_junk _ Hjunk).
- rewrite (get_spoof_ecephys_session_fresh _ Hfresh). simpl.
  destruct (generate_ephys_session _ _ _) as [s|e]; [|done].
  intros (files & Hfiles & Hst & Htr)%upload_steps_Ok_inv.
  rewrite (get_video_files_indep w) in Hfiles by done.
  pose proof (get_video_files_world w) as Hw.
  destruct (get_video_files w) as [r w0]. simpl in *. subst w0.
  injection Hfiles as ->.
  exists s, files,
    [log_creating; EvGenerate 366122 "ben.hardcastle" (Ok s); log_writing_id].
  split_and!; [done|by right|done|]. by rewrite Htr, <-!app_assoc.
Qed.

(** When the raw directory does not classify, the upload ends with that
    error right after the resolver: nothing is copied or written, but a
    job that the resolver has created stays created and stored, so that
    the next attempt finds it. *)
Theorem upload_video_data_to_lims_unclassified (w : World) (e : Exn) :
  get_video_files w = (Raise e, w) →
  upload_video_data_to_lims w
  = match get_spoof_ecephys_session w with
    | (Ok _, w1) => (Raise e, with_event log_copying w1)
    | (Raise e', w1) => (Raise e', w1)
    end
  ∧ (truthy (spoof w) = false →
     ∀ job,
       generate_ephys_session 366122 "ben.hardcastle" (trace w ++ [log_creating])
       = Ok job →
       upload_video_data_to_lims w
       = (Raise e,
          with_event log_copying
            (with_state <["spoof" := PyStr job]>
               (with_event log_writing_id
                  (with_event (EvGenerate 366122 "ben.hardcastle" (Ok job))
                     (with_event log_creating w)))))).
Proof.
intros Hfiles.
assert (upload_video_data_to_lims w
        = match get_spoof_ecephys_session w with
          | (Ok _, w1) => (Raise e, with_event log_copying w1)
          | (Raise e', w1) => (Raise e', w1)
          end) as Hup.
{ rewrite upload_video_data_to_lims_steps.
  pose proof (get_spoof_ecephys_session_effect w) as ((Hs & Hp & He & _) & _).
  destruct (get_spoof_ecephys_session w) as [[ps|e'] w1]; [|done]. simpl in *.
  unfold upload_steps. rewrite bind_run. unfold logger_info at 1, emit at 1.
  rewrite bind_run. unfold copy_video_files_to_lims_incoming_dir. rewrite bind_run.
  rewrite (get_video_files_indep w) by done. by rewrite Hfiles. }
split; [done|]. intros Hfresh job Hjob. rewrite Hup.
rewrite (get_spoof_ecephys_session_fresh _ Hfresh). simpl. by rewrite Hjob.
Qed.

End upload_whole.

(** ** What the retriever answers *)

Section retriever_answers.
Context `{C : Collaborators}.

Lemma get_dlc_paths_unfold (w : World) :
  get_dlc_paths w
  = if not_started w then
      match upload_video_data_to_lims (launching w) with
      | (Ok _, w1) => list_outputs w1
      | (Raise e, w1) => (Raise e, w1)
      end
    else list_outputs w.
Proof.
unfold get_dlc_paths, list_outputs.
unfold not_started, spoof, dlc_started, launching.
rewrite (bind_run (state_get "spoof")). unfold state_get at 1.
rewrite (bind_run (state_get "dlc_started")). unfold state_get at 1.
destruct (_ || _).
- rewrite !bind_run. unfold logger_info, emit.
  destruct (upload_video_data_to_lims _) as [[u|e] w1]; [|done].
  rewrite !bind_run. by destruct (get_spoof_ecephys_session w1) as [[ps|e] w2].
- rewrite !bind_run. unfold mret at 1, M_ret at 1.
  rewrite !bind_run. by destruct (get_spoof_ecephys_session w) as [[ps|e] w2].
Qed.

(** A resolver that answers changes at most the stored identifier, and a
    truthy stored value not even that. *)
Lemma get_spoof_ecephys_session_keeps (w : World) :
  truthy (spoof w) = true → state (get_spoof_ecephys_session w).2 = state w.
Proof.
intros Htrue. destruct (spoof_cases w) as [(s & Hs & Hne)|[Hjunk|Hfresh]].
- by rewrite (get_spoof_ecephys_session_cached _ _ Hs Hne).
- by rewrite (get_spoof_ecephys_session_junk _ Hjunk).
- congruence.
Qed.

Lemma list_outputs_Ok_inv (w1 w' : World) (paths : list Path) :
  list_outputs w1 = (Ok paths, w') →
  ∃ job d,
    get_spoof_ecephys_session w1 = (Ok (mkPipelineSession job), w')
    ∧ state w' !! "spoof" = Some (PyStr job)
    ∧ lims_path w' job = Some d
    ∧ paths = glob_tracking d.
Proof.
unfold list_outputs. intros (ps & w2 & Hps & Hrun)%bind_Ok_inv.
apply bind_Ok_inv in Hrun as (? & ? & Hw & Hrun). unfold world in Hw. simplify_eq.
destruct (lims_path _ _) as [d|] eqn:Hlims; [|done].
unfold mret, M_ret in Hrun. simplify_eq.
exists (ps_str ps), d. destruct ps as [job]. simpl in *.
split_and!; [done| |done..]. by apply get_spoof_ecephys_session_stores in Hps.
Qed.

(** A call of [get_dlc_paths] that returns has listed the outputs, after an
    upload that returned when the session was not started. *)
Lemma get_dlc_paths_Ok_cases (w w' : World) (paths : list Path) :
  get_dlc_paths w = (Ok paths, w') →
  (not_started w = true
   ∧ ∃ u w1, upload_video_data_to_lims (launching w) = (Ok u, w1)
             ∧ list_outputs w1 = (Ok paths, w'))
  ∨ (not_started w = false ∧ list_outputs w = (Ok paths, w')).
Proof.
rewrite get_dlc_paths_unfold. destruct (not_started w) eqn:Hns.
- destruct (upload_video_data_to_lims (launching w)) as [[u|e] w1] eqn:Hup; [|done].
  intros Hlist. left. split; [done|]. by exists u, w1.
- intros Hlist. by right.
Qed.

Lemma get_dlc_paths_Ok_started (w w' : World) (paths : list Path) :
  get_dlc_paths w = (Ok paths, w') → truthy (dlc_started w') = true.
Proof.
intros [(_ & u & w1 & Hup & Hlist)|(Hns & Hlist)]%get_dlc_paths_Ok_cases.
- apply list_outputs_Ok_inv in Hlist as (job & d & Hps & _).
  apply upload_video_data_to_lims_returns in Hup as (ps & w0 & _ & _ & Hst & _).
  pose proof (get_spoof_ecephys_session_effect w1) as (_ & Hd & _).
  rewrite Hps in Hd. simpl in Hd.
  unfold dlc_started. by rewrite Hd, Hst, lookup_insert_eq.
- apply list_outputs_Ok_inv in Hlist as (job & d & Hps & _).
  unfold not_started in Hns. apply orb_false_elim in Hns as [Hs Hd].
  apply negb_false_iff in Hs, Hd.
  pose proof (get_spoof_ecephys_session_keeps w Hs) as Hkeep.
  rewrite Hps in Hkeep. simpl in Hkeep. unfold dlc_started in *. by rewrite Hkeep.
Qed.

(** Paths that [get_dlc_paths] returns are the glob of the lims path of
    the job that the store holds afterwards. For a session that was not
    started, an upload has gone through first: the session is started
    afterwards and one trigger file more is written. For a started session
    the store is as before and no trigger file is written. *)
Theorem get_dlc_paths_returns (w w' : World) (paths : list Path) :
  get_dlc_paths w = (Ok paths, w') →
  ∃ job d,
    state w' !! "spoof" = Some (PyStr job)
    ∧ lims_path w job = Some d
    ∧ paths = glob_tracking d
    ∧ (not_started w = true →
       state w' !! "dlc_started" = Some (PyBool true)
       ∧ count is_trigger (trace w') = S (count is_trigger (trace w)))
    ∧ (not_started w = false →
       state w' = state w
       ∧ count is_trigger (trace w') = count is_trigger (trace w)).
Proof.
intros [(Hns & u & w1 & Hup & Hlist)|(Hns & Hlist)]%get_dlc_paths_Ok_cases.
- apply list_outputs_Ok_inv in Hlist as (job & d & Hps & Hs & Hlims & ->).
  apply upload_video_data_to_lims_returns in Hup
    as (ps & w0 & _ & (_ & _ & _ & Hl1) & Hst & Hstored & Hn).
  pose proof (get_spoof_ecephys_session_effect w1) as ((_ & _ & _ & Hl2) & Hd & Hn').
  rewrite Hps in *. simpl in *.
  exists job, d. split_and!; [done|congruence|done| |congruence].
  intros _. split.
  + by rewrite Hd, Hst, lookup_insert_eq.
  + rewrite Hn', Hn. unfold launching. simpl. rewrite count_snoc. simpl. lia.
- apply list_outputs_Ok_inv in Hlist as (job & d & Hps & Hs & Hlims & ->).
  pose proof (get_spoof_ecephys_session_effect w) as ((_ & _ & _ & Hl) & _ & Hn).
  assert (truthy (spoof w) = true) as Htrue.
  { unfold not_started in Hns. apply orb_false_elim in Hns as [Hs' _].
    by apply negb_false_iff in Hs'. }
  pose proof (get_spoof_ecephys_session_keeps w Htrue) as Hkeep.
  rewrite Hps in *. simpl in *.
  exists job, d. split_and!; [done|congruence|done|congruence|done].
Qed.

Lemma eye_tracking_paths_of_Ok_inv (paths : list Path) (w2 w' : World)
    (r : option (Dict.t Path)) :
  eye_tracking_paths_of paths w2 = (Ok r, w') →
  match r with
  | None =>
      List.find is_ellipse paths = None
      ∧ truthy (dlc_started w2) = true
      ∧ w' = with_event (log_not_ready w2) w2
  | Some answer =>
      ∃ dlc_path files meta,
        List.find is_ellipse paths = Some dlc_path
        ∧ get_video_files w2 = (Ok files, w2)
        ∧ Dict.get "eye_cam_json" files = Some meta
        ∧ answer = bundle meta dlc_path
        ∧ w' = w2
  end.
Proof.
destruct (List.find is_ellipse paths) as [dlc_path|] eqn:Hfind.
- rewrite (eye_tracking_paths_of_some _ _ _ Hfind).
  pose proof (get_video_files_world w2) as Hw.
  destruct (get_video_files w2) as [[files|e] w0]; simpl in Hw; subst w0; [|done].
  destruct (Dict.get "eye_cam_json" files) as [meta|] eqn:Hmeta; [|done].
  intros [= <- <-]. by exists dlc_path, files, meta.
- rewrite (eye_tracking_paths_of_none _ _ Hfind).
  destruct (truthy (dlc_started w2)); [|done]. by intros [= <- <-].
Qed.

(** Whatever the retriever answers is backed by the world it leaves. An
    answer of [None] (pending) means: the store holds a job with a lims
    path under which no path with [ellipse] in its name is globbed, and
    the session is marked as started. A dictionary is always the pair of
    lines 115-118: the first globbed path of that lims path with
    [ellipse] in its name, and the file that the classification of the raw
    directory, which succeeds, has for [eye_cam_json], the key that its
    own name gives it. *)
Theorem get_eye_tracking_paths_answers (w w' : World) (r : option (Dict.t Path)) :
  get_eye_tracking_paths w = (Ok r, w') →
  ∃ job d,
    state w' !! "spoof" = Some (PyStr job)
    ∧ lims_path w' job = Some d
    ∧ match r with
      | None =>
          List.find is_ellipse (glob_tracking d) = None
          ∧ truthy (dlc_started w') = true
      | Some answer =>
          ∃ dlc_path files meta,
            List.find is_ellipse (glob_tracking d) = Some dlc_path
            ∧ get_video_files w' = (Ok files, w')
            ∧ Dict.get "eye_cam_json" files = Some meta
            ∧ lims_name meta = "eye_cam_json"
            ∧ answer = [("raw_eye_tracking_video_meta_data", meta);
                        ("raw_eye_tracking_filepath", dlc_path)]
      end.
Proof.
intros Hrun.
assert (∃ w1, inspect_outputs w1 = (Ok r, w')) as [w1 Hin].
{ rewrite get_eye_tracking_paths_unfold in Hrun. destruct (not_started w); [|eauto].
  destruct (upload_video_data_to_lims _) as [[u|e] w1]; [eauto|done]. }
clear Hrun. change inspect_outputs with (list_outputs ≫= eye_tracking_paths_of) in Hin.
apply bind_Ok_inv in Hin as (paths & w2 & Hlist & Hrun).
apply list_outputs_Ok_inv in Hlist as (job & d & _ & Hs & Hlims & ->).
apply eye_tracking_paths_of_Ok_inv in Hrun. exists job, d. destruct r as [answer|].
- destruct Hrun as (dlc_path & files & meta & Hfind & Hfiles & Hmeta & -> & ->).
  split_and!; [done..|]. exists dlc_path, files, meta. split_and!; try done.
  apply get_video_files_Ok_inv in Hfiles as (_ & -> & _).
  apply dict_get_Some_elem, list_elem_of_fmap in Hmeta as (p & [= Hk ->] & _).
  done.
- destruct Hrun as (Hfind & Hstarted & ->). by split_and!.
Qed.

(** A session whose store holds a job and the started mark can be polled
    at will: a retrieval, whatever it finds and whether it answers or
    raises, leaves the store and the file systems as they are and calls no
    collaborator; it writes one debug line and at most the pending line. *)
Theorem get_eye_tracking_paths_started_only_logs (w : World) (job : string) :
  state w !! "spoof" = Some (PyStr job) → job ≠ "" →
  truthy (dlc_started w) = true →
  let w' := (get_eye_tracking_paths w).2 in
  state w' = state w
  ∧ same_files w w'
  ∧ (trace w' = trace w ++ [log_exists w (PyStr job)]
     ∨ trace w' = trace w ++ [log_exists w (PyStr job); log_not_ready w]).
Proof.
intros Hs Hne Hstarted. rewrite get_eye_tracking_paths_unfold.
assert (not_started w = false) as ->.
{ unfold not_started, spoof. rewrite Hs, Hstarted. simpl.
  by rewrite (truthy_str_ne _ Hne). }
rewrite (inspect_outputs_cached _ _ Hs Hne). simpl.
destruct (lims_path w job) as [d|]; [|by split_and!; [..|left]].
destruct (List.find is_ellipse (glob_tracking d)) as [dlc_path|] eqn:Hfind.
- rewrite (eye_tracking_paths_of_some _ _ _ Hfind).
  destruct (get_video_files _) as [[files|e] w0]; [|by split_and!; [..|left]].
  destruct (Dict.get "eye_cam_json" files); by split_and!; [..|left].
- rewrite (eye_tracking_paths_of_none _ _ Hfind).
  change (dlc_started (with_event _ w)) with (dlc_started w). rewrite Hstarted.
  simpl. split_and!; [done..|right]. by rewrite <-app_assoc.
Qed.

End retriever_answers.

(** ** One launch per session *)

Lemma one_launch_refl (w : World) : one_launch w w.
Proof. by left. Qed.

Lemma one_launch_trans (w1 w2 w3 : World) :
  one_launch w1 w2 → one_launch w2 w3 → one_launch w1 w3.
Proof.
unfold one_launch.
intros [[Hn Hs]|(Hf & Hn & Ht)] [[Hn' Hs']|(Hf' & Hn' & Ht')].
- left. split; [congruence|auto].
- right. split_and!; [|congruence|done].
  destruct (not_started w1); [done|]. rewrite Hs in Hf'; done.
- right. split_and!; [done|congruence|auto].
- congruence.
Qed.

Lemma quiet_one_launch (w w' : World) : quiet w w' → one_launch w w'.
Proof.
intros (_ & Hst & Hn). left. split; [done|].
unfold not_started, spoof, dlc_started. by rewrite Hst.
Qed.

Section one_launch.
Context `{C : Collaborators}.

Hypothesis lims_answers_a_name :
  ∀ mouse user t s, generate_ephys_session mouse user t = Ok s → s ≠ "".

Lemma get_spoof_ecephys_session_truthy (w w' : World) (ps : PipelineSession) :
  get_spoof_ecephys_session w = (Ok ps, w') → truthy (spoof w') = true.
Proof.
intros Hrun. unfold spoof.
rewrite (get_spoof_ecephys_session_stores _ _ _ Hrun). simpl.
apply truthy_str_ne. revert Hrun.
destruct (spoof_cases w) as [(s & Hs & Hne)|[Hjunk|Hfresh]].
- rewrite (get_spoof_ecephys_session_cached _ _ Hs Hne). by intros [= <- _].
- by rewrite (get_spoof_ecephys_session_junk _ Hjunk).
- rewrite (get_spoof_ecephys_session_fresh _ Hfresh). simpl.
  destruct (generate_ephys_session _ _ _) as [s|e] eqn:Hgen; [|done].
  intros [= <- _]. simpl. eauto.
Qed.

Lemma one_launch_resolve : preserves one_launch get_spoof_ecephys_session.
Proof.
intros w. left.
pose proof (get_spoof_ecephys_session_effect w) as (_ & Hd & Hn).
split; [done|]. intros Hns.
assert (truthy (spoof w) = true) as Htrue.
{ unfold not_started in Hns. apply orb_false_elim in Hns as [Hs' _].
  by apply negb_false_iff in Hs'. }
unfold not_started, spoof, dlc_started in *.
by rewrite (get_spoof_ecephys_session_keeps w Htrue).
Qed.

Lemma one_launch_list_outputs : preserves one_launch list_outputs.
Proof.
unfold list_outputs. apply preserves_bind; [apply one_launch_trans| |].
- apply one_launch_resolve.
- intros ps. apply preserves_bind; [apply one_launch_trans|by intros w; left|].
  intros w. destruct (lims_path _ _); intros w0; by left.
Qed.

Lemma one_launch_get_dlc_paths : preserves one_launch get_dlc_paths.
Proof.
intros w. rewrite get_dlc_paths_unfold. destruct (not_started w) eqn:Hns;
  [|apply one_launch_list_outputs].
assert (count is_trigger (trace (launching w)) = count is_trigger (trace w)) as Hl.
{ unfold launching. simpl. rewrite count_snoc. simpl. lia. }
destruct (upload_video_data_to_lims (launching w)) as [[u|e] w1] eqn:Hup.
- apply upload_video_data_to_lims_returns in Hup
    as (ps & w0 & Hps & _ & Hst & Hstored & Hn).
  apply get_spoof_ecephys_session_truthy in Hps as Htrue.
  assert (not_started w1 = false) as Hns1.
  { unfold not_started, spoof, dlc_started in *.
    rewrite Hst, lookup_insert_ne, lookup_insert_eq by done. by rewrite Htrue. }
  destruct (one_launch_list_outputs w1) as [[Hn' Hs']|(Hf' & _)]; [|congruence].
  right. split_and!; [done|congruence|auto].
- apply upload_video_data_to_lims_raises in Hup as (_ & _ & Hn).
  left. simpl. split; [congruence|by rewrite Hns].
Qed.

Lemma one_launch_get_eye_tracking_paths : preserves one_launch get_eye_tracking_paths.
Proof.
apply preserves_bind; [apply one_launch_trans|apply one_launch_get_dlc_paths|].
intros paths w. apply quiet_one_launch.
apply (preserves_eye_tracking_paths_of quiet);
  [apply quiet_refl|apply quiet_trans|intros; by apply quiet_event].
Qed.

Lemma one_launch_run_op (op : Op) (w : World) :
  is_poll op = true → one_launch w (run_op op w).
Proof.
destruct op; simpl; intros Hpoll; try done.
- apply one_launch_resolve.
- rewrite get_video_files_world. apply one_launch_refl.
- apply quiet_one_launch.
  apply (preserves_copy_video_files_to_lims_incoming_dir quiet);
    [apply quiet_refl|apply quiet_trans|intros; by apply quiet_event].
- apply preserves_bind; [apply one_launch_trans|apply one_launch_resolve|].
  intros ps w0. apply quiet_one_launch.
  apply (preserves_write_platform_json quiet);
    [apply quiet_refl|apply quiet_trans|intros; by apply quiet_event].
- apply one_launch_get_dlc_paths.
- apply one_launch_get_eye_tracking_paths.
- by left.
Qed.

(** However often a session is polled, with the file systems changing in
    between, and whatever else of the module is called on it short of the
    upload itself, at most one trigger file is written; once the session
    is started it stays started and no trigger file is written at all.
    The guard is the test of line 101. *)
Theorem polls_launch_once (ops : list Op) (w : World) :
  Forall (λ op, is_poll op = true) ops →
  count is_trigger (trace (run ops w)) ≤ S (count is_trigger (trace w))
  ∧ (not_started w = false →
     not_started (run ops w) = false
     ∧ count is_trigger (trace (run ops w)) = count is_trigger (trace w)).
Proof.
intros Hpolls.
assert (one_launch w (run ops w)) as Hone.
{ revert w. induction Hpolls as [|op ops Hop _ IH]; intros w; simpl;
    [apply one_launch_refl|].
  eapply one_launch_trans; [by apply one_launch_run_op|apply IH]. }
destruct Hone as [[Hn Hs]|(Hf & Hn & Ht)].
- split; [lia|]. intros Hns. auto.
- split; [lia|]. congruence.
Qed.

End one_launch.

(** ** More on the classifier and the retriever *)

Section more_facts.
Context `{C : Collaborators}.

Lemma dict_get_items_perm (l1 l2 : list Path) (k : string) :
  l1 ≡ₚ l2 → NoDup (lims_name <$> l1) →
  Dict.get k (items l1) = Dict.get k (items l2).
Proof.
intros Hperm Hnd.
assert (NoDup (lims_name <$> l2)) as Hnd2 by by rewrite <-Hperm.
destruct (Dict.get k (items l1)) as [p|] eqn:Hget.
- symmetry. apply dict_elem_get; [by rewrite keys_items|].
  apply dict_get_Some_elem in Hget. unfold items in *. by rewrite <-Hperm.
- symmetry. apply dict_get_None. apply dict_get_None in Hget.
  rewrite keys_items in *. by rewrite <-Hperm.
Qed.

(** Whether a raw directory classifies, and which file each role gets,
    does not depend on the order in which the directory is listed: two
    listings of the same files either both fail or both return, and then
    with the same file under every key. Only the order of the entries
    follows the listing. *)
Theorem get_video_files_order_independent (w1 w2 : World) (files : Dict.t Path) :
  enumerated w1 ≡ₚ enumerated w2 →
  get_video_files w1 = (Ok files, w1) →
  ∃ files',
    get_video_files w2 = (Ok files', w2)
    ∧ files' ≡ₚ files
    ∧ ∀ k, Dict.get k files' = Dict.get k files.
Proof.
intros Hperm (_ & -> & Hne & Hrec & Hnd)%get_video_files_Ok_inv.
exists (items (enumerated w2)). split_and!.
- apply get_video_files_ok.
  + intros Hnil. rewrite Hnil in Hperm. by apply Permutation_nil_r in Hperm.
  + by rewrite <-Hperm.
  + by rewrite <-Hperm.
- unfold items. by rewrite Hperm.
- intros k. symmetry. by apply dict_get_items_perm.
Qed.

(** For a job without a lims path [get_dlc_paths] raises the assertion of
    line 105, which names the job. This also ends the call that has just
    uploaded a session, and the upload stands: the session is started, so
    that later calls do not upload again. *)
Theorem get_dlc_paths_no_lims_path (w : World) (job : string) :
  (state w !! "spoof" = Some (PyStr job) → job ≠ "" →
   truthy (dlc_started w) = true →
   lims_path w job = None →
   get_dlc_paths w
   = (Raise (AssertionError (no_lims_path_msg job)),
      with_event (log_exists w (PyStr job)) w))
  ∧ (∀ u w1,
       not_started w = true →
       upload_video_data_to_lims (launching w) = (Ok u, w1) →
       state w1 !! "spoof" = Some (PyStr job) → job ≠ "" →
       lims_path w job = None →
       get_dlc_paths w
       = (Raise (AssertionError (no_lims_path_msg job)),
          with_event (log_exists w (PyStr job)) w1)
       ∧ not_started (with_event (log_exists w (PyStr job)) w1) = false).
Proof.
assert (∀ w0, state w0 !! "spoof" = Some (PyStr job) → job ≠ "" →
          lims_path w0 job = None →
          list_outputs w0
          = (Raise (AssertionError (no_lims_path_msg job)),
             with_event (log_exists w0 (PyStr job)) w0)) as Hlist.
{ intros w0 Hs Hne Hlims. unfold list_outputs. rewrite bind_run.
  rewrite (get_spoof_ecephys_session_cached _ _ Hs Hne). rewrite bind_run. simpl.
  by rewrite Hlims. }
split.
- intros Hs Hne Hstarted Hlims. rewrite get_dlc_paths_unfold.
  assert (not_started w = false) as ->.
  { unfold not_started, spoof. rewrite Hs, Hstarted. simpl.
    by rewrite (truthy_str_ne _ Hne). }
  by apply Hlist.
- intros u w1 Hns Hup Hs Hne Hlims. rewrite get_dlc_paths_unfold, Hns, Hup.
  apply upload_video_data_to_lims_returns in Hup
    as (ps & w0 & _ & (Hses & _ & _ & Hl) & Hst & _ & _).
  simpl in Hses, Hl. rewrite Hlist; [|done|done|by rewrite Hl].
  unfold log_exists. rewrite Hses. split; [done|].
  unfold not_started, spoof, dlc_started. simpl.
  rewrite Hs. rewrite Hst, lookup_insert_eq. simpl. by rewrite (truthy_str_ne _ Hne).
Qed.

(** Through [get_eye_tracking_paths] the [raise] of line 114 is never
    reached: whenever [get_dlc_paths] has returned, the session is marked
    as started, so an empty search is answered with [None]. *)
Theorem file_not_found_unreachable (w w1 : World) (paths : list Path) :
  get_dlc_paths w = (Ok paths, w1) →
  truthy (dlc_started w1) = true
  ∧ ∀ msg w', eye_tracking_paths_of paths w1 ≠ (Raise (FileNotFoundError msg), w').
Proof.
intros Hrun. pose proof (get_dlc_paths_Ok_started _ _ _ Hrun) as Hstarted.
split; [done|]. intros msg w'.
destruct (List.find is_ellipse paths) as [dlc_path|] eqn:Hfind.
- rewrite (eye_tracking_paths_of_some _ _ _ Hfind).
  destruct (get_video_files w1) as [[files|e] w0] eqn:Hfiles.
  + by destruct (Dict.get "eye_cam_json" files).
  + apply get_video_files_raises in Hfiles as [m ->]. done.
- rewrite (eye_tracking_paths_of_none _ _ Hfind), Hstarted. done.
Qed.

End more_facts.

(** ** The further theorems on explicit sessions *)

Lemma get_video_files_returns_witness :
  let w := Examples.session_with Directories.rig Examples.no_lims ∅ in
  let files := items (enumerated (C := Examples.reliable Windows) w) in
  get_video_files (C := Examples.reliable Windows) w = (Ok files, w)
  ∧ Dict.values files = enumerated (C := Examples.reliable Windows) w
  ∧ sublist (name <$> Dict.values files) (npexp_entries w)
  ∧ NoDup (Dict.keys files)
  ∧ 1 ≤ length files ≤ 6.
Proof.
intros w files.
assert (get_video_files (C := Examples.reliable Windows) w = (Ok files, w)) as Hrun
  by by vm_compute.
destruct (get_video_files_returns (C := Examples.reliable Windows) w w files Hrun)
  as (_ & _ & Hvalues & Hsub & _ & Hnd & Hlen).
split_and!; [exact Hrun|exact Hvalues|exact Hsub|exact Hnd|apply Hlen..].
Defined.

Lemma get_video_files_no_data_witness :
  let w := Examples.session_with ["notes.txt"; "sync.h5"] Examples.no_lims ∅ in
  get_video_files (C := Examples.reliable Windows) w
  = (Raise (AssertionError (no_data_msg w)), w).
Proof.
intros w.
exact (proj2 (get_video_files_no_data (C := Examples.reliable Windows) w) eq_refl).
Defined.

Lemma get_video_files_more_than_six_witness :
  let w := Examples.session_with (Directories.rig ++ ["Eye_20230201T130000.mp4"])
             Examples.no_lims ∅ in
  length (enumerated (C := Examples.reliable Windows) w) = 7
  ∧ ∃ msg, get_video_files (C := Examples.reliable Windows) w
           = (Raise (AssertionError msg), w).
Proof.
intros w. split; [reflexivity|].
apply (get_video_files_more_than_six (C := Examples.reliable Windows) w).
vm_compute. lia.
Defined.

Lemma get_video_files_first_unexpected_witness :
  let w := Examples.posix_session_with ["eye.mp4"; "frames.json"; "face.mp4"]
             Examples.no_lims ∅ in
  get_video_files (C := Examples.reliable Posix) w
  = (Raise (AssertionError
       (unexpected_msg (C := Examples.reliable Posix)
          (mkPath (npexp_path w) "frames.json"))), w).
Proof.
intros w.
apply (get_video_files_first_unexpected (C := Examples.reliable Posix) w
         [mkPath (npexp_path w) "eye.mp4"] [mkPath (npexp_path w) "face.mp4"]
         (mkPath (npexp_path w) "frames.json")).
- reflexivity.
- apply Forall_cons; split; [by vm_compute|]. by apply Forall_nil.
- apply (bool_decide_unpack _). vm_compute. exact I.
- reflexivity.
Defined.

Lemma get_video_files_first_duplicate_witness :
  let w := Examples.posix_session_with ["eye_left.mp4"; "face.mp4"; "eye_right.mp4"]
             Examples.no_lims ∅ in
  get_video_files (C := Examples.reliable Posix) w
  = (Raise (AssertionError
       (duplicate_msg w (mkPath (npexp_path w) "eye_left.mp4")
                        (mkPath (npexp_path w) "eye_right.mp4"))), w).
Proof.
intros w.
apply (get_video_files_first_duplicate (C := Examples.reliable Posix) w
         [mkPath (npexp_path w) "eye_left.mp4"; mkPath (npexp_path w) "face.mp4"] []
         (mkPath (npexp_path w) "eye_left.mp4")
         (mkPath (npexp_path w) "eye_right.mp4")).
- reflexivity.
- repeat (apply Forall_cons; split; [by vm_compute|]). by apply Forall_nil.
- apply (bool_decide_unpack _). vm_compute. exact I.
- apply list_elem_of_here.
- reflexivity.
Defined.

Lemma get_video_files_order_independent_witness :
  let w1 := Examples.session_with Directories.rig Examples.no_lims ∅ in
  let w2 := Examples.session_with (rev Directories.rig) Examples.no_lims ∅ in
  ∃ files',
    get_video_files (C := Examples.reliable Windows) w2 = (Ok files', w2)
    ∧ files' ≡ₚ items (enumerated (C := Examples.reliable Windows) w1)
    ∧ ∀ k, Dict.get k files'
           = Dict.get k (items (enumerated (C := Examples.reliable Windows) w1)).
Proof.
intros w1 w2.
apply (get_video_files_order_independent (C := Examples.reliable Windows) w1 w2).
- assert (enumerated (C := Examples.reliable Windows) w2
          = rev (enumerated (C := Examples.reliable Windows) w1)) as ->
    by by vm_compute.
  apply Permutation_rev.
- by vm_compute.
Defined.

Lemma suffix_tests_witness :
  let p := mkPath "/allen/np-exp" "Eye_20230201T122604.MP4" in
  Py.lower (suffix p) = ".mp4" ∧ Py.lower (suffix p) ≠ ".json".
Proof.
intros p.
destruct (suffix_tests p) as ([_ Hmp4] & [Hjson _] & _).
split.
- apply Hmp4. exists "Eye_20230201T122604", ".MP4". by split_and!.
- intros Heq. by vm_compute in Heq.
Defined.

Lemma glob_tracking_iff_witness :
  mkPath ("\\allen\programs\braintv\production\prod0\ecephys_session_1250000000"
          +:+ "\" +:+ "Face" +:+ "_Tracking") "Face_20230201T122604_ellipse.h5"
  ∈ glob_tracking (C := Examples.reliable Windows)
      (mkLimsDir
         "\\allen\programs\braintv\production\prod0\ecephys_session_1250000000"
         [("upload.log", None);
          ("Face_Tracking", Some ["Face_20230201T122604_ellipse.h5"])]).
Proof.
apply (glob_tracking_iff (C := Examples.reliable Windows)).
exists "Face", "_Tracking", ["Face_20230201T122604_ellipse.h5"],
  "Face_20230201T122604_ellipse.h5".
split_and!; [|reflexivity| |reflexivity].
- apply list_elem_of_further, list_elem_of_here.
- apply list_elem_of_here.
Defined.

Lemma upload_video_data_to_lims_returns_trace_witness :
  let w := Examples.session_with Directories.rig Scenes.lims_running ∅ in
  let w' := (upload_video_data_to_lims (C := Examples.reliable Windows) w).2 in
  ∃ job files,
    get_video_files (C := Examples.reliable Windows) w = (Ok files, w)
    ∧ state w'
      = <["dlc_started" := PyBool true]> (<["spoof" := PyStr job]> (state w))
    ∧ trace w'
      = trace w
        ++ [log_creating; EvGenerate 366122 "ben.hardcastle" (Ok job);
            log_writing_id]
        ++ log_copying
        :: copied (C := Examples.reliable Windows) (Dict.values files)
        ++ [log_manifest;
            EvWriteText
              (manifest_file (C := Examples.reliable Windows)
                 (mkPipelineSession job))
              (manifest_text files) None;
            log_trigger; EvTrigger job None].
Proof.
intros w w'.
assert (upload_video_data_to_lims (C := Examples.reliable Windows) w = (Ok tt, w'))
  as Hrun by (vm_compute; reflexivity).
destruct (upload_video_data_to_lims_returns_trace (C := Examples.reliable Windows)
            w w' tt Hrun)
  as (job & files & resolved & Hfiles & [(Hs & _)|(_ & ->)] & Hstate & Htrace).
{ discriminate Hs. }
exists job, files. split_and!; [exact Hfiles|exact Hstate|exact Htrace].
Defined.

Lemma upload_video_data_to_lims_unclassified_witness :
  let w := Examples.session_with [] Scenes.lims_running ∅ in
  upload_video_data_to_lims (C := Examples.reliable Windows) w
  = (Raise (AssertionError (no_data_msg w)),
     with_event log_copying
       (with_state <["spoof" := PyStr Scenes.job]>
          (with_event log_writing_id
             (with_event (EvGenerate 366122 "ben.hardcastle" (Ok Scenes.job))
                (with_event log_creating w))))).
Proof.
intros w.
destruct (upload_video_data_to_lims_unclassified (C := Examples.reliable Windows)
            w (AssertionError (no_data_msg w)) eq_refl) as [_ Hfresh].
exact (Hfresh eq_refl Scenes.job eq_refl).
Defined.

Lemma get_dlc_paths_returns_witness :
  let w := Examples.session_with Directories.rig Scenes.lims_running ∅ in
  let w' := (get_dlc_paths (C := Examples.reliable Windows) w).2 in
  ∃ job d,
    state w' !! "spoof" = Some (PyStr job)
    ∧ lims_path w job = Some d
    ∧ state w' !! "dlc_started" = Some (PyBool true)
    ∧ count is_trigger (trace w') = S (count is_trigger (trace w)).
Proof.
intros w w'.
destruct (get_dlc_paths_returns (C := Examples.reliable Windows) w w'
            (glob_tracking (C := Examples.reliable Windows) Scenes.running_dir))
  as (job & d & Hjob & Hlims & _ & Hfresh & _); [by vm_compute|].
exists job, d. destruct (Hfresh eq_refl) as [Hstarted Hone]. by split_and!.
Defined.

Lemma get_dlc_paths_no_lims_path_witness :
  let w := Examples.session_with Directories.rig Examples.no_lims Scenes.started in
  let fresh := Examples.session_with Directories.rig Examples.no_lims ∅ in
  get_dlc_paths (C := Examples.reliable Windows) w
  = (Raise (AssertionError (no_lims_path_msg Scenes.job)),
     with_event (log_exists w (PyStr Scenes.job)) w)
  ∧ (get_dlc_paths (C := Examples.reliable Windows) fresh).1
    = Raise (AssertionError (no_lims_path_msg Scenes.job))
  ∧ not_started (get_dlc_paths (C := Examples.reliable Windows) fresh).2 = false.
Proof.
intros w fresh.
destruct (get_dlc_paths_no_lims_path (C := Examples.reliable Windows) w Scenes.job)
  as [Hstarted _].
destruct (get_dlc_paths_no_lims_path (C := Examples.reliable Windows) fresh Scenes.job)
  as [_ Hfresh].
split; [apply Hstarted; [reflexivity|discriminate|reflexivity..]|].
destruct (Hfresh tt
            (upload_video_data_to_lims (C := Examples.reliable Windows)
               (launching fresh)).2)
  as [Hrun Hflag]; [reflexivity|by vm_compute|by vm_compute|discriminate|reflexivity|].
rewrite Hrun. by split.
Defined.

Lemma file_not_found_unreachable_witness :
  let w := Examples.session_with Directories.rig Scenes.lims_running ∅ in
  let w1 := (get_dlc_paths (C := Examples.reliable Windows) w).2 in
  let paths := glob_tracking (C := Examples.reliable Windows) Scenes.running_dir in
  List.find is_ellipse paths = None
  ∧ truthy (dlc_started w1) = true
  ∧ ∀ msg w', eye_tracking_paths_of (C := Examples.reliable Windows) paths w1
              ≠ (Raise (FileNotFoundError msg), w').
Proof.
intros w w1 paths. split; [reflexivity|].
apply (file_not_found_unreachable (C := Examples.reliable Windows) w w1 paths).
by vm_compute.
Defined.

Lemma get_eye_tracking_paths_answers_witness :
  let w := Examples.session_with Directories.rig Scenes.lims_done Scenes.started in
  let w' := with_event (log_exists w (PyStr Scenes.job)) w in
  let dlc_path :=
    mkPath ("\\allen\programs\braintv\production\prod0\ecephys_session_1250000000"
            +:+ "\eye_tracking") "Eye_20230201T122604_ellipse.h5" in
  let meta := mkPath (npexp_path w) "Eye_20230201T122604.json" in
  ∃ job d,
    state w' !! "spoof" = Some (PyStr job)
    ∧ lims_path w' job = Some d
    ∧ ∃ dlc_path' files meta',
        List.find is_ellipse (glob_tracking (C := Examples.reliable Windows) d)
        = Some dlc_path'
        ∧ get_video_files (C := Examples.reliable Windows) w' = (Ok files, w')
        ∧ Dict.get "eye_cam_json" files = Some meta'
        ∧ lims_name meta' = "eye_cam_json"
        ∧ [("raw_eye_tracking_video_meta_data", meta);
           ("raw_eye_tracking_filepath", dlc_path)]
          = [("raw_eye_tracking_video_meta_data", meta');
             ("raw_eye_tracking_filepath", dlc_path')].
Proof.
intros w w' dlc_path meta.
apply (get_eye_tracking_paths_answers (C := Examples.reliable Windows) w w'
         (Some [("raw_eye_tracking_video_meta_data", meta);
                ("raw_eye_tracking_filepath", dlc_path)])).
by vm_compute.
Defined.

Lemma get_eye_tracking_paths_started_only_logs_witness :
  let w := Examples.session_with Directories.rig Scenes.lims_running Scenes.started in
  let w' := (get_eye_tracking_paths (C := Examples.reliable Windows) w).2 in
  state w' = state w
  ∧ same_files w w'
  ∧ (trace w' = trace w ++ [log_exists w (PyStr Scenes.job)]
     ∨ trace w' = trace w ++ [log_exists w (PyStr Scenes.job); log_not_ready w]).
Proof.
intros w.
apply (get_eye_tracking_paths_started_only_logs (C := Examples.reliable Windows)
         w Scenes.job); [reflexivity|discriminate|reflexivity].
Defined.

Lemma polls_launch_once_witness :
  let w := Examples.session_with Directories.rig Scenes.lims_running ∅ in
  let ops := [OpRetrieve; OpDlcPaths; OpClassify;
              OpElapse Directories.rig Scenes.lims_done; OpRetrieve; OpResolve] in
  count is_trigger (trace (run (C := Examples.reliable Windows) ops w))
  ≤ S (count is_trigger (trace w)).
Proof.
intros w ops.
destruct (polls_launch_once (C := Examples.reliable Windows)) with (ops := ops) (w := w)
  as [Hle _].
- intros mouse user t s [= <-]. discriminate.
- repeat (apply Forall_cons; split; [reflexivity|]). by apply Forall_nil.
- exact Hle.
Defined.

(** ** Where the errors of the retriever come from *)

Section retriever_errors.
Context `{C : Collaborators}.

(** An error of [get_eye_tracking_paths] is an error of [get_dlc_paths],
    or it comes up after an ellipse file was found: the raw directory does
    not classify, or it classifies without a json file of the eye camera,
    which is the [KeyError] of line 116. The [FileNotFoundError] of line 114
    is not among them. *)
Theorem get_eye_tracking_paths_errors (w w' : World) (e : Exn) :
  get_eye_tracking_paths w = (Raise e, w')
  ↔ get_dlc_paths w = (Raise e, w')
    ∨ ∃ paths dlc_path,
        get_dlc_paths w = (Ok paths, w')
        ∧ List.find is_ellipse paths = Some dlc_path
        ∧ (get_video_files w' = (Raise e, w')
           ∨ ∃ files, get_video_files w' = (Ok files, w')
                      ∧ Dict.get "eye_cam_json" files = None
                      ∧ e = KeyError "eye_cam_json").
Proof.
unfold get_eye_tracking_paths. rewrite bind_run.
destruct (get_dlc_paths w) as [[paths|e0] w1] eqn:Hdlc.
- destruct (List.find is_ellipse paths) as [dlc_path|] eqn:Hfind.
  + rewrite (eye_tracking_paths_of_some _ _ _ Hfind).
    pose proof (get_video_files_world w1) as Hw.
    destruct (get_video_files w1) as [[files|e1] w0] eqn:Hfiles;
      simpl in Hw; subst w0.
    * destruct (Dict.get "eye_cam_json" files) as [meta|] eqn:Hget.
      -- split; [done|].
         intros [?|(ps & dp & Heq & _ & [Hf|(fs & Hf & Hn & _)])]; [done|..];
           injection Heq as <- <-; rewrite Hfiles in Hf; congruence.
      -- split.
         ++ intros [= <- <-]. right. exists paths, dlc_path.
            split_and!; [done..|]. right. by exists files.
         ++ intros [?|(ps & dp & Heq & _ & [Hf|(fs & Hf & Hn & ->)])]; [done|..];
              injection Heq as <- <-; [|done]. rewrite Hfiles in Hf. congruence.
    * split.
      -- intros [= <- <-]. right. exists paths, dlc_path.
         split_and!; [done..|]. by left.
      -- intros [?|(ps & dp & Heq & _ & [Hf|(fs & Hf & _)])]; [done|..];
           injection Heq as <- <-; rewrite Hfiles in Hf; congruence.
  + rewrite (eye_tracking_paths_of_none _ _ Hfind).
    rewrite (get_dlc_paths_Ok_started _ _ _ Hdlc).
    split; [done|]. intros [?|(ps & dp & Heq & Hf & _)]; [done|].
    injection Heq as <- <-. congruence.
- split.
  + intros [= <- <-]. by left.
  + intros [Heq|(ps & dp & Heq & _)]; [by injection Heq as <- <-|done].
Qed.

End retriever_errors.

Lemma get_eye_tracking_paths_errors_witness :
  let w := Examples.session_with
             ["Eye_20230201T122604.mp4"; "Face_20230201T122604.mp4"]
             Scenes.lims_done Scenes.started in
  let w' := with_event (log_exists w (PyStr Scenes.job)) w in
  get_eye_tracking_paths (C := Examples.reliable Windows) w
  = (Raise (KeyError "eye_cam_json"), w').
Proof.
intros w w'.
apply (get_eye_tracking_paths_errors (C := Examples.reliable Windows)).
right.
exists (glob_tracking (C := Examples.reliable Windows) Scenes.done_dir),
  (mkPath ("\\allen\programs\braintv\production\prod0\ecephys_session_1250000000"
           +:+ "\eye_tracking") "Eye_20230201T122604_ellipse.h5").
split_and!; [by vm_compute|by vm_compute|].
right. exists (items (enumerated (C := Examples.reliable Windows) w')).
by vm_compute.
Defined.

(** ** Which files the classifier looks at *)

Section raw_glob.
Context `{C : Collaborators}.

(** The brackets of the pattern of line 46 are sets of characters, not
    alternatives: the glob yields exactly the entries of the raw directory
    whose name has at least two characters, begins with a character of
    [eye|face|side|behavior] and ends with a character of [.mp4|.json], up
    to case when the flavour ignores it. Neither the cue nor the suffix of
    a name is part of this test. *)
Theorem get_video_files_glob_iff (w : World) (p : Path) :
  p ∈ enumerated w
  ↔ parent p = npexp_path w
    ∧ name p ∈ npexp_entries w
    ∧ ∃ c mid c',
        name p = String c (mid +:+ String c' "")
        ∧ in_class flavour first_chars c = true
        ∧ in_class flavour last_chars c' = true.
Proof.
unfold enumerated, glob1. rewrite list_elem_of_fmap. split.
- intros (n & -> & Hn). apply list_elem_of_filter in Hn as [Hmatch Hn].
  apply enumerated_first_last in Hmatch. by split_and!.
- intros (Hparent & Hn & Hmatch). exists (name p). split.
  + destruct p as [d n]. simpl in *. by subst d.
  + apply list_elem_of_filter. split; [|done]. by apply enumerated_first_last.
Qed.

End raw_glob.

Lemma get_video_files_glob_iff_witness :
  let w := Examples.session_with ["mouse_eye.mp4"; "vsync.json"; "Eye.mp4"]
             Examples.no_lims ∅ in
  mkPath (npexp_path w) "vsync.json" ∈ enumerated (C := Examples.reliable Windows) w
  ∧ mkPath (npexp_path w) "mouse_eye.mp4"
    ∉ enumerated (C := Examples.reliable Windows) w.
Proof.
intros w. split.
- apply (get_video_files_glob_iff (C := Examples.reliable Windows)).
  split_and!; [reflexivity|apply list_elem_of_further, list_elem_of_here|].
  by exists "v"%char, "sync.jso", "n"%char.
- intros Hin.
  apply (get_video_files_glob_iff (C := Examples.reliable Windows)) in Hin
    as (_ & _ & c & mid & c' & Hname & Hc & _).
  simpl in Hname. injection Hname as <- _. by vm_compute in Hc.
Defined.
